(** * gen_requirements: a shallow embedding of the import scanner

    The script walks a project tree, parses every Python file, collects
    the top-level names of its imports, classifies each name as local,
    stdlib or third-party, resolves the third-party names to installed
    distributions and writes a pinned requirements file.

    A [str] is the [string] of its characters, each character being its
    code point: the texts covered are those over U+0000..U+00FF, and on
    them [len], [lower], the comparisons, [strip] and [splitlines] below
    are Python's.  The script's own texts are ASCII but for the
    apostrophe U+2019 in the closing line of the warning, which stands
    as its three UTF-8 bytes; that line is only printed.  A [Set[str]]
    is a [gset string], a dict that is only looked up is a [gmap], the
    dict whose iteration order reaches the output is an association list
    in insertion order, and whatever can raise returns a [result]. *)

From stdpp Require Import gmap strings list pretty sorting.
From Stdlib Require Import ZArith Ascii String Permutation.

Open Scope string_scope.
Set Warnings "-register-all".

(** ** Exceptions *)

Inductive exn : Type :=
  | SyntaxError
  | IndexError
  | PackageNotFoundError
  | OtherException (what : string).

Inductive result (A : Type) : Type :=
  | Ok (a : A)
  | Raise (e : exn).
Arguments Ok {A} a.
Arguments Raise {A} e.

#[global] Instance result_ret : MRet result := fun A a => Ok a.
#[global] Instance result_bind : MBind result := fun A B k r =>
  match r with
  | Ok a => k a
  | Raise e => Raise e
  end.

(** ** The Python primitives the script uses *)

Module Py.

(** [str.lower] on one character: the letters A to Z and the capital
  letters U+00C0 to U+00DE (the multiplication sign U+00D7 is none) have
  their small letter 32 places further; no other character below U+0100
  changes, and none becomes more than one character. *)
Definition chr_lower (c : ascii) : ascii :=
let n := nat_of_ascii c in
if ((65 <=? n)%nat && (n <=? 90)%nat)
   || ((192 <=? n)%nat && (n <=? 222)%nat && negb (n =? 215)%nat)
then ascii_of_nat (n + 32) else c.

Fixpoint lower (s : string) : string :=
match s with
| EmptyString => EmptyString
| String c r => String (chr_lower c) (lower r)
end.

(** [s.replace(a, b)] for one-character [a] and [b]. *)
Fixpoint replace (a b : ascii) (s : string) : string :=
match s with
| EmptyString => EmptyString
| String c r => String (if Ascii.eqb c a then b else c) (replace a b r)
end.

(** [s.startswith(p)] *)
Definition startswith (s p : string) : bool := String.prefix p s.

(** [s.endswith(p)] *)
Definition endswith (s p : string) : bool :=
String.prefix (String.rev p) (String.rev s).

(** [needle in hay] on strings: substring search. *)
Fixpoint contains (needle hay : string) : bool :=
String.prefix needle hay ||
match hay with
| EmptyString => false
| String _ r => contains needle r
end.

(** [s.split(c)] for a one-character separator: never empty. *)
Fixpoint split (c : ascii) (s : string) : list string :=
match s with
| EmptyString => [EmptyString]
| String a r =>
    if Ascii.eqb a c then EmptyString :: split c r
    else match split c r with
         | x :: xs => String a x :: xs
         | [] => [String a EmptyString]
         end
end.

(** [sep.join(l)] *)
Definition join (sep : string) (l : list string) : string := String.concat sep l.

(** [len(s)], the number of characters, as a Python int. *)
Definition len (s : string) : Z := Z.of_nat (String.length s).

(** Stable sorting.  [sorted] and [list.sort] are stable; a stable sort
  of a list under a total preorder has one possible output, which
  insertion from the right produces: the new element goes before the
  first element it is [le] to. *)
Section Sorting.
Context {A : Type} (le : A -> A -> bool).

Fixpoint insert (x : A) (l : list A) : list A :=
  match l with
  | [] => [x]
  | y :: r => if le x y then x :: y :: r else y :: insert x r
  end.

Fixpoint sort (l : list A) : list A :=
  match l with
  | [] => []
  | x :: r => insert x (sort r)
  end.
End Sorting.

(** [sorted(xs)] on strings, [sorted(xs, key=k)] with string keys. *)
Definition sorted (l : list string) : list string := sort String.leb l.
Definition sorted_key {A} (key : A -> string) (l : list A) : list A :=
sort (fun x y => String.leb (key x) (key y)) l.

(** Tuples [(int, str)] compare lexicographically. *)
Definition tuple_leb (a b : Z * string) : bool :=
(a.1 <? b.1)%Z || ((a.1 =? b.1)%Z && String.leb a.2 b.2).

(** [l.sort(reverse=True)] on such tuples; stability is kept, so the new
  element goes before the first element that is not greater. *)
Definition sort_reverse (l : list (Z * string)) : list (Z * string) :=
sort (fun x y => tuple_leb y x) l.

(** A dict in insertion order: [d[k] = v] overwrites in place or appends. *)
Fixpoint setitem (k v : string) (d : list (string * string)) : list (string * string) :=
match d with
| [] => [(k, v)]
| (k', v') :: r => if String.eqb k' k then (k, v) :: r else (k', v') :: setitem k v r
end.

Definition keys (d : list (string * string)) : list string := map fst d.

End Py.

(** ** Paths and the directory tree

    A [pathlib.Path] is its sequence of parts; [p / name] appends one
    part (every name the script joins is a single relative component:
    a directory entry or an import identifier). *)

Definition Path : Type := list string.

Definition path_join (p : Path) (name : string) : Path := (p ++ [name])%list.
Infix "//" := path_join (at level 40, left associativity).

(** What [os.scandir] finds in a directory, as [os.walk] sorts it: a
    directory with its own entries, a symbolic link that leads to a
    directory (with the entries found there), and anything else (a
    regular file, a link to a file, a link that leads nowhere). *)
Inductive dir_entry : Type :=
  | File (name : string)
  | Dir (name : string) (entries : list dir_entry)
  | DirLink (name : string) (target : list dir_entry).

(** [entry.is_dir()] follows links: a link to a directory is listed
    among [dirnames], every entry that is no directory among
    [filenames]. *)
Definition dir_names (es : list dir_entry) : list string :=
  flat_map (fun e => match e with Dir n _ | DirLink n _ => [n] | File _ => [] end) es.

Definition file_names (es : list dir_entry) : list string :=
  flat_map (fun e => match e with File n => [n] | Dir _ _ | DirLink _ _ => [] end) es.

(** [os.walk(top)], top-down, with [followlinks] left at [False].  Each
    directory yields [(dirpath, dirnames, filenames)]; the consumer may
    shrink [dirnames] in place before the generator resumes, and only
    the sub-directories whose names it kept are descended into, in
    listing order; a link to a directory is listed and not entered.
    [edit] is that in-place update; the triple recorded here holds
    [dirnames] as the consumer left it. *)
Section Walk.
Variable edit : list string -> list string.

Fixpoint walk_entry (kept : list string) (top : Path) (e : dir_entry)
  : list (Path * list string * list string) :=
  match e with
  | File _ | DirLink _ _ => []
  | Dir n es =>
      if bool_decide (n ∈ kept) then
        let dirnames := edit (dir_names es) in
        (top // n, dirnames, file_names es)
          :: flat_map (walk_entry dirnames (top // n)) es
      else []
  end.

Definition os_walk (top : Path) (es : list dir_entry)
  : list (Path * list string * list string) :=
  let dirnames := edit (dir_names es) in
  (top, dirnames, file_names es) :: flat_map (walk_entry dirnames top) es.
End Walk.

(** ** Files & AST scanning *)

Definition EXCLUDE_DIRS : gset string :=
  list_to_set
    [".git"; ".hg"; ".svn"; "__pycache__"; ".mypy_cache"; ".pytest_cache";
     ".tox"; ".venv"; "venv"; "env"; "build"; "dist"; ".idea"; ".vscode"].

Definition EXCLUDE_FILE_SUFFIXES : gset string := {[ "_pb2.py" ]}.

(** [dirnames[:] = [d for d in dirnames if d not in EXCLUDE_DIRS]] *)
Definition prune_dirnames (dirnames : list string) : list string :=
  List.filter (fun d => bool_decide (d ∉ EXCLUDE_DIRS)) dirnames.

Definition is_python_file (fn : string) : bool :=
  Py.endswith fn ".py"
  && negb (existsb (fun suf => Py.endswith fn suf) (elements EXCLUDE_FILE_SUFFIXES)).

Definition find_python_files (root : Path) (es : list dir_entry) : list Path :=
  flat_map
    (fun '(dirpath, _, filenames) =>
       map (fun fn => dirpath // fn) (List.filter is_python_file filenames))
    (os_walk prune_dirnames root es).

(** The parts of the syntax tree the extractor looks at.  [Import] and
    [ImportFrom] are leaves for this purpose; every other node (module,
    function, class, conditional, loop, handler, expression) is a [Node]
    with its child nodes. *)
Record alias : Type := Alias { alias_name : string; alias_asname : option string }.

Inductive node_kind : Type :=
  | Module | FunctionDef | ClassDef | If | For | While | With | Try
  | ExceptHandler | OtherNode.

Inductive node : Type :=
  | Import (names : list alias)
  | ImportFrom (module : option string) (names : list alias) (level : nat)
  | Node (kind : node_kind) (children : list node).

(** [ast.walk]: the node and all its descendants.  The library fixes no
    order and the consumer only adds to a set. *)
Fixpoint ast_walk (n : node) : list node :=
  n :: match n with
       | Node _ cs => flat_map ast_walk cs
       | _ => []
       end.

(** [s.split(".")[0]] *)
Definition first_segment (s : string) : string :=
  hd EmptyString (Py.split "." s).

(** The body of the loop over [ast.walk(tree)]: what visiting one node
    does to [mods]. *)
Definition add_name (mods : gset string) (name : string) : gset string :=
  if String.eqb name "" then mods else mods ∪ {[ name ]}.

Definition visit (mods : gset string) (n : node) : gset string :=
  match n with
  | Import names =>
      foldl (fun mods a => add_name mods (first_segment (alias_name a))) mods names
  | ImportFrom module _ level =>
      if negb (level =? 0)%nat then mods
      else match module with
           | Some m =>
               if String.eqb m "" then mods else add_name mods (first_segment m)
           | None => mods
           end
  | Node _ _ => mods
  end.

Section Extractor.
(** [py_file.read_text(encoding="utf-8", errors="ignore")], which
    raises when the file cannot be opened or read (a link that leads
    nowhere, a file without read permission), and [ast.parse], which
    raises [SyntaxError] on malformed source and may raise otherwise
    ([ValueError] on a null byte, [RecursionError], [MemoryError]).  No
    exception but [SyntaxError] is caught. *)
Variable read_text : Path -> result string.
Variable ast_parse : string -> result node.

Definition extract_top_level_imports (py_file : Path) : result (gset string) :=
  src ← read_text py_file;
  match ast_parse src with
  | Raise SyntaxError => Ok ∅
  | Raise e => Raise e
  | Ok tree =>
      Ok (foldl visit ∅ (ast_walk tree))
  end.
End Extractor.

(** ** Classification helpers *)

(** What [importlib.util.find_spec] reports about a module. *)
Record ModuleSpec : Type := {
  origin : option string;
  submodule_search_locations : option (list string)
}.

Section Classifier.
(** [os.sep], [os.path.normcase(os.path.abspath(str(p)))],
    [Path.exists], [str(Path)] and [importlib.util.find_spec] belong
    to the platform and the environment. *)
Variable sep : ascii.
Variable norm : string -> string.
Variable exists_ : Path -> bool.
Variable Path_str : Path -> string.
Variable find_spec : string -> result (option ModuleSpec).

Definition os_sep : string := String sep EmptyString.

Definition is_local_module (name : string) (project_root : Path) : bool :=
  let candidates :=
    [ project_root // (name ++ ".py");
      project_root // name // "__init__.py" ] in
  existsb exists_ candidates.

(** [o.startswith(d + os.sep) or o == d], the test the classifier
    applies to the project root, the stdlib directory and every site
    directory. *)
Definition lies_under (o d : string) : bool :=
  Py.startswith o (d ++ os_sep) || String.eqb o d.

Definition classify_module_origin (name : string) (project_root : Path)
    (stdlib_dir : string) (site_dirs : list string) : result string :=
  if is_local_module name project_root then Ok "local"
  else
    spec ← find_spec name;
    match spec with
    | None => Ok "unknown"
    | Some spec =>
        if bool_decide (origin spec = Some "built-in")
           || bool_decide (origin spec = Some "frozen")
        then Ok "stdlib"
        else
          let origins :=
            (match origin spec with
             | Some o => if String.eqb o "" then [] else [o]
             | None => []
             end
             ++
             match submodule_search_locations spec with
             | Some locs => locs
             | None => []
             end)%list in
          let origins :=
            map norm (List.filter (fun p => negb (String.eqb p "")) origins) in
          let proj := norm (Path_str project_root) in
          if existsb (fun o => lies_under o proj) origins then Ok "local"
          else if negb (String.eqb stdlib_dir "")
                  && existsb (fun o => lies_under o stdlib_dir) origins
          then Ok "stdlib"
          else if existsb (fun o => existsb (fun sd => lies_under o sd) site_dirs) origins
          then Ok "thirdparty"
          else Ok "unknown"
    end.
End Classifier.

(** ** Distribution resolution *)

Definition normalize_dist_name (name : string) : string :=
  Py.replace "_" "-" name.

Definition dist_score (mod_l d : string) : Z :=
  let d_l := Py.replace "_" "-" (Py.lower d) in
  let score := 0%Z in
  let score := if String.eqb d_l mod_l then (score + 100)%Z else score in
  let score := if Py.contains mod_l d_l then (score + 10)%Z else score in
  (score - Py.len d_l)%Z.

Definition pick_best_dist_for_module (mod_ : string) (dists : list string)
  : result string :=
  let mod_l := Py.replace "_" "-" (Py.lower mod_) in
  let scores := map (fun d => (dist_score mod_l d, d)) dists in
  let scores := Py.sort_reverse scores in
  match scores with
  | s :: _ => Ok s.2
  | [] => Raise IndexError
  end.

Section Resolver.
(** The result of [build_top_to_dists_map()] and
    [importlib.metadata.version], which raises
    [PackageNotFoundError] for a distribution without metadata. *)
Variable top_to_dists : gmap string (list string).
Variable version : string -> result string.

(** One iteration of the loop over [sorted(set(modules))]. *)
Definition resolve_step (st : list (string * string) * list string) (mod_ : string)
  : result (list (string * string) * list string) :=
  let '(reqs, unresolved) := st in
  match top_to_dists !! mod_ with
  | None | Some [] => Ok (reqs, (unresolved ++ [mod_])%list)
  | Some dists =>
      chosen ← pick_best_dist_for_module mod_ dists;
      match version chosen with
      | Ok ver => Ok (Py.setitem (normalize_dist_name chosen) ver reqs, unresolved)
      | Raise PackageNotFoundError => Ok (reqs, (unresolved ++ [mod_])%list)
      | Raise e => Raise e
      end
  end.

Fixpoint resolve_loop (st : list (string * string) * list string) (mods : list string)
  : result (list (string * string) * list string) :=
  match mods with
  | [] => Ok st
  | mod_ :: rest => st' ← resolve_step st mod_; resolve_loop st' rest
  end.

Definition resolve_requirements (modules : gset string)
  : result (list (string * string) * list string) :=
  resolve_loop ([], []) (Py.sorted (elements modules)).
End Resolver.

(** ** Main pipeline *)

Definition nl : string := String (ascii_of_nat 10) EmptyString.

(** [lines] and the text handed to [out_path.write_text] in [main]. *)
Definition entry_line (item : string * string) : string :=
  let '(dist, ver) := item in dist ++ "==" ++ ver.

Definition manifest_lines (reqs_map : list (string * string)) : list string :=
  map entry_line (Py.sorted_key (fun x => Py.lower x.1) reqs_map).

Definition manifest_text (reqs_map : list (string * string)) : string :=
  let lines := manifest_lines reqs_map in
  Py.join nl lines ++ (match lines with [] => "" | _ => nl end).

(** The diagnostics printed after the manifest is written. *)
Definition info_block (label : string) (names : gset string) : list string :=
  if bool_decide (names = ∅) then []
  else [label ++ Py.join ", " (Py.sorted (elements names))].

Definition warn_block (reqs_map : list (string * string)) (unresolved : list string)
  : list string :=
  let unresolved_set : gset string :=
    list_to_set unresolved ∖ list_to_set (Py.keys reqs_map) in
  if bool_decide (unresolved_set = ∅) then []
  else ["[WARN] Some imports couldn't be mapped to installed distributions:";
        "       " ++ Py.join ", " (Py.sorted (elements unresolved_set));
        "       If these are local modules, ignore. If third-party, make sure they’re installed."].

Definition diagnostics (skipped_local skipped_stdlib : gset string)
    (reqs_map : list (string * string)) (unresolved : list string) : list string :=
  app (info_block "[INFO] Local modules (excluded): " skipped_local)
      (app (info_block "[INFO] Stdlib modules (excluded): " skipped_stdlib)
           (warn_block reqs_map unresolved)).

(** What one run leaves behind: the lines that reached standard output,
    the file written (path and text) once [write_text] has returned, and
    how the process ended: with an exit status, or with the exception
    nothing caught (the interpreter then prints the traceback and the
    status is 1). *)
Record outcome : Type := {
  stdout : list string;
  written : option (string * string);
  status : result Z
}.

Record buckets : Type := {
  third_party_mods : gset string;
  skipped_local : gset string;
  skipped_stdlib : gset string;
  unknown_kind : gset string
}.

Section Main.
Variable sep : ascii.
Variable norm : string -> string.
Variable exists_ : Path -> bool.
Variable Path_str : Path -> string.
Variable find_spec : string -> result (option ModuleSpec).
Variable read_text : Path -> result string.
Variable ast_parse : string -> result node.
Variable top_to_dists : gmap string (list string).
Variable version : string -> result string.
(** [out_path.write_text(text, encoding="utf-8")], which raises when the
    file cannot be created (a missing directory, no permission), and
    [print], which raises when standard output cannot take the line (a
    character its encoding lacks, a closed pipe). *)
Variable write_text : Path -> string -> result unit.
Variable print : string -> result unit.
(** [get_stdlib_dir()] and [get_site_package_dirs()] *)
Variable stdlib_dir : string.
Variable site_dirs : list string.
(** [Path(args.root).resolve()], the directory found there, and
    [args.out]. *)
Variable project_root : Path.
Variable root_entries : list dir_entry.
Variable out : Path.

Fixpoint collect_imports (all_imports : gset string) (py_files : list Path)
  : result (gset string) :=
  match py_files with
  | [] => Ok all_imports
  | f :: rest =>
      mods ← extract_top_level_imports read_text ast_parse f;
      collect_imports (all_imports ∪ mods) rest
  end.

Fixpoint classify_all (b : buckets) (names : list string) : result buckets :=
  match names with
  | [] => Ok b
  | name :: rest =>
      kind ← classify_module_origin sep norm exists_ Path_str find_spec
               name project_root stdlib_dir site_dirs;
      let b' :=
        if String.eqb kind "thirdparty" then
          {| third_party_mods := third_party_mods b ∪ {[ name ]};
             skipped_local := skipped_local b;
             skipped_stdlib := skipped_stdlib b;
             unknown_kind := unknown_kind b |}
        else if String.eqb kind "local" then
          {| third_party_mods := third_party_mods b;
             skipped_local := skipped_local b ∪ {[ name ]};
             skipped_stdlib := skipped_stdlib b;
             unknown_kind := unknown_kind b |}
        else if String.eqb kind "stdlib" then
          {| third_party_mods := third_party_mods b;
             skipped_local := skipped_local b;
             skipped_stdlib := skipped_stdlib b ∪ {[ name ]};
             unknown_kind := unknown_kind b |}
        else
          {| third_party_mods := third_party_mods b;
             skipped_local := skipped_local b;
             skipped_stdlib := skipped_stdlib b;
             unknown_kind := unknown_kind b ∪ {[ name ]} |} in
      classify_all b' rest
  end.

(** One [print] after the other, until one raises: the lines that got
    out, and the exception if there was one. *)
Fixpoint print_lines (lines : list string) : list string * result unit :=
  match lines with
  | [] => ([], Ok ())
  | line :: rest =>
      match print line with
      | Ok _ => let '(printed, r) := print_lines rest in (line :: printed, r)
      | Raise e => ([], Raise e)
      end
  end.

(** [main] from the point where [py_files] is known.  Without files it
    prints one line and leaves through [sys.exit(0)]; otherwise nothing
    is written or printed before the requirements are resolved, the
    manifest is written before the first line is printed, and a normal
    return ends the process with status 0. *)
Definition main_scan (py_files : list Path) : outcome :=
  match py_files with
  | [] =>
      let '(printed, r) :=
        print_lines ["[INFO] No Python files found under: " ++ Path_str project_root] in
      {| stdout := printed; written := None; status := _ ← r; Ok 0%Z |}
  | _ =>
      match
        all_imports ← collect_imports ∅ py_files;
        b ← classify_all
               {| third_party_mods := ∅; skipped_local := ∅;
                  skipped_stdlib := ∅; unknown_kind := ∅ |}
               (Py.sorted (elements all_imports));
        resolved ←
          resolve_requirements top_to_dists version
            (third_party_mods b ∪ unknown_kind b);
        Ok (b, resolved)
      with
      | Raise e => {| stdout := []; written := None; status := Raise e |}
      | Ok (b, (reqs_map, unresolved)) =>
          let lines := manifest_lines reqs_map in
          match write_text out (manifest_text reqs_map) with
          | Raise e => {| stdout := []; written := None; status := Raise e |}
          | Ok _ =>
              let '(printed, r) :=
                print_lines
                  (("[OK] Wrote " ++ Path_str out ++ " with "
                      ++ pretty (List.length lines) ++ " package(s).")
                     :: diagnostics (skipped_local b) (skipped_stdlib b) reqs_map unresolved) in
              {| stdout := printed;
                 written := Some (Path_str out, manifest_text reqs_map);
                 status := _ ← r; Ok 0%Z |}
          end
      end
  end.

Definition main : outcome :=
  main_scan (find_python_files project_root root_entries).
End Main.

(** ** Vocabulary of the statements *)

(** The candidate picker: the name as it is compared, the two tests of
    the score, and what it means for one candidate to beat another. *)
Definition name_key (s : string) : string := Py.replace "_" "-" (Py.lower s).
Definition exact_match (mod_ d : string) : Prop := name_key d = name_key mod_.
Definition has_substring (mod_ d : string) : Prop :=
  Py.contains (name_key mod_) (name_key d) = true.
Definition score_of (mod_ d : string) : Z := dist_score (name_key mod_) d.
Definition beats (mod_ d1 d2 : string) : Prop :=
  forall dists, d1 ∈ dists -> pick_best_dist_for_module mod_ dists <> Ok d2.

(** Where an entry of the requirements mapping comes from, and why a
    name is reported as unresolved. *)
Definition entry_from (top_to_dists : gmap string (list string))
    (version : string -> result string) (modules : gset string) (k v : string) : Prop :=
  exists mod_ dists chosen,
    mod_ ∈ modules /\ top_to_dists !! mod_ = Some dists /\
    pick_best_dist_for_module mod_ dists = Ok chosen /\
    version chosen = Ok v /\ k = normalize_dist_name chosen.

Definition reqs_ok (top_to_dists : gmap string (list string))
    (version : string -> result string) (modules : gset string)
    (reqs : list (string * string)) : Prop :=
  NoDup (Py.keys reqs) /\
  forall k v, (k, v) ∈ reqs -> entry_from top_to_dists version modules k v.


(** Package names compared without regard to case. *)
Definition ci_le (a b : string) : Prop := String.leb (Py.lower a) (Py.lower b) = true.
Definition ci_distinct (names : list string) : Prop :=
  forall a b, a ∈ names -> b ∈ names -> Py.lower a = Py.lower b -> a = b.

(** Two runs agree when both succeed with the same value or both raise. *)
Definition agree {A} (r1 r2 : result A) : Prop :=
  match r1, r2 with
  | Ok a, Ok b => a = b
  | Raise _, Raise _ => True
  | _, _ => False
  end.

(** [Under sep o d]: the path [o] is the directory [d] or continues it
    after a separator. *)
Definition Under (sep : ascii) (o d : string) : Prop :=
  o = d \/ exists rest, o = d ++ String sep rest.

(** The list [origins] of [classify_module_origin] after normalisation. *)
Definition normalized_origins (norm : string -> string) (spec : ModuleSpec) : list string :=
  map norm
    (List.filter (fun p => negb (String.eqb p ""))
       (app (match origin spec with
             | Some o => if String.eqb o "" then [] else [o]
             | None => []
             end)
            (match submodule_search_locations spec with
             | Some locs => locs
             | None => []
             end))).

Definition hit (sep : ascii) (norm : string -> string) (spec : ModuleSpec) (d : string)
  : Prop :=
  exists o, o ∈ normalized_origins norm spec /\ Under sep o d.

(** [subnode n t]: [n] is [t] or one of its descendants. *)
Inductive subnode (n : node) : node -> Prop :=
  | subnode_here : subnode n n
  | subnode_child kind children c :
      c ∈ children -> subnode n c -> subnode n (Node kind children).

(** [imports_name n x]: the statement [n] is an [import] with a name
    whose first segment is [x], or a [from m import ...] without a
    relative level whose module has first segment [x]. *)
Inductive imports_name : node -> string -> Prop :=
  | imports_plain names a x :
      a ∈ names -> first_segment (alias_name a) = x -> x <> "" ->
      imports_name (Import names) x
  | imports_from m names x :
      first_segment m = x -> x <> "" ->
      imports_name (ImportFrom (Some m) names 0) x.

(** Paths below the scan root that pass through no excluded directory. *)
Definition clean_dirs (ds : list string) : Prop := Forall (fun d => d ∉ EXCLUDE_DIRS) ds.
Definition clean_dir_below (root p : Path) : Prop :=
  exists ds, p = (root ++ ds)%list /\ clean_dirs ds.
Definition clean_file_below (root p : Path) : Prop :=
  exists ds fn, p = (root ++ ds ++ [fn])%list /\ clean_dirs ds /\ is_python_file fn = true.

(** ** A small project and environment for the examples *)

Module Demo.
Definition sep : ascii := "/"%char.
Definition norm (p : string) : string := p.
Definition Path_str (p : Path) : string :=
  match p with
  | "/" :: rest => "/" ++ Py.join "/" rest
  | _ => Py.join "/" p
  end.

Definition project_root : Path := ["/"; "proj"].
Definition out : Path := ["requirements.txt"].
Definition stdlib_dir : string := "/usr/lib/python3.12".
Definition site_dirs : list string := ["/venv/lib/python3.12/site-packages"].


(** A module found under [/lib-extra] while [/lib] is a site directory. *)
Definition no_file (p : Path) : bool := false.
Definition extra_spec : ModuleSpec :=
  {| origin := Some "/lib-extra/foo/__init__.py";
     submodule_search_locations := Some ["/lib-extra/foo"] |}.
Definition find_extra (name : string) : result (option ModuleSpec) :=
  Ok (Some extra_spec).

(** [yaml] and [pyyaml] both provided by the distribution [PyYAML]. *)
Definition yaml_dists : gmap string (list string) :=
  <["yaml" := ["PyYAML"]]> (<["pyyaml" := ["PyYAML"]]> ∅).
Definition yaml_version (d : string) : result string :=
  if String.eqb d "PyYAML" then Ok "6.0.1" else Raise PackageNotFoundError.

(** Two distributions whose names differ in case only, provided under
    the import names [a] and [b] one way round and the other. *)
Definition case_dists_1 : gmap string (list string) :=
  <["a" := ["Foo"]]> (<["b" := ["foo"]]> ∅).
Definition case_dists_2 : gmap string (list string) :=
  <["a" := ["foo"]]> (<["b" := ["Foo"]]> ∅).
Definition case_version (d : string) : result string :=
  if String.eqb (Py.lower d) "foo" then Ok "1.0" else Raise PackageNotFoundError.

(** Four source files and what [ast.parse] makes of them. *)
Definition pil_tree : node :=
  Node Module [Import [Alias "PIL" None; Alias "pillow" None]].
Definition numpy_tree : node :=
  Node Module [Node FunctionDef [Import [Alias "numpy" (Some "np")]]].
Definition relative_tree : node :=
  Node Module
    [Node FunctionDef
       [ImportFrom None [Alias "helper" None] 1;
        ImportFrom (Some "pkg") [Alias "y" None] 1]].

Definition read_text (p : Path) : result string :=
  let name := List.last p "" in
  if String.eqb name "app.py" then Ok "import PIL, pillow"
  else if String.eqb name "np.py" then Ok "def f(): import numpy as np"
  else if String.eqb name "rel.py"
  then Ok "def f(): from . import helper; from .pkg import y"
  else Ok "def (:".

Definition ast_parse (src : string) : result node :=
  if String.eqb src "import PIL, pillow" then Ok pil_tree
  else if String.eqb src "def f(): import numpy as np" then Ok numpy_tree
  else if String.eqb src "def f(): from . import helper; from .pkg import y"
  then Ok relative_tree
  else Raise SyntaxError.

(** A project whose one file imports [PIL] and [pillow]; the
    distribution [pillow] provides [PIL] only. *)
Definition find_nothing (name : string) : result (option ModuleSpec) := Ok None.
Definition pil_dists : gmap string (list string) := <["PIL" := ["pillow"]]> ∅.
Definition pil_version (d : string) : result string :=
  if String.eqb d "pillow" then Ok "10.0.0" else Raise PackageNotFoundError.
(** An output directory that exists and a standard output that takes
    every line. *)
Definition write_text (p : Path) (text : string) : result unit := Ok ().
Definition print (line : string) : result unit := Ok ().

Definition pil_main : outcome :=
  main sep norm no_file Path_str find_nothing read_text ast_parse
    pil_dists pil_version write_text print
    stdlib_dir site_dirs project_root [File "app.py"] out.

Definition numpy_main (print : string -> result unit) : outcome :=
  main sep norm no_file Path_str find_nothing read_text ast_parse
    ∅ pil_version write_text print
    stdlib_dir site_dirs project_root [File "np.py"] out.

(** A tree with excluded directories at two depths and a link to a
    directory. *)
Definition tree_entries : list dir_entry :=
  [File "a.py"; File "x_pb2.py";
   Dir "build" [File "b.py"];
   DirLink "vendor" [File "v.py"];
   Dir "src" [File "c.py"; Dir "venv" [File "d.py"];
              Dir "pkg" [File "e.py"; File "README"]]].
End Demo.

(** ** Environment helpers *)

Section EnvironmentHelpers.
(** [sysconfig.get_paths()], [site.getsitepackages()] and
    [site.getusersitepackages()] where [site] has them. *)
Variable norm : string -> string.
Variable get_paths : gmap string string.
Variable getsitepackages : option (list string).
Variable getusersitepackages : option string.

Definition get_stdlib_dir : string :=
  match get_paths !! "stdlib" with
  | Some stdlib => if String.eqb stdlib "" then "" else norm stdlib
  | None => ""
  end.

Definition add_path_dir (dirs : gset string) (key : string) : gset string :=
  match get_paths !! key with
  | Some p => if String.eqb p "" then dirs else dirs ∪ {[ norm p ]}
  | None => dirs
  end.

Definition get_site_package_dirs : list string :=
  let dirs : gset string := ∅ in
  let dirs :=
    foldl (fun dirs d => dirs ∪ {[ norm d ]}) dirs
      (match getsitepackages with Some ds => ds | None => [] end) in
  let dirs :=
    match getusersitepackages with
    | Some u => dirs ∪ {[ norm u ]}
    | None => dirs
    end in
  let dirs := foldl add_path_dir dirs ["purelib"; "platlib"] in
  Py.sorted (elements dirs).
End EnvironmentHelpers.

(** ** The map from import names to distributions *)

Module PyText.

(** Line boundaries of [str.splitlines] and white space of [str.strip],
    among the characters below U+0100: next to the ASCII ones, the next
    line control U+0085 is both and the no-break space U+00A0 is white
    space. *)
Definition is_linebreak (c : ascii) : bool :=
  let n := nat_of_ascii c in
  (n =? 10)%nat || (n =? 13)%nat || (n =? 11)%nat || (n =? 12)%nat
  || (n =? 28)%nat || (n =? 29)%nat || (n =? 30)%nat || (n =? 133)%nat.

Definition is_space (c : ascii) : bool :=
  let n := nat_of_ascii c in
  (n =? 32)%nat || ((9 <=? n)%nat && (n <=? 13)%nat)
  || ((28 <=? n)%nat && (n <=? 31)%nat) || (n =? 133)%nat || (n =? 160)%nat.

(** [s.splitlines()]: a carriage return followed by a line feed is one
    boundary; a final boundary starts no further line. *)
Fixpoint splitlines (s : string) : list string :=
  match s with
  | EmptyString => []
  | String c r =>
      if is_linebreak c then
        EmptyString ::
          match r with
          | String c' r' =>
              if (nat_of_ascii c =? 13)%nat && (nat_of_ascii c' =? 10)%nat
              then splitlines r' else splitlines r
          | EmptyString => []
          end
      else
        match splitlines r with
        | l :: ls => String c l :: ls
        | [] => [String c EmptyString]
        end
  end.

Fixpoint lstrip (s : string) : string :=
  match s with
  | EmptyString => EmptyString
  | String c r => if is_space c then lstrip r else s
  end.

Fixpoint rstrip (s : string) : string :=
  match s with
  | EmptyString => EmptyString
  | String c r =>
      match rstrip r with
      | EmptyString => if is_space c then EmptyString else String c EmptyString
      | r' => String c r'
      end
  end.

(** [s.strip()] *)
Definition strip (s : string) : string := rstrip (lstrip s).

End PyText.

(** A [PackagePath] of [dist.files] as [pathlib] presents it, and what
    [importlib.metadata] tells about one installed distribution. *)
Record PackagePath : Type := { parts : list string; suffix : string }.

Record Distribution : Type := {
  metadata_Name : option string;
  metadata_Summary : option string;
  top_level_txt : result (option string);
  files : option (list PackagePath)
}.


(** The set [tops] of one distribution. *)
Definition tops_of_files (fs : list PackagePath) : gset string :=
  list_to_set
    (flat_map
       (fun f =>
          match parts f with
          | p :: _ =>
              if String.eqb (suffix f) "" || String.eqb (suffix f) ".py" then [p] else []
          | [] => []
          end)
       fs).

Definition tops_of_txt (top_txt : string) : gset string :=
  list_to_set
    (map PyText.strip
       (List.filter (fun line => negb (String.eqb (PyText.strip line) ""))
          (PyText.splitlines top_txt))).

Definition tops_of (dist : Distribution) : gset string :=
  let top_txt :=
    match top_level_txt dist with
    | Ok t => t
    | Raise _ => None
    end in
  match top_txt with
  | Some t =>
      if String.eqb t "" then
        tops_of_files (match files dist with Some fs => fs | None => [] end)
      else tops_of_txt t
  | None => tops_of_files (match files dist with Some fs => fs | None => [] end)
  end.



Section BuildMap.
(** [metadata.packages_distributions()], which is missing before
    Python 3.10, and [metadata.distributions()]. *)
Variable packages_distributions : result (gmap string (list string)).
Variable distributions : list Distribution.


End BuildMap.

(** ** Vocabulary of the further statements *)

(** [file_at es ds fn]: below a directory with entries [es], the file
    [fn] is reached through the directories [ds], none of them a
    symbolic link. *)
Inductive file_at : list dir_entry -> list string -> string -> Prop :=
  | file_here es fn : File fn ∈ es -> file_at es [] fn
  | file_below es d sub ds fn :
      Dir d sub ∈ es -> file_at sub ds fn -> file_at es (d :: ds) fn.

(** What one module contributes to the requirements mapping when it
    resolves. *)
Definition resolves (top_to_dists : gmap string (list string))
    (version : string -> result string) (mod_ : string) : option (string * string) :=
  match top_to_dists !! mod_ with
  | Some (d :: ds) =>
      match pick_best_dist_for_module mod_ (d :: ds) with
      | Ok chosen =>
          match version chosen with
          | Ok ver => Some (normalize_dist_name chosen, ver)
          | Raise _ => None
          end
      | Raise _ => None
      end
  | _ => None
  end.


(** Lines without a line boundary inside. *)
Definition plain_chars (s : string) : Prop :=
  Forall (fun c => PyText.is_linebreak c = false) (list_ascii_of_string s).

(** ** Further sample data *)

Module Sample.
(** A project without Python files of its own. *)
Definition bare_entries : list dir_entry :=
  [File "README.md"; Dir ".venv" [File "site.py"]; Dir "proto" [File "msg_pb2.py"]].

(** A parser that fails whatever it is given. *)
Definition crash_parse (src : string) : result node :=
  Raise (OtherException "ValueError").

(** A file with a null byte in it, on which [ast.parse] of Python 3.11
    raises [ValueError]. *)
Definition null_source : string := "import os" ++ String (ascii_of_nat 0) "".
Definition read_null (p : Path) : result string := Ok null_source.
Definition parse_no_null (src : string) : result node :=
  if Py.contains (String (ascii_of_nat 0) "") src
  then Raise (OtherException "ValueError")
  else Demo.ast_parse src.

Definition write_nowhere (p : Path) (text : string) : result unit :=
  Raise (OtherException "FileNotFoundError").

(** A project whose one Python file lies behind a link to a
    directory. *)
Definition linked_entries : list dir_entry :=
  [File "README.md"; DirLink "vendor" [File "lib.py"]].

(** A virtual environment kept inside the project. *)
Definition venv_site_dirs : list string := ["/proj/.venv/lib/site-packages"].
Definition find_in_venv (name : string) : result (option ModuleSpec) :=
  Ok (Some {| origin := Some "/proj/.venv/lib/site-packages/requests/__init__.py";
              submodule_search_locations :=
                Some ["/proj/.venv/lib/site-packages/requests"] |}).

(** A module of the standard library, and a layout without a stdlib
    entry. *)
Definition find_json (name : string) : result (option ModuleSpec) :=
  Ok (Some {| origin := Some "/usr/lib/python3.12/json/__init__.py";
              submodule_search_locations := Some ["/usr/lib/python3.12/json"] |}).
Definition find_sys (name : string) : result (option ModuleSpec) :=
  Ok (Some {| origin := Some "built-in"; submodule_search_locations := None |}).
Definition no_paths : gmap string string := ∅.

(** Two installed distributions: one with a [top_level.txt], one
    without. *)
Definition yaml_dist : Distribution :=
  {| metadata_Name := Some "PyYAML";
     metadata_Summary := Some "YAML parser and emitter for Python";
     top_level_txt := Ok (Some ("_yaml" ++ nl ++ "  yaml " ++ nl ++ nl));
     files := None |}.

(** Two distributions whose names differ in the separator only. *)
Definition sep_dists : gmap string (list string) :=
  <["a" := ["my_pkg"]]> (<["b" := ["my-pkg"]]> ∅).
Definition sep_version (d : string) : result string :=
  if String.eqb d "my_pkg" then Ok "1.0"
  else if String.eqb d "my-pkg" then Ok "2.0"
  else Raise PackageNotFoundError.
End Sample.

(** * Facts about the primitives *)

Section SortFacts.
Context {A : Type} (le : A -> A -> bool).
Let R (x y : A) : Prop := le x y = true.

Lemma insert_perm x l : Py.insert le x l ≡ₚ x :: l.
Proof.
  induction l as [|y r IH]; simpl; [done|].
  destruct (le x y); [done|]. rewrite IH. apply Permutation_swap.
Qed.

Lemma sort_perm l : Py.sort le l ≡ₚ l.
Proof.
  induction l as [|x r IH]; simpl; [done|].
  rewrite insert_perm. by rewrite IH.
Qed.

Hypothesis le_total : forall x y, le x y = true \/ le y x = true.

Lemma insert_sorted x l : Sorted R l -> Sorted R (Py.insert le x l).
Proof.
  induction 1 as [|y r Hr IH Hy]; simpl.
  - repeat constructor.
  - destruct (le x y) eqn:E.
    + constructor; [by constructor|]. by constructor.
    + constructor; [done|].
      assert (R y x) as Hyx by (destruct (le_total x y); [congruence|done]).
      destruct r as [|z r']; simpl in *.
      * by constructor.
      * destruct (le x z); constructor; [done|]. by inversion Hy.
Qed.

Lemma sort_sorted l : Sorted R (Py.sort le l).
Proof. induction l; simpl; [constructor|by apply insert_sorted]. Qed.
End SortFacts.

(** The order of strings is transitive. *)
Lemma string_leb_trans s1 s2 s3 :
  String.leb s1 s2 = true -> String.leb s2 s3 = true -> String.leb s1 s3 = true.
Proof.
  unfold String.leb. revert s2 s3.
  induction s1 as [|a s1 IH]; intros [|b s2] [|c s3]; simpl; try done.
  destruct (Ascii.compare a b) eqn:Eab; try done;
    destruct (Ascii.compare b c) eqn:Ebc; try done.
  - apply Ascii.compare_eq_iff in Eab, Ebc. subst.
    assert (Ascii.compare c c = Eq) as -> by (unfold Ascii.compare; apply N.compare_refl).
    apply IH.
  - apply Ascii.compare_eq_iff in Eab. subst. by rewrite Ebc.
  - apply Ascii.compare_eq_iff in Ebc. subst. by rewrite Eab.
  - assert (Ascii.compare a c = Lt) as ->; [|done].
    unfold Ascii.compare in *. rewrite N.compare_lt_iff in *. lia.
Qed.

#[local] Instance string_le_trans : Transitive (fun x y => String.leb x y = true).
Proof. intros x y z. apply string_leb_trans. Qed.

(** The order of [(int, str)] tuples is a total order. *)
Lemma tuple_leb_total a b : Py.tuple_leb a b = true \/ Py.tuple_leb b a = true.
Proof.
  unfold Py.tuple_leb. destruct a as [x s], b as [y t]; simpl.
  destruct (Z.ltb_spec x y); [by left|].
  destruct (Z.ltb_spec y x); [by right|].
  assert (x = y) as -> by lia. rewrite Z.eqb_refl. simpl.
  apply String.leb_total.
Qed.

Lemma tuple_leb_trans a b c :
  Py.tuple_leb a b = true -> Py.tuple_leb b c = true -> Py.tuple_leb a c = true.
Proof.
  unfold Py.tuple_leb. destruct a as [x s], b as [y t], c as [z u]; simpl.
  rewrite !orb_true_iff, !andb_true_iff, !Z.ltb_lt, !Z.eqb_eq.
  intros [?|[-> ?]] [?|[-> ?]]; [left; lia|by left|by left|].
  right. split; [done|]. by eapply string_leb_trans.
Qed.

Lemma tuple_leb_antisym a b :
  Py.tuple_leb a b = true -> Py.tuple_leb b a = true -> a = b.
Proof.
  unfold Py.tuple_leb. destruct a as [x s], b as [y t]; simpl.
  rewrite !orb_true_iff, !andb_true_iff, !Z.ltb_lt, !Z.eqb_eq.
  intros [?|[-> ?]] [?|[? ?]]; try lia.
  f_equal. by apply String.leb_antisym.
Qed.

(** Prefixes, substring search and lengths. *)
Lemma string_app_cons c a b : String c a ++ b = String c (a ++ b).
Proof. reflexivity. Qed.

Lemma string_app_nil_l a : "" ++ a = a.
Proof. reflexivity. Qed.

Lemma string_app_nil_r a : a ++ "" = a.
Proof. induction a as [|c a IH]; [done|]. by rewrite string_app_cons, IH. Qed.

Lemma string_app_assoc a b c : (a ++ b) ++ c = a ++ b ++ c.
Proof. induction a as [|x a IH]; [done|]. by rewrite !string_app_cons, IH. Qed.

Lemma string_app_length a b : String.length (a ++ b) = (String.length a + String.length b)%nat.
Proof. induction a as [|x a IH]; [done|]. rewrite string_app_cons. simpl. by rewrite IH. Qed.

Lemma prefix_spec p s : String.prefix p s = true <-> exists r, s = p ++ r.
Proof.
  revert s. induction p as [|a p IH]; intros s.
  - split; [|by destruct s]. intros _. by exists s.
  - destruct s as [|b s]; simpl.
    + split; [done|]. by intros [r ?].
    + destruct (ascii_dec a b) as [->|Hne].
      * rewrite IH. split; intros [r Hr]; exists r;
          rewrite string_app_cons in *; congruence.
      * split; [done|]. intros [r Hr]. rewrite string_app_cons in Hr. congruence.
Qed.

Lemma contains_unfold n h :
  Py.contains n h =
  String.prefix n h || match h with "" => false | String _ r => Py.contains n r end.
Proof. by destruct h. Qed.

Lemma contains_spec n h :
  Py.contains n h = true <-> exists a b, h = a ++ n ++ b.
Proof.
  split.
  - induction h as [|c h IH]; rewrite contains_unfold, orb_true_iff.
    + intros [[r Hr]%prefix_spec|?]; [|done]. by exists "", r.
    + intros [[r Hr]%prefix_spec|H].
      * by exists "", r.
      * destruct (IH H) as (a & b & ->). by exists (String c a), b.
  - intros (a & b & ->). induction a as [|c a IH].
    + rewrite contains_unfold, string_app_nil_l.
      assert (String.prefix n (n ++ b) = true) as -> by (apply prefix_spec; eauto).
      done.
    + rewrite contains_unfold, string_app_cons, IH. apply orb_true_r.
Qed.

Lemma contains_refl s : Py.contains s s = true.
Proof. apply contains_spec. exists "", "". by rewrite string_app_nil_l, string_app_nil_r. Qed.

Lemma contains_length n h : Py.contains n h = true -> (String.length n <= String.length h)%nat.
Proof. intros (a & b & ->)%contains_spec. rewrite !string_app_length. lia. Qed.

Lemma contains_same_length n h :
  Py.contains n h = true -> String.length n = String.length h -> h = n.
Proof.
  intros (a & b & ->)%contains_spec. rewrite !string_app_length. intros E.
  destruct a; [|simpl in E; lia]. destruct b; [|simpl in E; lia].
  by rewrite string_app_nil_l, string_app_nil_r.
Qed.

(** * The distribution picker *)

Lemma tuple_leb_refl a : Py.tuple_leb a a = true.
Proof. by destruct (tuple_leb_total a a). Qed.

Lemma pick_best_is_maximum mod_ dists :
  dists <> [] ->
  exists d, pick_best_dist_for_module mod_ dists = Ok d /\ d ∈ dists /\
    forall d', d' ∈ dists ->
      Py.tuple_leb (score_of mod_ d', d') (score_of mod_ d, d) = true.
Proof.
  intros Hne. unfold pick_best_dist_for_module, score_of, name_key.
  set (f := fun d => (dist_score (Py.replace "_" "-" (Py.lower mod_)) d, d)).
  pose proof (sort_perm (fun x y => Py.tuple_leb y x) (map f dists)) as Hperm.
  pose proof (sort_sorted (fun x y => Py.tuple_leb y x)
                (fun x y => tuple_leb_total y x) (map f dists)) as Hsorted.
  unfold Py.sort_reverse.
  destruct (Py.sort _ (map f dists)) as [|s rest] eqn:E.
  { apply Permutation_nil in Hperm. destruct dists; [done|discriminate]. }
  assert (s ∈ map f dists) as Hs by (rewrite <- Hperm; left).
  apply list_elem_of_fmap in Hs as (d & -> & Hd).
  exists d. split; [done|]. split; [done|].
  intros d' Hd'. change (Py.tuple_leb (f d') (f d) = true).
  assert (f d' ∈ f d :: rest) as Hin.
  { rewrite Hperm. apply list_elem_of_fmap. eauto. }
  apply Sorted_StronglySorted in Hsorted.
  2:{ intros x y z Hxy Hyz. simpl in *. by eapply tuple_leb_trans. }
  inversion Hsorted as [|? ? _ Hall]; subst.
  apply elem_of_cons in Hin as [Heq|Hin].
  - rewrite Heq. apply tuple_leb_refl.
  - rewrite Forall_forall in Hall. by apply Hall.
Qed.

Lemma pick_best_perm mod_ dists dists' :
  dists' ≡ₚ dists ->
  pick_best_dist_for_module mod_ dists' = pick_best_dist_for_module mod_ dists.
Proof.
  intros Hp. destruct dists as [|d0 r].
  { apply Permutation_nil_r in Hp. by subst. }
  destruct (pick_best_is_maximum mod_ (d0 :: r)) as (d & -> & Hd & Hmax); [done|].
  destruct (pick_best_is_maximum mod_ dists') as (d' & -> & Hd' & Hmax').
  { intros ->. by apply Permutation_nil in Hp. }
  f_equal.
  assert ((score_of mod_ d', d') = (score_of mod_ d, d)) as [=]; [|done].
  apply tuple_leb_antisym.
  - apply Hmax. by rewrite <- Hp.
  - apply Hmax'. by rewrite Hp.
Qed.

Lemma higher_tuple_beats mod_ d1 d2 :
  Py.tuple_leb (score_of mod_ d1, d1) (score_of mod_ d2, d2) = false ->
  beats mod_ d1 d2.
Proof.
  intros Hlt dists Hin Hpick.
  destruct (pick_best_is_maximum mod_ dists) as (d & Hd & _ & Hmax).
  { intros ->. by apply elem_of_nil in Hin. }
  rewrite Hd in Hpick. injection Hpick as ->.
  specialize (Hmax d1 Hin). congruence.
Qed.

Lemma higher_score_beats mod_ d1 d2 :
  (score_of mod_ d2 < score_of mod_ d1)%Z -> beats mod_ d1 d2.
Proof.
  intros H. apply higher_tuple_beats. unfold Py.tuple_leb; simpl.
  apply orb_false_iff. split; [apply Z.ltb_ge; lia|].
  apply andb_false_iff. left. apply Z.eqb_neq. lia.
Qed.

Lemma score_cases mod_ d :
  (exact_match mod_ d /\ score_of mod_ d = 110 - Py.len (name_key mod_))%Z \/
  (~ exact_match mod_ d /\ has_substring mod_ d /\
     score_of mod_ d = 10 - Py.len (name_key d) /\
     Py.len (name_key mod_) < Py.len (name_key d))%Z \/
  (~ exact_match mod_ d /\ ~ has_substring mod_ d /\
     score_of mod_ d = - Py.len (name_key d))%Z.
Proof.
  unfold exact_match, has_substring, score_of, dist_score. fold (name_key d).
  destruct (String.eqb_spec (name_key d) (name_key mod_)) as [->|Hne].
  - left. split; [done|]. rewrite contains_refl. lia.
  - right. destruct (Py.contains (name_key mod_) (name_key d)) eqn:Hc.
    + left. split; [done|]. split; [done|]. split; [lia|].
      pose proof (contains_length _ _ Hc) as Hle.
      unfold Py.len.
      destruct (decide (String.length (name_key mod_) = String.length (name_key d))) as [E|E].
      * by apply contains_same_length in E.
      * lia.
    + right. split; [done|]. split; [congruence|lia].
Qed.

(** * The resolver *)

Lemma sorted_elem x l : x ∈ Py.sorted l <-> x ∈ l.
Proof. unfold Py.sorted. by rewrite sort_perm. Qed.

Lemma keys_setitem k v d :
  Py.keys (Py.setitem k v d) =
  if bool_decide (k ∈ Py.keys d) then Py.keys d else (Py.keys d ++ [k])%list.
Proof.
  induction d as [|[k' v'] r IH]; simpl; [done|].
  destruct (String.eqb_spec k' k) as [->|Hne]; simpl.
  - rewrite bool_decide_eq_true_2; [done|left].
  - rewrite IH. fold (Py.keys r). case_bool_decide as H1; case_bool_decide as H2; try done.
    + exfalso. apply H2. by right.
    + exfalso. apply elem_of_cons in H2 as [?|?]; [congruence|done].
Qed.

Lemma setitem_NoDup k v d : NoDup (Py.keys d) -> NoDup (Py.keys (Py.setitem k v d)).
Proof.
  intros H. rewrite keys_setitem. case_bool_decide as Hk; [done|].
  apply NoDup_app. split; [done|]. split; [|apply NoDup_singleton].
  intros x Hx ->%list_elem_of_singleton. done.
Qed.

Lemma setitem_elem k v d k' v' :
  (k', v') ∈ Py.setitem k v d -> (k', v') = (k, v) \/ (k', v') ∈ d.
Proof.
  induction d as [|[k0 v0] r IH]; simpl.
  - intros ->%list_elem_of_singleton. by left.
  - destruct (String.eqb_spec k0 k) as [->|Hne].
    + intros [->|?]%elem_of_cons; [by left|right; by right].
    + intros [->|H]%elem_of_cons; [right; left|].
      destruct (IH H) as [?|?]; [by left|right; by right].
Qed.

Lemma prefix_cons_ne a b p s : a <> b -> String.prefix (String a p) (String b s) = false.
Proof. intros Hne. cbn [String.prefix]. by destruct (ascii_dec a b). Qed.

Lemma normalize_no_underscore s : Py.contains "_" (normalize_dist_name s) = false.
Proof.
  unfold normalize_dist_name.
  induction s as [|c s IH]; [done|].
  cbn [Py.replace]. rewrite contains_unfold, IH, orb_false_r.
  apply prefix_cons_ne.
  destruct (Ascii.eqb_spec c "_") as [->|Hne]; [done|congruence].
Qed.

Section ResolverFacts.
Variable top_to_dists : gmap string (list string).
Variable version : string -> result string.

Let reqs_ok := reqs_ok top_to_dists version.

Lemma resolve_step_ok modules reqs unresolved mod_ reqs' unresolved' :
  mod_ ∈ modules -> reqs_ok modules reqs ->
  resolve_step top_to_dists version (reqs, unresolved) mod_ = Ok (reqs', unresolved') ->
  reqs_ok modules reqs'.
Proof.
  intros Hmod [Hnd Hfrom]. unfold resolve_step.
  destruct (top_to_dists !! mod_) as [[|d0 ds]|] eqn:Hlook;
    [by intros [= <- <-]| |by intros [= <- <-]].
  destruct (pick_best_dist_for_module mod_ (d0 :: ds)) as [chosen|e] eqn:Hpick;
    simpl; [|done].
  destruct (version chosen) as [ver|[]] eqn:Hver; try done.
  - intros [= <- <-]. split; [by apply setitem_NoDup|].
    intros k v [[= -> ->]|H]%setitem_elem; [|by apply Hfrom].
    by exists mod_, (d0 :: ds), chosen.
  - by intros [= <- <-].
Qed.

Lemma resolve_loop_ok modules mods st st' :
  (forall m, m ∈ mods -> m ∈ modules) -> reqs_ok modules st.1 ->
  resolve_loop top_to_dists version st mods = Ok st' ->
  reqs_ok modules st'.1.
Proof.
  revert st. induction mods as [|m mods IH]; intros [reqs unres] Hsub Hok; cbn [resolve_loop].
  - by intros [= <-].
  - destruct (resolve_step top_to_dists version (reqs, unres) m) as [[reqs1 unres1]|e] eqn:Hstep;
      simpl; [|done].
    apply IH; [intros; apply Hsub; by right|].
    eapply resolve_step_ok; [|done..]. apply Hsub. left.
Qed.

Lemma resolve_requirements_ok modules reqs unresolved :
  resolve_requirements top_to_dists version modules = Ok (reqs, unresolved) ->
  reqs_ok modules reqs.
Proof.
  intros H. apply (resolve_loop_ok modules _ ([], []) (reqs, unresolved)) in H; [done| |].
  - intros m Hm. by rewrite sorted_elem, elem_of_elements in Hm.
  - split; [constructor|]. intros k v Hin. by apply elem_of_nil in Hin.
Qed.
End ResolverFacts.

Section UnresolvedFacts.
Variable top_to_dists : gmap string (list string).
Variable version : string -> result string.



End UnresolvedFacts.

(** * The manifest *)

Lemma map_insert {A B} (f : A -> B) (le : B -> B -> bool) x l :
  map f (Py.insert (fun a b => le (f a) (f b)) x l) = Py.insert le (f x) (map f l).
Proof.
  induction l as [|y r IH]; simpl; [done|].
  destruct (le (f x) (f y)); simpl; [done|]. by rewrite IH.
Qed.

Lemma map_sort {A B} (f : A -> B) (le : B -> B -> bool) l :
  map f (Py.sort (fun a b => le (f a) (f b)) l) = Py.sort le (map f l).
Proof.
  induction l as [|x r IH]; simpl; [done|]. by rewrite map_insert, IH.
Qed.

Lemma ci_leb_total a b :
  String.leb (Py.lower a) (Py.lower b) = true \/ String.leb (Py.lower b) (Py.lower a) = true.
Proof. apply String.leb_total. Qed.

Lemma manifest_keys reqs :
  Py.keys (Py.sorted_key (fun x => Py.lower x.1) reqs) =
  Py.sort (fun a b => String.leb (Py.lower a) (Py.lower b)) (Py.keys reqs).
Proof.
  unfold Py.keys, Py.sorted_key.
  apply (map_sort fst (fun a b => String.leb (Py.lower a) (Py.lower b))).
Qed.

#[local] Instance ci_le_trans : Transitive ci_le.
Proof. intros a b c. apply string_leb_trans. Qed.

Lemma manifest_order_by_names reqs reqs' :
  Py.keys reqs ≡ₚ Py.keys reqs' -> ci_distinct (Py.keys reqs) ->
  Py.keys (Py.sorted_key (fun x => Py.lower x.1) reqs) =
  Py.keys (Py.sorted_key (fun x => Py.lower x.1) reqs').
Proof.
  intros Hperm Hdist. rewrite !manifest_keys.
  apply (Sorted_unique_strong ci_le).
  - intros a b Ha Hb Hab Hba.
    rewrite sort_perm in Ha. rewrite sort_perm, <- Hperm in Hb.
    apply Hdist; [done..|]. by apply String.leb_antisym.
  - apply (sort_sorted _ ci_leb_total).
  - apply (sort_sorted _ ci_leb_total).
  - by rewrite !sort_perm.
Qed.

Lemma rev_app_spec s t : String.rev_app s t = String.rev s ++ t.
Proof.
  unfold String.rev. revert t. induction s as [|c s IH]; intros t; simpl; [done|].
  rewrite IH, (IH (String c "")), string_app_assoc. done.
Qed.

Lemma rev_append a b : String.rev (a ++ b) = String.rev b ++ String.rev a.
Proof.
  induction a as [|c a IH].
  - by rewrite string_app_nil_l, string_app_nil_r.
  - rewrite string_app_cons. unfold String.rev at 1 3. simpl.
    rewrite !rev_app_spec, IH, string_app_assoc. done.
Qed.

Lemma endswith_app s p : Py.endswith (s ++ p) p = true.
Proof. unfold Py.endswith. rewrite rev_append. apply prefix_spec. eauto. Qed.

Lemma manifest_text_newline reqs :
  Py.endswith (manifest_text reqs) nl = true <-> reqs <> [].
Proof.
  unfold manifest_text. destruct (manifest_lines reqs) as [|l ls] eqn:E.
  - split; [done|]. intros Hne. exfalso. apply Hne.
    unfold manifest_lines in E. apply map_eq_nil in E.
    pose proof (sort_perm (fun x y => String.leb (Py.lower x.1) (Py.lower y.1)) reqs) as Hp.
    unfold Py.sorted_key in E. rewrite E in Hp. by apply Permutation_nil in Hp.
  - split; [|intros _; apply endswith_app].
    intros _ ->. discriminate.
Qed.

Lemma manifest_lines_sorted reqs :
  exists entries,
    manifest_lines reqs = map entry_line entries /\ entries ≡ₚ reqs /\
    Sorted (fun x y => ci_le x.1 y.1) entries.
Proof.
  exists (Py.sorted_key (fun x => Py.lower x.1) reqs). split; [done|]. split.
  - apply sort_perm.
  - apply (sort_sorted (fun x y => String.leb (Py.lower x.1) (Py.lower y.1))).
    intros x y. apply String.leb_total.
Qed.

#[local] Instance ci_le_fst_trans : Transitive (fun x y : string * string => ci_le x.1 y.1).
Proof. intros a b c. apply string_leb_trans. Qed.

Lemma manifest_text_by_mapping reqs reqs' :
  reqs ≡ₚ reqs' -> NoDup (Py.keys reqs) -> ci_distinct (Py.keys reqs) ->
  manifest_text reqs = manifest_text reqs'.
Proof.
  intros Hperm Hnd Hdist. unfold manifest_text, manifest_lines.
  assert (Py.sorted_key (fun x => Py.lower x.1) reqs =
          Py.sorted_key (fun x => Py.lower x.1) reqs') as ->; [|done].
  unfold Py.sorted_key.
  apply (Sorted_unique_strong (fun x y => ci_le x.1 y.1)).
  - intros [k v] [k' v'] Hx Hy Hxy Hyx. simpl in Hxy, Hyx.
    rewrite sort_perm in Hx. rewrite sort_perm, <- Hperm in Hy.
    assert (k = k') as <-.
    { apply Hdist.
      - apply list_elem_of_fmap. by exists (k, v).
      - apply list_elem_of_fmap. by exists (k', v').
      - by apply String.leb_antisym. }
    f_equal.
    apply list_elem_of_lookup in Hx as [i Hi], Hy as [j Hj].
    assert (i = j) as ->.
    { eapply NoDup_lookup; [exact Hnd| |].
      - unfold Py.keys. rewrite list_lookup_fmap, Hi. done.
      - unfold Py.keys. rewrite list_lookup_fmap, Hj. done. }
    congruence.
  - apply (sort_sorted (fun x y => String.leb (Py.lower x.1) (Py.lower y.1))).
    intros x y. apply String.leb_total.
  - apply (sort_sorted (fun x y => String.leb (Py.lower x.1) (Py.lower y.1))).
    intros x y. apply String.leb_total.
  - by rewrite !sort_perm.
Qed.

(** * The pipeline *)

Lemma agree_refl {A} (r : result A) : agree r r.
Proof. by destruct r. Qed.

Lemma agree_trans {A} (r1 r2 r3 : result A) : agree r1 r2 -> agree r2 r3 -> agree r1 r3.
Proof. destruct r1, r2, r3; simpl; try done. congruence. Qed.

Section PipelineFacts.
Variable read_text : Path -> result string.
Variable ast_parse : string -> result node.

Lemma collect_imports_perm fs fs' :
  fs ≡ₚ fs' ->
  forall acc, agree (collect_imports read_text ast_parse acc fs)
                    (collect_imports read_text ast_parse acc fs').
Proof.
  induction 1 as [|f l l' _ IH|f g l|l1 l2 l3 _ IH1 _ IH2]; intros acc.
  - done.
  - cbn [collect_imports].
    destruct (extract_top_level_imports read_text ast_parse f); simpl; [apply IH|done].
  - cbn [collect_imports].
    destruct (extract_top_level_imports read_text ast_parse f) as [mf|];
      destruct (extract_top_level_imports read_text ast_parse g) as [mg|]; simpl; try done.
    assert (acc ∪ mg ∪ mf = acc ∪ mf ∪ mg) as ->
      by (by rewrite <- !(assoc_L (∪)), (comm_L (∪) mg mf)).
    apply agree_refl.
  - eapply agree_trans; [apply IH1|apply IH2].
Qed.
End PipelineFacts.




(** * The classifier *)

Lemma split_nonempty c s : Py.split c s <> [].
Proof.
  destruct s as [|a r]; simpl; [done|].
  destruct (Ascii.eqb a c); [done|]. by destruct (Py.split c r).
Qed.

Lemma split_app c a b :
  Py.split c (a ++ String c b) = (Py.split c a ++ Py.split c b)%list.
Proof.
  induction a as [|x a IH].
  - rewrite string_app_nil_l. simpl. by rewrite Ascii.eqb_refl.
  - rewrite string_app_cons. cbn [Py.split]. rewrite IH.
    destruct (Ascii.eqb x c); [done|].
    pose proof (split_nonempty c a). by destruct (Py.split c a).
Qed.

Lemma join_cons sep x l :
  Py.join sep (x :: l) = match l with [] => x | _ => x ++ sep ++ Py.join sep l end.
Proof. by destruct l. Qed.

Lemma join_app sep l1 l2 :
  l1 <> [] -> l2 <> [] ->
  Py.join sep (l1 ++ l2) = Py.join sep l1 ++ sep ++ Py.join sep l2.
Proof.
  intros H1 H2. induction l1 as [|x l1 IH]; [done|].
  destruct l1 as [|y l1].
  - simpl app. rewrite !join_cons. by destruct l2.
  - change ((x :: y :: l1) ++ l2)%list with (x :: ((y :: l1) ++ l2))%list.
    rewrite (join_cons sep x (y :: l1)), (join_cons sep x).
    change ((y :: l1) ++ l2)%list with (y :: (l1 ++ l2))%list at 1.
    cbv iota.
    change (y :: (l1 ++ l2))%list with ((y :: l1) ++ l2)%list.
    rewrite IH by done. by rewrite !string_app_assoc.
Qed.

Lemma join_split c s : Py.join (String c "") (Py.split c s) = s.
Proof.
  induction s as [|a r IH]; [done|].
  cbn [Py.split]. destruct (Ascii.eqb_spec a c) as [->|Hne].
  - rewrite join_cons. pose proof (split_nonempty c r).
    destruct (Py.split c r) eqn:E; [done|]. rewrite IH. done.
  - pose proof (split_nonempty c r).
    destruct (Py.split c r) as [|x xs] eqn:E; [done|].
    rewrite join_cons in *. destruct xs; rewrite <- IH; done.
Qed.

Lemma lies_under_spec sep o d : lies_under sep o d = true <-> Under sep o d.
Proof.
  unfold lies_under, Under, Py.startswith, os_sep.
  rewrite orb_true_iff, prefix_spec, String.eqb_eq.
  split; intros [H|H]; auto.
  - destruct H as [r ->]. right. exists r. by rewrite string_app_assoc.
  - destruct H as [r ->]. left. exists r. by rewrite string_app_assoc.
Qed.

Lemma Under_components sep o d :
  Under sep o d <-> Py.split sep d `prefix_of` Py.split sep o.
Proof.
  split.
  - intros [->|[rest ->]]; [done|]. rewrite split_app. by apply prefix_app_r.
  - intros [k Hk].
    rewrite <- (join_split sep o), <- (join_split sep d) at 1. rewrite Hk.
    destruct k as [|y ys].
    + left. by rewrite app_nil_r, !join_split.
    + right. rewrite join_app; [|apply split_nonempty|done].
      rewrite join_split. eexists. rewrite string_app_cons, string_app_nil_l. done.
Qed.

Lemma lib_extra_not_under_lib rest : lies_under "/" ("/lib-extra" ++ rest) "/lib" = false.
Proof. reflexivity. Qed.

Lemma existsb_lies_under sep os d :
  existsb (fun o => lies_under sep o d) os = true <->
  exists o, o ∈ os /\ Under sep o d.
Proof.
  rewrite existsb_exists. split; intros (o & Ho & Hu); exists o.
  - split; [by apply list_elem_of_In|by apply lies_under_spec].
  - split; [by apply list_elem_of_In|by apply lies_under_spec].
Qed.

Section ClassifierFacts.
Variable sep : ascii.
Variable norm : string -> string.
Variable exists_ : Path -> bool.
Variable Path_str : Path -> string.
Variable find_spec : string -> result (option ModuleSpec).

Let classify := classify_module_origin sep norm exists_ Path_str find_spec.

Lemma classify_local_file name project_root stdlib_dir site_dirs :
  is_local_module exists_ name project_root = true ->
  classify name project_root stdlib_dir site_dirs = Ok "local".
Proof. intros H. subst classify. unfold classify_module_origin. by rewrite H. Qed.


Lemma classify_by_origins name project_root stdlib_dir site_dirs spec :
  is_local_module exists_ name project_root = false ->
  find_spec name = Ok (Some spec) ->
  origin spec <> Some "built-in" -> origin spec <> Some "frozen" ->
  let proj := norm (Path_str project_root) in
  (classify name project_root stdlib_dir site_dirs = Ok "local" <-> hit sep norm spec proj) /\
  (classify name project_root stdlib_dir site_dirs = Ok "stdlib" <->
     ~ hit sep norm spec proj /\ stdlib_dir <> "" /\ hit sep norm spec stdlib_dir) /\
  (classify name project_root stdlib_dir site_dirs = Ok "thirdparty" <->
     ~ hit sep norm spec proj /\ ~ (stdlib_dir <> "" /\ hit sep norm spec stdlib_dir) /\
     exists sd, sd ∈ site_dirs /\ hit sep norm spec sd).
Proof.
  intros Hloc Hspec Hb Hf proj. subst classify. cbv beta.
  unfold classify_module_origin. rewrite Hloc, Hspec. cbn [mbind result_bind].
  rewrite !bool_decide_eq_false_2 by done. cbn [orb].
  fold (normalized_origins norm spec). fold proj.
  assert (existsb (fun o => existsb (fun sd => lies_under sep o sd) site_dirs)
            (normalized_origins norm spec) = true <->
          exists sd, sd ∈ site_dirs /\ hit sep norm spec sd) as Hsite.
  { rewrite existsb_exists. split.
    - intros (o & Ho & (sd & Hsd & Hu)%existsb_exists). exists sd.
      split; [by apply list_elem_of_In|]. exists o.
      split; [by apply list_elem_of_In|by apply lies_under_spec].
    - intros (sd & Hsd & o & Ho & Hu). exists o.
      split; [by apply list_elem_of_In|]. apply existsb_exists. exists sd.
      split; [by apply list_elem_of_In|by apply lies_under_spec]. }
  pose proof (existsb_lies_under sep (normalized_origins norm spec) proj) as Hp.
  pose proof (existsb_lies_under sep (normalized_origins norm spec) stdlib_dir) as Hs.
  fold (hit sep norm spec proj) in Hp. fold (hit sep norm spec stdlib_dir) in Hs.
  destruct (existsb _ _) eqn:E1 in |- *.
  { assert (hit sep norm spec proj) by (by apply Hp). intuition congruence. }
  assert (~ hit sep norm spec proj) as Hnp by (rewrite <- Hp; congruence).
  clear Hp.
  destruct (String.eqb_spec stdlib_dir "") as [Hempty|Hnonempty]; cbn [negb andb].
  - destruct (existsb _ _) eqn:E3 in |- *.
    + assert (exists sd, sd ∈ site_dirs /\ hit sep norm spec sd) by (by apply Hsite).
      intuition congruence.
    + assert (~ exists sd, sd ∈ site_dirs /\ hit sep norm spec sd) by (rewrite <- Hsite; congruence).
      intuition congruence.
  - destruct (existsb (fun o => lies_under sep o stdlib_dir) _) eqn:E2.
    + assert (hit sep norm spec stdlib_dir) by (by apply Hs). intuition congruence.
    + assert (~ hit sep norm spec stdlib_dir) as Hns by (rewrite <- Hs; congruence).
      destruct (existsb _ _) eqn:E3 in |- *.
      * assert (exists sd, sd ∈ site_dirs /\ hit sep norm spec sd) by (by apply Hsite).
        intuition congruence.
      * assert (~ exists sd, sd ∈ site_dirs /\ hit sep norm spec sd) by (rewrite <- Hsite; congruence).
        intuition congruence.
Qed.
End ClassifierFacts.

(** * The extractor *)

Lemma node_induction (P : node -> Prop) :
  (forall names, P (Import names)) ->
  (forall module names level, P (ImportFrom module names level)) ->
  (forall kind children, Forall P children -> P (Node kind children)) ->
  forall n, P n.
Proof.
  intros Himp Hfrom Hnode.
  fix IH 1. intros [names|module names level|kind children].
  - apply Himp.
  - apply Hfrom.
  - apply Hnode. induction children as [|c cs IHcs]; constructor; [apply IH|apply IHcs].
Qed.

Lemma ast_walk_spec t n : n ∈ ast_walk t <-> subnode n t.
Proof.
  revert t. apply (node_induction (fun t => n ∈ ast_walk t <-> subnode n t)).
  - intros names. simpl. rewrite list_elem_of_singleton. split.
    + intros ->. constructor.
    + by inversion 1.
  - intros module names level. simpl. rewrite list_elem_of_singleton. split.
    + intros ->. constructor.
    + by inversion 1.
  - intros kind children IH. cbn [ast_walk]. rewrite elem_of_cons. split.
    + intros [->|Hin]; [constructor|].
      apply list_elem_of_In, in_flat_map in Hin as (c & Hc & Hn).
      apply list_elem_of_In in Hc, Hn.
      rewrite Forall_forall in IH. apply (subnode_child _ _ _ c); [done|]. by apply IH.
    + inversion 1 as [|? ? c Hc Hsub]; subst; [by left|]. right.
      apply list_elem_of_In, in_flat_map. exists c.
      rewrite Forall_forall in IH.
      split; apply list_elem_of_In; [done|]. by apply IH.
Qed.

Lemma add_name_elem mods name x :
  x ∈ add_name mods name <-> x ∈ mods \/ (x = name /\ x <> "").
Proof.
  unfold add_name. destruct (String.eqb_spec name "") as [->|Hne].
  - intuition congruence.
  - rewrite elem_of_union, elem_of_singleton. intuition congruence.
Qed.

Lemma visit_elem mods n x :
  x ∈ visit mods n <-> x ∈ mods \/ imports_name n x.
Proof.
  destruct n as [names|module names level|kind children]; simpl.
  - revert mods. induction names as [|a names IH]; intros mods; simpl.
    + split; [by left|]. intros [?|H]; [done|]. inversion H as [? a ? Ha|]; subst.
      by apply elem_of_nil in Ha.
    + rewrite IH, add_name_elem. split.
      * intros [[?|[-> ?]]|H]; [by left| |].
        -- right. apply (imports_plain _ a); [left|done|done].
        -- right. inversion H as [? b ? Hb|]; subst.
           apply (imports_plain _ b); [by right|done|done].
      * intros [?|H]; [by left; left|].
        inversion H as [? b ? Hb ? Hx|]; subst.
        apply elem_of_cons in Hb as [->|Hb]; [left; by right|].
        right. by apply (imports_plain _ b).
  - destruct level as [|level]; simpl.
    + destruct module as [m|].
      * destruct (String.eqb_spec m "") as [->|Hm].
        -- split; [by left|]. intros [?|H]; [done|]. inversion H; subst. done.
        -- rewrite add_name_elem. split.
           ++ intros [?|[-> ?]]; [by left|]. right. by constructor.
           ++ intros [?|H]; [by left|]. inversion H; subst. by right.
      * split; [by left|]. intros [?|H]; [done|]. inversion H.
    + split; [by left|]. intros [?|H]; [done|]. inversion H.
  - split; [by left|]. intros [?|H]; [done|]. inversion H.
Qed.

Lemma foldl_visit_elem mods l x :
  x ∈ foldl visit mods l <-> x ∈ mods \/ exists n, n ∈ l /\ imports_name n x.
Proof.
  revert mods. induction l as [|n l IH]; intros mods; simpl.
  - split; [by left|]. intros [?|(n & Hn & _)]; [done|]. by apply elem_of_nil in Hn.
  - rewrite IH, visit_elem. split.
    + intros [[?|?]|(m & Hm & ?)]; [by left|right; exists n|right; exists m].
      * split; [left|done].
      * split; [by right|done].
    + intros [?|(m & Hm & ?)]; [by left; left|].
      apply elem_of_cons in Hm as [->|Hm]; [left; by right|right; by exists m].
Qed.

Lemma visit_relative mods module names level :
  level <> 0%nat -> visit mods (ImportFrom module names level) = mods.
Proof. intros H. simpl. by destruct level. Qed.

Section ExtractorFacts.
Variable read_text : Path -> result string.
Variable ast_parse : string -> result node.

Lemma extract_parsed f src tree :
  read_text f = Ok src -> ast_parse src = Ok tree ->
  exists mods, extract_top_level_imports read_text ast_parse f = Ok mods /\
    forall x, x ∈ mods <-> exists n, subnode n tree /\ imports_name n x.
Proof.
  intros Hr H. unfold extract_top_level_imports. rewrite Hr. cbn [mbind result_bind].
  rewrite H. eexists. split; [done|]. intros x. rewrite foldl_visit_elem. split.
  - intros [?%not_elem_of_empty|(n & Hn & ?)]; [done|].
    exists n. by rewrite <- ast_walk_spec.
  - intros (n & Hn & ?). right. exists n. by rewrite ast_walk_spec.
Qed.

Lemma extract_syntax_error f src :
  read_text f = Ok src -> ast_parse src = Raise SyntaxError ->
  extract_top_level_imports read_text ast_parse f = Ok ∅.
Proof.
  intros Hr H. unfold extract_top_level_imports. rewrite Hr. cbn [mbind result_bind].
  by rewrite H.
Qed.
End ExtractorFacts.

(** * The file discoverer *)

Lemma dir_entry_induction (P : dir_entry -> Prop) :
  (forall name, P (File name)) ->
  (forall name entries, Forall P entries -> P (Dir name entries)) ->
  (forall name target, P (DirLink name target)) ->
  forall e, P e.
Proof.
  intros Hfile Hdir Hlink. fix IH 1. intros [name|name entries|name target].
  - apply Hfile.
  - apply Hdir. induction entries as [|e es IHes]; constructor; [apply IH|apply IHes].
  - apply Hlink.
Qed.

Lemma prune_dirnames_clean dirnames d : d ∈ prune_dirnames dirnames -> d ∉ EXCLUDE_DIRS.
Proof.
  unfold prune_dirnames. intros [_ H]%list_elem_of_In%filter_In.
  by apply bool_decide_eq_true in H.
Qed.

Lemma walk_entry_clean e :
  forall kept top t,
    (forall d, d ∈ kept -> d ∉ EXCLUDE_DIRS) ->
    t ∈ walk_entry prune_dirnames kept top e ->
    exists ds, t.1.1 = (top ++ ds)%list /\ clean_dirs ds.
Proof.
  induction e as [name|name entries IH|name target] using dir_entry_induction;
    intros kept top t Hkept; cbn [walk_entry]; [by intros ?%elem_of_nil| |by intros ?%elem_of_nil].
  - case_bool_decide as Hname; [|by intros ?%elem_of_nil].
    intros [->|Hin]%elem_of_cons.
    + exists [name]. split; [done|]. constructor; [by apply Hkept|constructor].
    + apply list_elem_of_In, in_flat_map in Hin as (e & He & Ht).
      rewrite Forall_forall in IH.
      apply list_elem_of_In in He, Ht.
      destruct (IH e He _ _ t (prune_dirnames_clean _) Ht) as (ds & -> & Hds).
      exists (name :: ds). split.
      * unfold path_join. by rewrite <- app_assoc.
      * constructor; [by apply Hkept|done].
Qed.

Lemma os_walk_clean root es t :
  t ∈ os_walk prune_dirnames root es -> clean_dir_below root t.1.1.
Proof.
  unfold os_walk. intros [->|Hin]%elem_of_cons.
  - exists []. split; [by rewrite app_nil_r|constructor].
  - apply list_elem_of_In, in_flat_map in Hin as (e & He & Ht).
    apply list_elem_of_In in Ht.
    by apply (walk_entry_clean e _ _ t (prune_dirnames_clean (dir_names es))).
Qed.

Lemma find_python_files_clean root es p :
  p ∈ find_python_files root es -> clean_file_below root p.
Proof.
  unfold find_python_files.
  intros (t & Ht & Hp)%list_elem_of_In%in_flat_map.
  destruct t as [[dirpath dirnames] filenames].
  apply in_map_iff in Hp as (fn & <- & [_ Hpy]%filter_In).
  apply list_elem_of_In, os_walk_clean in Ht as (ds & Hd & Hds). simpl in Hd. subst.
  exists ds, fn. split; [|done]. unfold path_join. by rewrite <- app_assoc.
Qed.

(** * The model at work *)

Example find_python_files_demo :
  find_python_files Demo.project_root Demo.tree_entries =
  [ ["/"; "proj"; "a.py"]; ["/"; "proj"; "src"; "c.py"];
    ["/"; "proj"; "src"; "pkg"; "e.py"] ].
Proof. reflexivity. Qed.

Example os_walk_demo :
  map (fun t => t.1.1) (os_walk prune_dirnames Demo.project_root Demo.tree_entries) =
  [ ["/"; "proj"]; ["/"; "proj"; "src"]; ["/"; "proj"; "src"; "pkg"] ].
Proof. reflexivity. Qed.

Example find_python_files_link :
  dir_names Sample.linked_entries = ["vendor"] /\
  find_python_files Demo.project_root Sample.linked_entries = [].
Proof. split; reflexivity. Qed.

Example lower_beyond_ascii :
  Py.lower (String (ascii_of_nat 201) "CLAIR") = String (ascii_of_nat 233) "clair" /\
  Py.lower (String (ascii_of_nat 215) (String (ascii_of_nat 223) "")) =
    String (ascii_of_nat 215) (String (ascii_of_nat 223) "").
Proof. split; reflexivity. Qed.

Example extract_relative_only :
  extract_top_level_imports Demo.read_text Demo.ast_parse ["rel.py"] = Ok ∅.
Proof. vm_compute. reflexivity. Qed.

Example extract_dotted :
  foldl visit ∅
    (ast_walk (Node Module [Import [Alias "os.path" None];
                            ImportFrom (Some "a.b") [Alias "c" None] 0]))
  = {["os"]} ∪ {["a"]}.
Proof. vm_compute. reflexivity. Qed.

Example pick_exact_first :
  pick_best_dist_for_module "yaml" ["PyYAML"; "yaml"; "types-PyYAML"] = Ok "yaml".
Proof. reflexivity. Qed.

Example pick_empty : pick_best_dist_for_module "yaml" [] = Raise IndexError.
Proof. reflexivity. Qed.

Example classify_lib_extra :
  classify_module_origin Demo.sep Demo.norm Demo.no_file Demo.Path_str Demo.find_extra
    "foo" Demo.project_root Demo.stdlib_dir ["/lib"] = Ok "unknown".
Proof. reflexivity. Qed.

Example manifest_empty : manifest_text [] = "".
Proof. reflexivity. Qed.

Example main_missing_output_directory :
  main Demo.sep Demo.norm Demo.no_file Demo.Path_str Demo.find_nothing
    Demo.read_text Demo.ast_parse Demo.pil_dists Demo.pil_version
    Sample.write_nowhere Demo.print
    Demo.stdlib_dir Demo.site_dirs Demo.project_root [File "app.py"] Demo.out =
  {| stdout := []; written := None;
     status := Raise (OtherException "FileNotFoundError") |}.
Proof. vm_compute. reflexivity. Qed.

Example main_numpy_unresolved :
  Demo.numpy_main Demo.print =
  {| stdout :=
       ["[OK] Wrote requirements.txt with 0 package(s).";
        "[WARN] Some imports couldn't be mapped to installed distributions:";
        "       numpy";
        "       If these are local modules, ignore. If third-party, make sure they’re installed."];
     written := Some ("requirements.txt", "");
     status := Ok 0%Z |}.
Proof. vm_compute. reflexivity. Qed.

(** * Further facts: the file discoverer *)

Lemma file_names_elem es fn : fn ∈ file_names es <-> File fn ∈ es.
Proof.
  unfold file_names. rewrite list_elem_of_In, in_flat_map. split.
  - intros ([n|n sub|n tgt] & He & Hin); simpl in Hin; [|done..].
    destruct Hin as [<-|[]]. by apply list_elem_of_In.
  - intros H. exists (File fn). split; [by apply list_elem_of_In|by left].
Qed.

Lemma dir_names_elem es d :
  d ∈ dir_names es <->
  (exists sub, Dir d sub ∈ es) \/ (exists target, DirLink d target ∈ es).
Proof.
  unfold dir_names. rewrite list_elem_of_In, in_flat_map. split.
  - intros ([n|n sub|n target] & He & Hin); simpl in Hin; [done| |].
    + destruct Hin as [<-|[]]. left. exists sub. by apply list_elem_of_In.
    + destruct Hin as [<-|[]]. right. exists target. by apply list_elem_of_In.
  - intros [[sub H]|[target H]].
    + exists (Dir d sub). split; [by apply list_elem_of_In|by left].
    + exists (DirLink d target). split; [by apply list_elem_of_In|by left].
Qed.

Lemma prune_dirnames_elem dirnames d :
  d ∈ prune_dirnames dirnames <-> d ∈ dirnames /\ d ∉ EXCLUDE_DIRS.
Proof.
  unfold prune_dirnames. rewrite list_elem_of_In, filter_In, bool_decide_eq_true.
  by rewrite <- list_elem_of_In.
Qed.

(** The paths one yielded triple contributes to [files]. *)
Lemma own_files_elem (dirpath : Path) filenames p :
  p ∈ map (fun fn => dirpath // fn) (List.filter is_python_file filenames) <->
  exists fn, fn ∈ filenames /\ is_python_file fn = true /\ p = (dirpath ++ [fn])%list.
Proof.
  rewrite list_elem_of_In, in_map_iff. split.
  - intros (fn & <- & [Hin Hpy]%filter_In). exists fn.
    split; [by apply list_elem_of_In|done].
  - intros (fn & Hin & Hpy & ->). exists fn. split; [done|].
    apply filter_In. split; [by apply list_elem_of_In|done].
Qed.

Lemma walk_entry_files e :
  forall kept top p,
    (exists t, t ∈ walk_entry prune_dirnames kept top e /\
       p ∈ map (fun fn => t.1.1 // fn) (List.filter is_python_file t.2)) <->
    (exists d sub ds fn,
       e = Dir d sub /\ d ∈ kept /\ p = (top ++ d :: ds ++ [fn])%list /\
       file_at sub ds fn /\ clean_dirs ds /\ is_python_file fn = true).
Proof.
  induction e as [name|name entries IH|name target] using dir_entry_induction;
    intros kept top p; cbn [walk_entry].
  3:{ split; [by intros (t & ?%elem_of_nil & _)|]. by intros (? & ? & ? & ? & ? & _). }
  - split; [by intros (t & ?%elem_of_nil & _)|]. by intros (? & ? & ? & ? & ? & _).
  - rewrite Forall_forall in IH. case_bool_decide as Hname.
    2:{ split; [by intros (t & ?%elem_of_nil & _)|].
        intros (? & ? & ? & ? & [= <- <-] & ? & _). done. }
    split.
    + intros (t & [->|Hin]%elem_of_cons & Hp).
      * simpl in Hp. apply own_files_elem in Hp as (fn & Hfn & Hpy & ->).
        exists name, entries, [], fn. split; [done|]. split; [done|].
        split; [unfold path_join; by rewrite <- app_assoc|].
        split; [constructor; by apply file_names_elem|]. split; [constructor|done].
      * apply list_elem_of_In, in_flat_map in Hin as (e & He & Ht).
        apply list_elem_of_In in He, Ht.
        destruct (proj1 (IH e He (prune_dirnames (dir_names entries)) (top // name) p)) as (d & sub & ds & fn & -> & Hd & -> & Hat & Hcl & Hpy);
          [by exists t|].
        apply prune_dirnames_elem in Hd as [_ Hd].
        exists name, entries, (d :: ds), fn. split; [done|]. split; [done|].
        split; [unfold path_join; by rewrite <- app_assoc|].
        split; [by apply (file_below _ d sub)|]. split; [by constructor|done].
    + intros (d & sub & ds & fn & [= <- <-] & _ & -> & Hat & Hcl & Hpy).
      inversion Hat as [? ? Hfile|? d' sub' ds' ? Hdir Hat']; subst.
      * eexists. split; [left|]. simpl. apply own_files_elem. exists fn.
        split; [by apply file_names_elem|]. split; [done|].
        unfold path_join. by rewrite <- app_assoc.
      * inversion Hcl as [|? ? Hd' Hcl']; subst.
        destruct (proj2 (IH (Dir d' sub') Hdir (prune_dirnames (dir_names entries))
                           (top // name) (top ++ name :: (d' :: ds') ++ [fn])%list))
          as (t & Ht & Hp).
        { exists d', sub', ds', fn. split; [done|].
          split; [apply prune_dirnames_elem; split; [apply dir_names_elem; eauto|done]|].
          split; [unfold path_join; by rewrite <- app_assoc|]. done. }
        exists t. split; [|done]. right.
        apply list_elem_of_In, in_flat_map. exists (Dir d' sub').
        split; by apply list_elem_of_In.
Qed.

Lemma find_python_files_spec root es p :
  p ∈ find_python_files root es <->
  exists ds fn,
    p = (root ++ ds ++ [fn])%list /\ file_at es ds fn /\ clean_dirs ds /\
    is_python_file fn = true.
Proof.
  unfold find_python_files, os_walk. rewrite list_elem_of_In, in_flat_map. split.
  - intros ([[dirpath dirnames] filenames] & Ht & Hp).
    apply list_elem_of_In in Hp. destruct Ht as [[= <- <- <-]|Ht].
    + apply own_files_elem in Hp as (fn & Hfn & Hpy & ->).
      exists [], fn. split; [done|]. split; [constructor; by apply file_names_elem|].
      split; [constructor|done].
    + apply in_flat_map in Ht as (e & He & Ht). apply list_elem_of_In in He, Ht.
      destruct (proj1 (walk_entry_files e (prune_dirnames (dir_names es)) root p)) as (d & sub & ds & fn & -> & Hd & -> & Hat & Hcl & Hpy);
        [by exists (dirpath, dirnames, filenames)|].
      apply prune_dirnames_elem in Hd as [_ Hd].
      exists (d :: ds), fn. split; [done|]. split; [by apply (file_below _ d sub)|].
      split; [by constructor|done].
  - intros (ds & fn & -> & Hat & Hcl & Hpy).
    inversion Hat as [? ? Hfile|? d sub ds' ? Hdir Hat']; subst.
    + eexists. split; [left; reflexivity|]. apply list_elem_of_In, own_files_elem.
      exists fn. split; [by apply file_names_elem|done].
    + inversion Hcl as [|? ? Hd Hcl']; subst.
      destruct (proj2 (walk_entry_files (Dir d sub) (prune_dirnames (dir_names es)) root
                         (root ++ (d :: ds') ++ [fn])%list)) as (t & Ht & Hp).
      { exists d, sub, ds', fn. split; [done|].
        split; [apply prune_dirnames_elem; split; [apply dir_names_elem; eauto|done]|done]. }
      exists t. split.
      * right. apply in_flat_map. exists (Dir d sub). split; by apply list_elem_of_In.
      * destruct t as [[a b] c]. by apply list_elem_of_In.
Qed.

Lemma rev_cons c s : String.rev (String c s) = String.rev s ++ String c "".
Proof. unfold String.rev at 1. simpl. by rewrite rev_app_spec. Qed.

Lemma rev_involutive s : String.rev (String.rev s) = s.
Proof.
  induction s as [|c s IH]; [done|].
  rewrite rev_cons, rev_append, IH. done.
Qed.

Lemma endswith_spec s p : Py.endswith s p = true <-> exists a, s = a ++ p.
Proof.
  split; [|intros [a ->]; apply endswith_app].
  unfold Py.endswith. intros [r Hr]%prefix_spec. exists (String.rev r).
  rewrite <- (rev_involutive s), Hr, rev_append, rev_involutive. done.
Qed.

Lemma is_python_file_spec fn :
  is_python_file fn = true <->
  (exists a, fn = a ++ ".py") /\ ~ (exists a, fn = a ++ "_pb2.py").
Proof.
  unfold is_python_file.
  replace (elements EXCLUDE_FILE_SUFFIXES) with ["_pb2.py"] by (vm_compute; reflexivity).
  cbn [existsb]. rewrite orb_false_r, andb_true_iff, negb_true_iff.
  rewrite <- !endswith_spec. destruct (Py.endswith fn "_pb2.py"); intuition congruence.
Qed.

(** * Further facts: projects without Python files *)

Lemma no_python_files_iff project_root root_entries :
  find_python_files project_root root_entries = [] <->
  forall ds fn, file_at root_entries ds fn -> clean_dirs ds -> is_python_file fn = false.
Proof.
  split.
  - intros Hnil ds fn Hat Hcl. destruct (is_python_file fn) eqn:Hpy; [|done].
    assert ((project_root ++ ds ++ [fn])%list ∈ find_python_files project_root root_entries)
      as Hin by (apply find_python_files_spec; eauto 10).
    rewrite Hnil in Hin. by apply elem_of_nil in Hin.
  - intros Hno. destruct (find_python_files project_root root_entries) as [|p l] eqn:E; [done|].
    assert (p ∈ find_python_files project_root root_entries) as Hin by (rewrite E; left).
    apply find_python_files_spec in Hin as (ds & fn & _ & Hat & Hcl & Hpy).
    rewrite (Hno ds fn Hat Hcl) in Hpy. done.
Qed.

(** * Further facts: the extractor *)

Lemma split_head_no_sep c s :
  Py.contains (String c "") (hd "" (Py.split c s)) = false.
Proof.
  induction s as [|a r IH]; [done|].
  cbn [Py.split]. destruct (Ascii.eqb_spec a c) as [->|Hne]; [done|].
  pose proof (split_nonempty c r) as Hn.
  destruct (Py.split c r) as [|x xs]; [done|]. cbn [hd] in *.
  rewrite contains_unfold, IH, orb_false_r. apply prefix_cons_ne. congruence.
Qed.

Lemma split_head_prefix c s :
  s = hd "" (Py.split c s) \/ exists rest, s = hd "" (Py.split c s) ++ String c rest.
Proof.
  induction s as [|a r IH]; [by left|].
  cbn [Py.split]. destruct (Ascii.eqb_spec a c) as [->|Hne].
  - right. by exists r.
  - pose proof (split_nonempty c r) as Hn.
    destruct (Py.split c r) as [|x xs]; [done|]. cbn [hd] in *.
    destruct IH as [->|[rest ->]]; [by left|]. right. by exists rest.
Qed.

Lemma imports_name_shape n x :
  imports_name n x ->
  x <> "" /\ Py.contains "." x = false /\
  exists m, first_segment m = x /\ (m = x \/ exists rest, m = x ++ "." ++ rest).
Proof.
  assert (forall m, first_segment m = x ->
            Py.contains "." x = false /\
            exists m', first_segment m' = x /\ (m' = x \/ exists rest, m' = x ++ "." ++ rest))
    as Hseg.
  { intros m <-. split; [apply split_head_no_sep|]. exists m. split; [done|].
    apply split_head_prefix. }
  inversion 1; subst; (split; [done|]); eapply Hseg; reflexivity.
Qed.

Lemma foldl_visit_ext mods l l' :
  (forall n, n ∈ l <-> n ∈ l') -> foldl visit mods l = foldl visit mods l'.
Proof.
  intros Hext. apply set_eq. intros x. rewrite !foldl_visit_elem.
  split; intros [?|(n & Hn & ?)]; [by left|right; exists n|by left|right; exists n];
    (split; [by apply Hext|done]).
Qed.

Section ExtractorMore.
Variable read_text : Path -> result string.
Variable ast_parse : string -> result node.

Lemma extract_names_plain py_file mods x :
  extract_top_level_imports read_text ast_parse py_file = Ok mods ->
  x ∈ mods -> x <> "" /\ Py.contains "." x = false.
Proof.
  unfold extract_top_level_imports.
  destruct (read_text py_file) as [src|]; cbn [mbind result_bind]; [|done].
  destruct (ast_parse src) as [tree|[]]; intros [= <-]; try done.
  intros [?%not_elem_of_empty|(n & _ & H)]%foldl_visit_elem; [done|].
  apply imports_name_shape in H as (? & ? & _). done.
Qed.

Lemma extract_raises py_file e :
  extract_top_level_imports read_text ast_parse py_file = Raise e <->
  read_text py_file = Raise e \/
  exists src, read_text py_file = Ok src /\ ast_parse src = Raise e /\ e <> SyntaxError.
Proof.
  unfold extract_top_level_imports.
  destruct (read_text py_file) as [src|e0]; cbn [mbind result_bind].
  - split.
    + intros H. right. exists src. split; [done|].
      destruct (ast_parse src) as [tree|[]]; by first [injection H as <- | discriminate H].
    + intros [[=]|(src' & [= <-] & Hp & Hne)]. rewrite Hp. by destruct e.
  - split; [intros [= ->]; by left|]. by intros [[= ->]|(src & [=] & _)].
Qed.

Lemma collect_imports_raises acc fs e :
  collect_imports read_text ast_parse acc fs = Raise e ->
  exists f, f ∈ fs /\ extract_top_level_imports read_text ast_parse f = Raise e.
Proof.
  revert acc. induction fs as [|f fs IH]; intros acc; cbn [collect_imports]; [done|].
  destruct (extract_top_level_imports read_text ast_parse f) as [mods|e'] eqn:He;
    cbn [mbind result_bind].
  - intros (g & Hg & ?)%IH. exists g. split; [by right|done].
  - intros [= ->]. exists f. split; [left|done].
Qed.

Lemma collect_imports_aborts acc fs f e :
  f ∈ fs -> extract_top_level_imports read_text ast_parse f = Raise e ->
  exists e', collect_imports read_text ast_parse acc fs = Raise e'.
Proof.
  intros Hin Hr. revert acc.
  induction fs as [|g fs IH]; intros acc; [by apply elem_of_nil in Hin|].
  cbn [collect_imports].
  destruct (extract_top_level_imports read_text ast_parse g) as [mods|e'] eqn:He;
    cbn [mbind result_bind]; [|eauto].
  apply elem_of_cons in Hin as [->|Hin]; [congruence|by apply IH].
Qed.

Lemma collect_imports_union acc fs all_imports :
  collect_imports read_text ast_parse acc fs = Ok all_imports ->
  forall x, x ∈ all_imports <->
    x ∈ acc \/ exists f mods, f ∈ fs /\
      extract_top_level_imports read_text ast_parse f = Ok mods /\ x ∈ mods.
Proof.
  revert acc. induction fs as [|f fs IH]; intros acc; cbn [collect_imports].
  - intros [= <-] x. split; [by left|]. intros [?|(f & ? & ?%elem_of_nil & _)]; done.
  - destruct (extract_top_level_imports read_text ast_parse f) as [mods|e'] eqn:He;
      cbn [mbind result_bind]; [|done].
    intros H x. rewrite (IH _ H x), elem_of_union. split.
    + intros [[?|?]|(g & m & Hg & ? & ?)]; [by left|right|right].
      * exists f, mods. split; [left|done].
      * exists g, m. split; [by right|done].
    + intros [?|(g & m & [->|Hg]%elem_of_cons & Hm & ?)]; [by left; left| |].
      * left. right. congruence.
      * right. by exists g, m.
Qed.
End ExtractorMore.

(** * Further facts: the classifier *)

Lemma Under_refl sep d : Under sep d d.
Proof. by left. Qed.

Lemma Under_trans sep o d e : Under sep o d -> Under sep d e -> Under sep o e.
Proof.
  intros [->|[r1 ->]] [->|[r2 ->]]; [by left|right; eauto|right; eauto|].
  right. exists (r2 ++ String sep r1). by rewrite string_app_assoc.
Qed.

Lemma Under_length sep o d : Under sep o d -> (String.length d <= String.length o)%nat.
Proof. intros [->|[r ->]]; [done|]. rewrite string_app_length. lia. Qed.

Lemma Under_antisym sep o d : Under sep o d -> Under sep d o -> o = d.
Proof.
  intros [->|[r ->]] H2; [done|]. apply Under_length in H2.
  rewrite string_app_length in H2. simpl in H2. lia.
Qed.

Lemma lies_under_root sep rest :
  lies_under sep (os_sep sep ++ rest) (os_sep sep) = true <->
  rest = "" \/ exists r, rest = String sep r.
Proof.
  rewrite lies_under_spec. unfold os_sep, Under. split.
  - intros [H|[r H]].
    + left. rewrite string_app_cons, string_app_nil_l in H. by injection H.
    + right. exists r. rewrite !string_app_cons, !string_app_nil_l in H. by injection H.
  - intros [->|[r ->]]; [by left|right; by exists r].
Qed.

Section ClassifierMore.
Variable sep : ascii.
Variable norm : string -> string.
Variable exists_ : Path -> bool.
Variable Path_str : Path -> string.
Variable find_spec : string -> result (option ModuleSpec).

Local Abbreviation classify := (classify_module_origin sep norm exists_ Path_str find_spec).

Lemma classify_range name project_root stdlib_dir site_dirs kind :
  classify name project_root stdlib_dir site_dirs = Ok kind ->
  kind = "local" \/ kind = "stdlib" \/ kind = "thirdparty" \/ kind = "unknown".
Proof.
  unfold classify_module_origin.
  destruct (is_local_module _ _ _); [intros [= <-]; auto|].
  destruct (find_spec name) as [[spec|]|]; cbn [mbind result_bind]; [| intros [= <-]; auto|done].
  repeat match goal with
         | |- context [if ?b then _ else _] => destruct b
         end; intros [= <-]; auto.
Qed.

Lemma classify_raises name project_root stdlib_dir site_dirs e :
  classify name project_root stdlib_dir site_dirs = Raise e <->
  is_local_module exists_ name project_root = false /\ find_spec name = Raise e.
Proof.
  unfold classify_module_origin.
  destruct (is_local_module _ _ _); [split; [done|by intros [? _]]|].
  destruct (find_spec name) as [[spec|]|e']; cbn [mbind result_bind].
  - split; [|by intros [_ ?]].
    repeat match goal with
           | |- context [if ?b then _ else _] => destruct b
           end; done.
  - split; [done|by intros [_ ?]].
  - split; [by intros [= ->]|by intros [_ [= ->]]].
Qed.

Lemma classify_special name project_root stdlib_dir site_dirs :
  is_local_module exists_ name project_root = false ->
  (find_spec name = Ok None ->
   classify name project_root stdlib_dir site_dirs = Ok "unknown") /\
  (forall spec, find_spec name = Ok (Some spec) ->
     origin spec = Some "built-in" \/ origin spec = Some "frozen" ->
     classify name project_root stdlib_dir site_dirs = Ok "stdlib") /\
  (forall spec, find_spec name = Ok (Some spec) ->
     normalized_origins norm spec = [] ->
     origin spec <> Some "built-in" -> origin spec <> Some "frozen" ->
     classify name project_root stdlib_dir site_dirs = Ok "unknown").
Proof.
  intros Hloc. unfold classify_module_origin. rewrite Hloc.
  split; [by intros ->|]. split.
  - intros spec -> [H|H]; cbn [mbind result_bind]; rewrite H; [done|].
    by rewrite orb_true_r.
  - intros spec -> Hnil Hb Hf. cbn [mbind result_bind].
    rewrite !bool_decide_eq_false_2 by done. cbn [orb].
    fold (normalized_origins norm spec). rewrite Hnil. simpl.
    by rewrite andb_false_r.
Qed.

(** No module is third-party when every site directory lies under the
    project root. *)
Lemma classify_site_inside_project name project_root stdlib_dir site_dirs :
  (forall sd, sd ∈ site_dirs -> Under sep sd (norm (Path_str project_root))) ->
  classify name project_root stdlib_dir site_dirs <> Ok "thirdparty".
Proof.
  intros Hin.
  destruct (is_local_module exists_ name project_root) eqn:Hloc.
  { by rewrite (classify_local_file _ _ _ _ _ _ _ _ _ Hloc). }
  destruct (find_spec name) as [[spec|]|e] eqn:Hspec.
  - destruct (decide (origin spec = Some "built-in" \/ origin spec = Some "frozen")) as [Hb|Hb].
    + by rewrite (proj1 (proj2 (classify_special _ _ _ _ Hloc)) spec Hspec Hb).
    + intros Ht.
      apply (classify_by_origins sep norm exists_ Path_str find_spec
               name project_root stdlib_dir site_dirs spec Hloc Hspec) in Ht;
        [|tauto|tauto].
      destruct Ht as (Hnp & _ & sd & Hsd & o & Ho & Hu).
      apply Hnp. exists o. split; [done|]. eapply Under_trans; [done|]. by apply Hin.
  - by rewrite (proj1 (classify_special _ _ _ _ Hloc) Hspec).
  - assert (classify_module_origin sep norm exists_ Path_str find_spec
              name project_root stdlib_dir site_dirs = Raise e) as ->; [|done].
    by apply classify_raises.
Qed.

(** With no stdlib directory, only built-in and frozen modules are
    stdlib. *)
Lemma classify_stdlib_needs_dir name project_root site_dirs :
  classify name project_root "" site_dirs = Ok "stdlib" ->
  exists spec, find_spec name = Ok (Some spec) /\
    (origin spec = Some "built-in" \/ origin spec = Some "frozen").
Proof.
  intros H.
  destruct (is_local_module exists_ name project_root) eqn:Hloc.
  { by rewrite (classify_local_file _ _ _ _ _ _ _ _ _ Hloc) in H. }
  destruct (find_spec name) as [[spec|]|e] eqn:Hspec.
  - exists spec. split; [done|].
    destruct (decide (origin spec = Some "built-in" \/ origin spec = Some "frozen")) as [Hb|Hb];
      [done|].
    apply (classify_by_origins sep norm exists_ Path_str find_spec
             name project_root "" site_dirs spec Hloc Hspec) in H; [|tauto|tauto].
    by destruct H as (_ & ? & _).
  - by rewrite (proj1 (classify_special _ _ _ _ Hloc) Hspec) in H.
  - assert (classify_module_origin sep norm exists_ Path_str find_spec
              name project_root "" site_dirs = Raise e) as Hr by (by apply classify_raises).
    congruence.
Qed.
End ClassifierMore.

Section BucketFacts.
Variable sep : ascii.
Variable norm : string -> string.
Variable exists_ : Path -> bool.
Variable Path_str : Path -> string.
Variable find_spec : string -> result (option ModuleSpec).
Variable stdlib_dir : string.
Variable site_dirs : list string.
Variable project_root : Path.

Local Abbreviation classify name :=
  (classify_module_origin sep norm exists_ Path_str find_spec
     name project_root stdlib_dir site_dirs).
Local Abbreviation classify_names :=
  (classify_all sep norm exists_ Path_str find_spec stdlib_dir site_dirs project_root).

Lemma classify_all_buckets names : forall b0 b,
  classify_names b0 names = Ok b ->
  forall n,
    (n ∈ third_party_mods b <->
       n ∈ third_party_mods b0 \/ (n ∈ names /\ classify n = Ok "thirdparty")) /\
    (n ∈ skipped_local b <->
       n ∈ skipped_local b0 \/ (n ∈ names /\ classify n = Ok "local")) /\
    (n ∈ skipped_stdlib b <->
       n ∈ skipped_stdlib b0 \/ (n ∈ names /\ classify n = Ok "stdlib")) /\
    (n ∈ unknown_kind b <->
       n ∈ unknown_kind b0 \/ (n ∈ names /\ classify n = Ok "unknown")).
Proof.
  induction names as [|name names IH]; intros b0 b; cbn [classify_all].
  - intros [= <-] n. repeat split; try (by left); intros [?|[?%elem_of_nil _]]; done.
  - destruct (classify name) as [kind|e] eqn:Hk; cbn [mbind result_bind]; [|done].
    intros H n. specialize (IH _ _ H n). destruct IH as (I1 & I2 & I3 & I4).
    rewrite I1, I2, I3, I4. clear I1 I2 I3 I4 H.
    pose proof (classify_range sep norm exists_ Path_str find_spec _ _ _ _ _ Hk) as Hrange.
    assert (forall k, (n ∈ name :: names /\ classify n = Ok k) <->
              (n = name /\ kind = k) \/ (n ∈ names /\ classify n = Ok k)) as Hcons.
    { intros k. rewrite elem_of_cons. split.
      - intros [[Hn|Hn] Hc]; [left|right; done]. subst. split; [done|]. congruence.
      - intros [[E1 E2]|[? ?]]; [subst; split; [by left|done]|split; [by right|done]]. }
    rewrite !Hcons. clear Hcons.
    destruct Hrange as [-> | [-> | [-> | ->]]]; cbn [String.eqb Ascii.eqb Bool.eqb];
      cbn [third_party_mods skipped_local skipped_stdlib unknown_kind];
      rewrite ?elem_of_union, ?elem_of_singleton;
      repeat split; intros; intuition (try congruence; try discriminate).
Qed.

Lemma classify_all_raises names : forall b0 e,
  classify_names b0 names = Raise e ->
  exists name, name ∈ names /\ find_spec name = Raise e.
Proof.
  induction names as [|name names IH]; intros b0 e; cbn [classify_all]; [done|].
  destruct (classify name) as [kind|e'] eqn:Hk; cbn [mbind result_bind].
  - intros (n & Hn & ?)%IH. exists n. split; [by right|done].
  - intros [= ->]. apply classify_raises in Hk as [_ Hk]. exists name. split; [left|done].
Qed.
End BucketFacts.

(** * Further facts: the environment helpers *)

Lemma leb_ne_ltb a b : String.leb a b = true -> a <> b -> String.ltb a b = true.
Proof.
  unfold String.leb, String.ltb. destruct (String.compare a b) eqn:E; try done.
  apply String.compare_eq_iff in E. done.
Qed.

Lemma sorted_nodup_strict l :
  NoDup l -> Sorted (fun a b => String.ltb a b = true) (Py.sorted l).
Proof.
  intros Hnd. unfold Py.sorted.
  assert (NoDup (Py.sort String.leb l)) as Hnd' by (by rewrite sort_perm).
  pose proof (sort_sorted String.leb String.leb_total l) as Hs.
  induction Hs as [|x r Hr IH Hhd]; [constructor|].
  apply NoDup_cons in Hnd' as [Hx Hnd']. constructor; [by apply IH|].
  destruct Hhd as [|y r' Hxy]; constructor.
  apply leb_ne_ltb; [done|]. intros ->. apply Hx. left.
Qed.

Lemma sorted_elements_strict (X : gset string) :
  Sorted (fun a b => String.ltb a b = true) (Py.sorted (elements X)).
Proof. apply sorted_nodup_strict, NoDup_elements. Qed.

Lemma foldl_add_elem (f : string -> string) (acc : gset string) l x :
  x ∈ foldl (fun dirs d => dirs ∪ {[ f d ]}) acc l <->
  x ∈ acc \/ exists d, d ∈ l /\ x = f d.
Proof.
  revert acc. induction l as [|d l IH]; intros acc; simpl.
  - split; [by left|]. intros [?|(d & ?%elem_of_nil & _)]; done.
  - rewrite IH, elem_of_union, elem_of_singleton. split.
    + intros [[?| ->]|(d' & ? & ->)]; [by left|right|right].
      * exists d. split; [left|done].
      * exists d'. split; [by right|done].
    + intros [?|(d' & [->|?]%elem_of_cons & ->)]; [by left; left|by left; right|].
      right. by exists d'.
Qed.

Section EnvironmentFacts.
Variable norm : string -> string.
Variable get_paths : gmap string string.
Variable getsitepackages : option (list string).
Variable getusersitepackages : option string.

Lemma add_path_dir_elem dirs key x :
  x ∈ add_path_dir norm get_paths dirs key <->
  x ∈ dirs \/ exists p, get_paths !! key = Some p /\ p <> "" /\ x = norm p.
Proof.
  unfold add_path_dir. destruct (get_paths !! key) as [p|].
  - destruct (String.eqb_spec p "") as [->|Hne].
    + split; [by left|]. intros [?|(p & [= <-] & ? & _)]; done.
    + rewrite elem_of_union, elem_of_singleton. split.
      * intros [?| ->]; [by left|right; by exists p].
      * intros [?|(q & [= <-] & _ & ->)]; [by left|by right].
  - split; [by left|]. intros [?|(p & ? & _)]; done.
Qed.

Lemma get_site_package_dirs_elem x :
  x ∈ get_site_package_dirs norm get_paths getsitepackages getusersitepackages <->
  (exists ds d, getsitepackages = Some ds /\ d ∈ ds /\ x = norm d) \/
  (exists u, getusersitepackages = Some u /\ x = norm u) \/
  (exists key p, (key = "purelib" \/ key = "platlib") /\
     get_paths !! key = Some p /\ p <> "" /\ x = norm p).
Proof.
  unfold get_site_package_dirs. rewrite sorted_elem, elem_of_elements.
  cbn [foldl]. rewrite !add_path_dir_elem.
  assert (forall acc : gset string,
            x ∈ match getusersitepackages with Some u => acc ∪ {[ norm u ]} | None => acc end
            <-> x ∈ acc \/ exists u, getusersitepackages = Some u /\ x = norm u) as Huser.
  { intros acc. destruct getusersitepackages as [u|].
    - rewrite elem_of_union, elem_of_singleton. split.
      + intros [?| ->]; [by left|right; by exists u].
      + intros [?|(u' & [= <-] & ->)]; [by left|by right].
    - split; [by left|]. intros [?|(u & ? & _)]; done. }
  rewrite Huser, foldl_add_elem. split.
  - intros [[[[?%not_elem_of_empty|(d & Hd & ->)]|Hu]|Hp]|Hp]; [done| | | |].
    + left. destruct getsitepackages as [ds|]; [|by apply elem_of_nil in Hd]. eauto.
    + right. by left.
    + right. right. destruct Hp as (p & ? & ? & ?). exists "purelib", p. auto.
    + right. right. destruct Hp as (p & ? & ? & ?). exists "platlib", p. auto.
  - intros [(ds & d & -> & Hd & ->)|[Hu|(key & p & [->| ->] & ? & ? & ?)]].
    + left. left. left. right. by exists d.
    + left. left. by right.
    + left. right. by exists p.
    + right. by exists p.
Qed.

Lemma get_site_package_dirs_sorted :
  Sorted (fun a b => String.ltb a b = true)
    (get_site_package_dirs norm get_paths getsitepackages getusersitepackages).
Proof. unfold get_site_package_dirs. apply sorted_elements_strict. Qed.

Lemma get_stdlib_dir_cases :
  (get_paths !! "stdlib" = None \/ get_paths !! "stdlib" = Some "" ->
   get_stdlib_dir norm get_paths = "") /\
  (forall stdlib, get_paths !! "stdlib" = Some stdlib -> stdlib <> "" ->
   get_stdlib_dir norm get_paths = norm stdlib).
Proof.
  unfold get_stdlib_dir. split.
  - by intros [->| ->].
  - intros stdlib -> Hne. by destruct (String.eqb_spec stdlib "").
Qed.
End EnvironmentFacts.

(** * Further facts: the map from import names to distributions *)






(** Stripping. *)
Lemma lstrip_idem s : PyText.lstrip (PyText.lstrip s) = PyText.lstrip s.
Proof.
  induction s as [|c r IH]; [done|]. cbn [PyText.lstrip].
  destruct (PyText.is_space c) eqn:E; [done|]. cbn [PyText.lstrip]. by rewrite E.
Qed.

Lemma rstrip_cons c r :
  PyText.rstrip (String c r) =
  match PyText.rstrip r with
  | EmptyString => if PyText.is_space c then EmptyString else String c EmptyString
  | r' => String c r'
  end.
Proof. reflexivity. Qed.

Lemma rstrip_idem s : PyText.rstrip (PyText.rstrip s) = PyText.rstrip s.
Proof.
  induction s as [|c r IH]; [done|]. rewrite rstrip_cons.
  destruct (PyText.rstrip r) as [|c' r'] eqn:E.
  - destruct (PyText.is_space c) eqn:Ec; [done|]. rewrite rstrip_cons. cbn [PyText.rstrip].
    by rewrite Ec.
  - rewrite rstrip_cons, IH. done.
Qed.

Lemma rstrip_head c r :
  PyText.is_space c = false ->
  exists r', PyText.rstrip (String c r) = String c r'.
Proof.
  intros Hc. rewrite rstrip_cons. destruct (PyText.rstrip r); rewrite ?Hc; eauto.
Qed.

Lemma lstrip_head s :
  PyText.lstrip s = "" \/
  exists c r, PyText.lstrip s = String c r /\ PyText.is_space c = false.
Proof.
  induction s as [|c r IH]; [by left|]. cbn [PyText.lstrip].
  destruct (PyText.is_space c) eqn:E; [done|]. right. eauto.
Qed.

Lemma strip_idem s : PyText.strip (PyText.strip s) = PyText.strip s.
Proof.
  unfold PyText.strip.
  destruct (lstrip_head s) as [->|(c & r & -> & Hc)]; [done|].
  destruct (rstrip_head c r Hc) as [r' Hr]. rewrite Hr.
  cbn [PyText.lstrip]. rewrite Hc, <- Hr. apply rstrip_idem.
Qed.

Lemma rstrip_last t :
  PyText.rstrip t = "" \/
  exists a z, PyText.rstrip t = a ++ String z "" /\ PyText.is_space z = false.
Proof.
  induction t as [|c r IH]; [by left|]. rewrite rstrip_cons.
  destruct (PyText.rstrip r) as [|c' r'] eqn:E.
  - destruct (PyText.is_space c) eqn:Ec; [by left|]. right. by exists "", c.
  - right. destruct IH as [?|(a & z & Ha & Hz)]; [done|].
    exists (String c a), z. by rewrite Ha.
Qed.

Lemma strip_ends s :
  PyText.strip s = "" \/
  exists c r a z,
    PyText.strip s = String c r /\ PyText.is_space c = false /\
    PyText.strip s = a ++ String z "" /\ PyText.is_space z = false.
Proof.
  unfold PyText.strip.
  destruct (lstrip_head s) as [->|(c0 & r0 & -> & Hc0)]; [by left|].
  right. destruct (rstrip_head c0 r0 Hc0) as [r' Hr].
  destruct (rstrip_last (String c0 r0)) as [E|(a & z & Ha & Hz)]; [congruence|].
  exists c0, r', a, z. done.
Qed.

Lemma splitlines_plain_aux n : forall t,
  (String.length t <= n)%nat -> Forall plain_chars (PyText.splitlines t).
Proof.
  induction n as [|n IH]; intros [|c r] Hlen; simpl in Hlen; try lia; [constructor..|].
  cbn [PyText.splitlines]. destruct (PyText.is_linebreak c) eqn:Ec.
  - constructor; [constructor|]. destruct r as [|c' r']; [constructor|].
    destruct (_ && _); apply IH; simpl in *; lia.
  - assert (Forall plain_chars (PyText.splitlines r)) as Hr by (apply IH; lia).
    destruct (PyText.splitlines r) as [|l ls].
    + repeat constructor. done.
    + apply Forall_cons in Hr as [Hl Hls]. constructor; [|done].
      unfold plain_chars. simpl. by constructor.
Qed.

Lemma splitlines_plain t : Forall plain_chars (PyText.splitlines t).
Proof. by apply (splitlines_plain_aux (String.length t)). Qed.

Lemma lstrip_plain s : plain_chars s -> plain_chars (PyText.lstrip s).
Proof.
  unfold plain_chars. induction s as [|c r IH]; [done|]. simpl.
  intros [Hc Hr]%Forall_cons. destruct (PyText.is_space c); [by apply IH|].
  simpl. by constructor.
Qed.

Lemma rstrip_plain s : plain_chars s -> plain_chars (PyText.rstrip s).
Proof.
  unfold plain_chars. induction s as [|c r IH]; [done|]. rewrite rstrip_cons.
  simpl. intros [Hc Hr]%Forall_cons. specialize (IH Hr).
  destruct (PyText.rstrip r) as [|c' r'].
  - destruct (PyText.is_space c); simpl; repeat constructor. done.
  - simpl. by constructor.
Qed.

Lemma tops_of_txt_elem t top :
  top ∈ tops_of_txt t <->
  exists line, line ∈ PyText.splitlines t /\ PyText.strip line = top /\ top <> "".
Proof.
  unfold tops_of_txt. rewrite elem_of_list_to_set, list_elem_of_fmap. split.
  - intros (line & -> & [Hin Hne]%list_elem_of_In%filter_In). exists line.
    split; [by apply list_elem_of_In|]. split; [done|].
    apply negb_true_iff in Hne. by apply String.eqb_neq in Hne.
  - intros (line & Hin & <- & Hne). exists line. split; [done|].
    apply list_elem_of_In, filter_In. split; [by apply list_elem_of_In|].
    apply negb_true_iff. by apply String.eqb_neq.
Qed.

Lemma tops_of_txt_trimmed t top :
  top ∈ tops_of_txt t ->
  top <> "" /\ PyText.strip top = top /\ plain_chars top.
Proof.
  intros (line & Hin & <- & Hne)%tops_of_txt_elem. split; [done|].
  split; [apply strip_idem|].
  unfold PyText.strip. apply rstrip_plain, lstrip_plain.
  pose proof (splitlines_plain t) as Hall. rewrite Forall_forall in Hall. by apply Hall.
Qed.

Lemma tops_of_files_elem fs top :
  top ∈ tops_of_files fs <->
  exists f rest, f ∈ fs /\ parts f = top :: rest /\ (suffix f = "" \/ suffix f = ".py").
Proof.
  unfold tops_of_files. rewrite elem_of_list_to_set, list_elem_of_In, in_flat_map. split.
  - intros (f & Hf & Hin). destruct (parts f) as [|p rest] eqn:Ep; [done|].
    destruct (String.eqb_spec (suffix f) ""); destruct (String.eqb_spec (suffix f) ".py");
      simpl in Hin; try done; destruct Hin as [<-|[]];
      exists f, rest; (split; [by apply list_elem_of_In|]); auto.
  - intros (f & rest & Hf & Hp & Hs). exists f. split; [by apply list_elem_of_In|].
    rewrite Hp. destruct Hs as [-> | ->]; simpl; by left.
Qed.

Lemma tops_of_cases dist :
  (forall t, top_level_txt dist = Ok (Some t) -> t <> "" ->
     tops_of dist = tops_of_txt t) /\
  (top_level_txt dist = Ok None \/ top_level_txt dist = Ok (Some "") \/
   (exists e, top_level_txt dist = Raise e) ->
   tops_of dist =
   tops_of_files (match files dist with Some fs => fs | None => [] end)).
Proof.
  unfold tops_of. split.
  - intros t -> Hne. by destruct (String.eqb_spec t "").
  - intros [-> | [-> | [e ->]]]; done.
Qed.

(** * Further facts: the resolver *)

Lemma ltb_trans a b c :
  String.ltb a b = true -> String.ltb b c = true -> String.ltb a c = true.
Proof.
  intros Hab Hbc.
  assert (String.leb a b = true) as Lab
    by (unfold String.ltb, String.leb in *; by destruct (String.compare a b)).
  assert (String.leb b c = true) as Lbc
    by (unfold String.ltb, String.leb in *; by destruct (String.compare b c)).
  apply leb_ne_ltb; [by eapply string_leb_trans|].
  intros ->. unfold String.ltb in Hab, Hbc. rewrite String.compare_antisym in Hab.
  by destruct (String.compare b c).
Qed.

#[export] Instance ltb_transitive : Transitive (fun a b => String.ltb a b = true).
Proof. intros a b c. apply ltb_trans. Qed.

Lemma StronglySorted_filter_bool {A} (R : A -> A -> Prop) (f : A -> bool) l :
  StronglySorted R l -> StronglySorted R (List.filter f l).
Proof.
  induction 1 as [|x l Hl IH Hx]; simpl; [constructor|].
  destruct (f x); [|done]. constructor; [done|].
  rewrite Forall_forall in Hx |- *. intros y [Hy _]%list_elem_of_In%filter_In.
  by apply Hx, list_elem_of_In.
Qed.

Lemma strictly_sorted_split l m :
  Sorted (fun a b => String.ltb a b = true) l -> m ∈ l ->
  exists l1 l2, l = (l1 ++ m :: l2)%list /\
    Forall (fun x => String.ltb m x = true) l2.
Proof.
  intros Hs%Sorted_StronglySorted; [|apply _].
  intros (l1 & l2 & ->)%list_elem_of_split. exists l1, l2. split; [done|].
  apply StronglySorted_app_1_r in Hs. by inversion Hs.
Qed.

Lemma setitem_In k v d : (k, v) ∈ Py.setitem k v d.
Proof.
  induction d as [|[k' v'] r IH]; simpl; [left|].
  destruct (String.eqb k' k); [left|by right].
Qed.

Lemma setitem_other k v d k' v' :
  k' <> k -> (k', v') ∈ d -> (k', v') ∈ Py.setitem k v d.
Proof.
  intros Hne. induction d as [|[k0 v0] r IH]; simpl; [by intros ?%elem_of_nil|].
  destruct (String.eqb_spec k0 k) as [->|Hk].
  - intros [[= -> ->]|?]%elem_of_cons; [done|by right].
  - intros [->|?]%elem_of_cons; [left|right; by apply IH].
Qed.

Section ResolverMore.
Variable top_to_dists : gmap string (list string).
Variable version : string -> result string.

Local Abbreviation resolved := (resolves top_to_dists version).
Local Abbreviation step := (resolve_step top_to_dists version).
Local Abbreviation loop := (resolve_loop top_to_dists version).

Lemma pick_best_nonempty mod_ d ds :
  exists chosen, pick_best_dist_for_module mod_ (d :: ds) = Ok chosen.
Proof. destruct (pick_best_is_maximum mod_ (d :: ds)) as (c & ? & _); [done|eauto]. Qed.

Lemma resolve_step_ok_cases reqs unresolved mod_ st' :
  step (reqs, unresolved) mod_ = Ok st' ->
  (exists k v, resolved mod_ = Some (k, v) /\ st' = (Py.setitem k v reqs, unresolved)) \/
  (resolved mod_ = None /\ st' = (reqs, (unresolved ++ [mod_])%list)).
Proof.
  unfold resolve_step, resolves.
  destruct (top_to_dists !! mod_) as [[|d ds]|]; [intros [= <-]; by right| |intros [= <-]; by right].
  destruct (pick_best_nonempty mod_ d ds) as [chosen ->]. cbn [mbind result_bind].
  destruct (version chosen) as [ver|[]]; try done.
  - intros [= <-]. left. eauto.
  - intros [= <-]. by right.
Qed.

Lemma resolve_step_raises st mod_ e :
  step st mod_ = Raise e ->
  exists dist, version dist = Raise e /\ e <> PackageNotFoundError.
Proof.
  destruct st as [reqs unresolved]. unfold resolve_step.
  destruct (top_to_dists !! mod_) as [[|d ds]|]; [done| |done].
  destruct (pick_best_nonempty mod_ d ds) as [chosen ->]. cbn [mbind result_bind].
  destruct (version chosen) as [ver|e'] eqn:Hv; [done|].
  destruct e'; try done; intros [= <-]; exists chosen; by rewrite Hv.
Qed.


Lemma resolve_loop_app a b st :
  loop st (a ++ b) = st' ← loop st a; loop st' b.
Proof.
  revert st. induction a as [|m a IH]; intros st; [done|].
  cbn [app resolve_loop]. destruct (step st m); cbn [mbind result_bind]; [apply IH|done].
Qed.

Lemma resolve_loop_raises mods : forall st e,
  loop st mods = Raise e ->
  exists dist, version dist = Raise e /\ e <> PackageNotFoundError.
Proof.
  induction mods as [|m mods IH]; intros st e; cbn [resolve_loop]; [done|].
  destruct (step st m) as [st'|e'] eqn:E; cbn [mbind result_bind]; [apply IH|].
  intros [= ->]. by apply resolve_step_raises in E.
Qed.


Lemma resolve_loop_unresolved_list mods : forall st st',
  loop st mods = Ok st' ->
  st'.2 = (st.2 ++ List.filter (fun m => bool_decide (resolved m = None)) mods)%list.
Proof.
  induction mods as [|m mods IH]; intros [reqs unres] st'; cbn [resolve_loop].
  - intros [= <-]. simpl. by rewrite app_nil_r.
  - destruct (step (reqs, unres) m) as [st1|] eqn:E; cbn [mbind result_bind]; [|done].
    intros H. rewrite (IH _ _ H). cbn [List.filter].
    apply resolve_step_ok_cases in E as [(k & v & Hr & ->)|[Hr ->]]; simpl.
    + rewrite bool_decide_eq_false_2; [done|]. by rewrite Hr.
    + rewrite bool_decide_eq_true_2 by done. by rewrite <- app_assoc.
Qed.

Lemma resolve_loop_keeps mods : forall st st' k v,
  loop st mods = Ok st' -> (k, v) ∈ st.1 ->
  (forall m v', m ∈ mods -> resolved m <> Some (k, v')) ->
  (k, v) ∈ st'.1.
Proof.
  induction mods as [|m mods IH]; intros [reqs unres] st' k v; cbn [resolve_loop].
  - by intros [= <-].
  - destruct (step (reqs, unres) m) as [st1|] eqn:E; cbn [mbind result_bind]; [|done].
    intros H Hin Hno. apply (IH _ _ _ _ H); [|intros; apply Hno; by right].
    apply resolve_step_ok_cases in E as [(k' & v' & Hr & ->)|[Hr ->]]; simpl in *; [|done].
    apply setitem_other; [|done]. intros ->. apply (Hno m v'); [left|done].
Qed.

Lemma resolve_loop_keys mods : forall st st' m k v,
  loop st mods = Ok st' -> m ∈ mods -> resolved m = Some (k, v) ->
  k ∈ Py.keys st'.1.
Proof.
  assert (forall mods st st' k, loop st mods = Ok st' -> k ∈ Py.keys st.1 -> k ∈ Py.keys st'.1)
    as Hmono.
  { clear. induction mods as [|m mods IH]; intros [reqs unres] st' k; cbn [resolve_loop].
    - by intros [= <-].
    - destruct (step (reqs, unres) m) as [st1|] eqn:E; cbn [mbind result_bind]; [|done].
      intros H Hin. apply (IH _ _ _ H).
      apply resolve_step_ok_cases in E as [(k' & v' & Hr & ->)|[Hr ->]]; simpl in *; [|done].
      rewrite keys_setitem. case_bool_decide; [done|]. apply elem_of_app. by left. }
  induction mods as [|m0 mods IH]; intros [reqs unres] st' m k v; cbn [resolve_loop].
  - by intros _ ?%elem_of_nil.
  - destruct (step (reqs, unres) m0) as [st1|] eqn:E; cbn [mbind result_bind]; [|done].
    intros H [->|Hin]%elem_of_cons Hr; [|by eapply IH].
    apply (Hmono _ _ _ _ H).
    apply resolve_step_ok_cases in E as [(k' & v' & Hr' & ->)|[Hr' ->]]; [|congruence].
    rewrite Hr in Hr'. injection Hr' as <- <-. simpl.
    apply list_elem_of_fmap. exists (k, v). split; [done|apply setitem_In].
Qed.
End ResolverMore.

(** * Further facts: the manifest and the diagnostics *)

Lemma join_terminated lines :
  Py.join nl lines ++ (match lines with [] => "" | _ => nl end) =
  String.concat "" (map (fun l => l ++ nl) lines).
Proof.
  induction lines as [|x [|y r] IH]; [done|done|].
  change (Py.join nl (x :: y :: r)) with (x ++ nl ++ Py.join nl (y :: r)).
  change (map (fun l => l ++ nl) (x :: y :: r))
    with ((x ++ nl) :: map (fun l => l ++ nl) (y :: r)).
  change (String.concat "" ((x ++ nl) :: map (fun l => l ++ nl) (y :: r)))
    with ((x ++ nl) ++ "" ++ String.concat "" (map (fun l => l ++ nl) (y :: r))).
  rewrite <- IH, string_app_nil_l, !string_app_assoc. done.
Qed.

Lemma manifest_lines_length reqs : List.length (manifest_lines reqs) = List.length reqs.
Proof.
  unfold manifest_lines, Py.sorted_key. rewrite length_map.
  apply Permutation_length, sort_perm.
Qed.

Section Stability.
Context {A : Type} (key : A -> string).

Lemma insert_stable k x l :
  List.filter (fun y => String.eqb (key y) k)
    (Py.insert (fun a b => String.leb (key a) (key b)) x l) =
  List.filter (fun y => String.eqb (key y) k) (x :: l).
Proof.
  induction l as [|y r IH]; [done|]. cbn [Py.insert].
  destruct (String.leb (key x) (key y)) eqn:Hle; [done|].
  cbn [List.filter] in *. rewrite IH.
  destruct (String.eqb_spec (key y) k) as [Hy|Hy];
    destruct (String.eqb_spec (key x) k) as [Hx|Hx]; try done.
  rewrite Hx, Hy in Hle. destruct (String.leb_total k k); congruence.
Qed.

Lemma sort_stable k l :
  List.filter (fun y => String.eqb (key y) k)
    (Py.sort (fun a b => String.leb (key a) (key b)) l) =
  List.filter (fun y => String.eqb (key y) k) l.
Proof.
  induction l as [|x r IH]; [done|]. cbn [Py.sort]. rewrite insert_stable.
  cbn [List.filter]. by rewrite IH.
Qed.
End Stability.

Lemma warn_block_exact reqs_map unresolved :
  exists names,
    (forall n, n ∈ names <-> n ∈ unresolved /\ n ∉ Py.keys reqs_map) /\
    Sorted (fun a b => String.ltb a b = true) names /\
    warn_block reqs_map unresolved =
      match names with
      | [] => []
      | _ => ["[WARN] Some imports couldn't be mapped to installed distributions:";
              "       " ++ Py.join ", " names;
              "       If these are local modules, ignore. If third-party, make sure they’re installed."]
      end.
Proof.
  unfold warn_block.
  set (unresolved_set := (list_to_set unresolved ∖ list_to_set (Py.keys reqs_map) : gset string)).
  exists (Py.sorted (elements unresolved_set)). split; [|split].
  - intros n. rewrite sorted_elem, elem_of_elements. unfold unresolved_set.
    by rewrite elem_of_difference, !elem_of_list_to_set.
  - apply sorted_elements_strict.
  - case_bool_decide as He.
    + rewrite He. by rewrite elements_empty.
    + destruct (Py.sorted (elements unresolved_set)) as [|n ns] eqn:E; [|done].
      exfalso. apply He. apply set_eq. intros x. split; [|by intros ?%not_elem_of_empty].
      intros Hx%elem_of_elements%sorted_elem. rewrite E in Hx. by apply elem_of_nil in Hx.
Qed.

Lemma normalize_idem s : normalize_dist_name (normalize_dist_name s) = normalize_dist_name s.
Proof.
  unfold normalize_dist_name. induction s as [|c s IH]; [done|].
  cbn [Py.replace]. rewrite IH. f_equal.
  destruct (Ascii.eqb_spec c "_") as [->|Hne]; [done|].
  by destruct (Ascii.eqb_spec c "_").
Qed.

Lemma normalize_fixed s :
  normalize_dist_name s = s <-> Py.contains "_" s = false.
Proof.
  split.
  - intros <-. apply normalize_no_underscore.
  - unfold normalize_dist_name. induction s as [|c s IH]; [done|].
    rewrite contains_unfold. intros [Hp Hc]%orb_false_iff. cbn [Py.replace].
    rewrite (IH Hc). destruct (Ascii.eqb_spec c "_") as [->|Hne]; [|done].
    exfalso. assert (String.prefix "_" (String "_" s) = true) as Ht; [|congruence].
    apply prefix_spec. by exists s.
Qed.

Lemma replace_length a b s : String.length (Py.replace a b s) = String.length s.
Proof. induction s as [|c s IH]; [done|]. simpl. by rewrite IH. Qed.

(** * Further facts: the picker and the unresolved names *)

Lemma tuple_leb_false (s1 s2 : Z) (d1 d2 : string) :
  Py.tuple_leb (s1, d1) (s2, d2) = false <->
  (s2 < s1)%Z \/ (s2 = s1 /\ String.ltb d2 d1 = true).
Proof.
  unfold Py.tuple_leb. cbn [fst snd].
  assert (String.leb d1 d2 = false <-> String.ltb d2 d1 = true) as Hflip.
  { unfold String.leb, String.ltb. rewrite (String.compare_antisym d1 d2).
    destruct (String.compare d2 d1); simpl; split; congruence. }
  rewrite orb_false_iff, andb_false_iff, Z.ltb_ge, Z.eqb_neq, Hflip.
  split.
  - intros [Hle [Hne|Hlt]]; [left; lia|].
    destruct (decide (s2 = s1)) as [->|?]; [by right|left; lia].
  - intros [Hlt|[-> Hlt]]; (split; [lia|]); [left; lia|by right].
Qed.

Lemma beats_iff mod_ d1 d2 :
  beats mod_ d1 d2 <->
  (score_of mod_ d2 < score_of mod_ d1)%Z \/
  (score_of mod_ d2 = score_of mod_ d1 /\ String.ltb d2 d1 = true).
Proof.
  rewrite <- tuple_leb_false. split; [|apply higher_tuple_beats].
  intros Hbeats.
  destruct (Py.tuple_leb (score_of mod_ d1, d1) (score_of mod_ d2, d2)) eqn:Hle; [|done].
  exfalso. apply (Hbeats [d1; d2]); [left|].
  destruct (pick_best_is_maximum mod_ [d1; d2]) as (d & -> & Hd & Hmax); [done|].
  f_equal. apply elem_of_cons in Hd as [->|Hd%list_elem_of_singleton]; [|done].
  assert ((score_of mod_ d1, d1) = (score_of mod_ d2, d2)) as [= _ ->]; [|done].
  apply tuple_leb_antisym; [done|]. apply Hmax. right. left.
Qed.


(** * The run as a whole *)

Section PrintFacts.
Variable print : string -> result unit.


Lemma print_lines_ok lines printed u :
  print_lines print lines = (printed, Ok u) ->
  printed = lines /\ Forall (fun line => print line = Ok ()) lines.
Proof.
  revert printed. induction lines as [|line rest IH]; intros printed; cbn [print_lines].
  - intros [= <- _]. by split.
  - destruct (print line) as [[]|e] eqn:Hl; [|done].
    destruct (print_lines print rest) as [printed' r] eqn:Hr. intros [= <- ->].
    destruct (IH _ eq_refl) as [-> ?]. split; [done|by constructor].
Qed.

Lemma print_lines_stops before line after e :
  Forall (fun line => print line = Ok ()) before -> print line = Raise e ->
  print_lines print (before ++ line :: after) = (before, Raise e).
Proof.
  intros Hb Hl. induction Hb as [|x before Hx _ IH].
  - cbn [app print_lines]. by rewrite Hl.
  - change ((x :: before) ++ line :: after)%list with (x :: (before ++ line :: after))%list.
    cbn [print_lines]. by rewrite Hx, IH.
Qed.
End PrintFacts.

Section RunFacts.
Variable sep : ascii.
Variable norm : string -> string.
Variable exists_ : Path -> bool.
Variable Path_str : Path -> string.
Variable find_spec : string -> result (option ModuleSpec).
Variable read_text : Path -> result string.
Variable ast_parse : string -> result node.
Variable top_to_dists : gmap string (list string).
Variable version : string -> result string.
Variable write_text : Path -> string -> result unit.
Variable print : string -> result unit.
Variable stdlib_dir : string.
Variable site_dirs : list string.
Variable project_root : Path.
Variable out : Path.

Local Abbreviation run :=
  (main_scan sep norm exists_ Path_str find_spec read_text ast_parse
     top_to_dists version write_text print stdlib_dir site_dirs project_root out).
Local Abbreviation collect := (collect_imports read_text ast_parse ∅).
Local Abbreviation classify_names all_imports :=
  (classify_all sep norm exists_ Path_str find_spec stdlib_dir site_dirs project_root
     {| third_party_mods := ∅; skipped_local := ∅;
        skipped_stdlib := ∅; unknown_kind := ∅ |}
     (Py.sorted (elements all_imports))).
Local Abbreviation resolve b :=
  (resolve_requirements top_to_dists version (third_party_mods b ∪ unknown_kind b)).
Local Abbreviation report b reqs unresolved :=
  (("[OK] Wrote " ++ Path_str out ++ " with "
      ++ pretty (List.length (manifest_lines reqs)) ++ " package(s).")
     :: diagnostics (skipped_local b) (skipped_stdlib b) reqs unresolved).

(** With files to scan, the run either stops before anything is written
    or printed, or reaches the write with the requirements resolved. *)
Lemma main_scan_cases fs :
  fs <> [] ->
  (exists e,
     run fs = {| stdout := []; written := None; status := Raise e |} /\
     (collect fs = Raise e \/
      (exists all_imports, collect fs = Ok all_imports /\
         (classify_names all_imports = Raise e \/
          exists b, classify_names all_imports = Ok b /\ resolve b = Raise e)))) \/
  (exists all_imports b reqs unresolved,
     collect fs = Ok all_imports /\ classify_names all_imports = Ok b /\
     resolve b = Ok (reqs, unresolved) /\
     run fs =
       match write_text out (manifest_text reqs) with
       | Raise e => {| stdout := []; written := None; status := Raise e |}
       | Ok _ =>
           let '(printed, r) := print_lines print (report b reqs unresolved) in
           {| stdout := printed;
              written := Some (Path_str out, manifest_text reqs);
              status := _ ← r; Ok 0%Z |}
       end).
Proof.
  intros Hne. unfold main_scan. destruct fs as [|f l]; [done|].
  destruct (collect_imports read_text ast_parse ∅ (f :: l)) as [all_imports|e] eqn:Hc;
    cbn [mbind result_bind].
  2:{ left. exists e. split; [done|by left]. }
  destruct (classify_all _ _ _ _ _ _ _ _ _ _) as [b|e] eqn:Hb; cbn [mbind result_bind].
  2:{ left. exists e. split; [done|]. right. exists all_imports. split; [done|by left]. }
  destruct (resolve_requirements _ _ _) as [[reqs unresolved]|e] eqn:Hr;
    cbn [mbind result_bind].
  2:{ left. exists e. split; [done|]. right. exists all_imports. split; [done|].
      right. by exists b. }
  right. by exists all_imports, b, reqs, unresolved.
Qed.


(** What a file written by the run is. *)
Lemma main_scan_written fs path text :
  written (run fs) = Some (path, text) ->
  fs <> [] /\
  exists all_imports b reqs unresolved,
    collect fs = Ok all_imports /\ classify_names all_imports = Ok b /\
    resolve b = Ok (reqs, unresolved) /\
    write_text out (manifest_text reqs) = Ok () /\
    path = Path_str out /\ text = manifest_text reqs.
Proof.
  destruct fs as [|f l].
  { unfold main_scan. by destruct (print_lines print _). }
  intros Hw. split; [done|].
  destruct (main_scan_cases (f :: l)) as [(e & Hrun & _)|(a & b & reqs & u & Hc & Hb & Hr & Hrun)];
    [done|by rewrite Hrun in Hw|].
  rewrite Hrun in Hw. exists a, b, reqs, u.
  destruct (write_text out (manifest_text reqs)) as [[]|e]; [|done].
  destruct (print_lines print _) as [printed r]. simpl in Hw. injection Hw as <- <-. done.
Qed.

(** What a run that ends with an exit status did. *)
Lemma main_scan_completed fs code :
  fs <> [] -> status (run fs) = Ok code ->
  exists all_imports b reqs unresolved,
    collect fs = Ok all_imports /\ classify_names all_imports = Ok b /\
    resolve b = Ok (reqs, unresolved) /\
    write_text out (manifest_text reqs) = Ok () /\
    Forall (fun line => print line = Ok ()) (report b reqs unresolved) /\
    run fs = {| stdout := report b reqs unresolved;
                written := Some (Path_str out, manifest_text reqs);
                status := Ok 0%Z |} /\
    code = 0%Z.
Proof.
  intros Hne Hs.
  destruct (main_scan_cases fs Hne) as [(e & Hrun & _)|(a & b & reqs & u & Hc & Hb & Hr & Hrun)];
    [by rewrite Hrun in Hs|].
  rewrite Hrun in Hs |- *. exists a, b, reqs, u.
  destruct (write_text out (manifest_text reqs)) as [[]|e]; [|done].
  destruct (print_lines print _) as [printed r] eqn:Hp. simpl in Hs.
  destruct r as [[]|e]; cbn [mbind result_bind] in *; [|done].
  apply print_lines_ok in Hp as [-> Hall]. by injection Hs as <-.
Qed.

(** The order in which the files were found does not reach the
    manifest. *)
Lemma main_scan_perm fs fs' :
  fs ≡ₚ fs' -> written (run fs) = written (run fs').
Proof.
  intros Hp.
  destruct fs as [|f l].
  { apply Permutation_nil in Hp. by subst. }
  destruct fs' as [|f' l'].
  { by apply Permutation_nil_r in Hp. }
  pose proof (collect_imports_perm read_text ast_parse _ _ Hp ∅) as Hag.
  unfold main_scan.
  destruct (collect_imports read_text ast_parse ∅ (f :: l)) as [a|];
    destruct (collect_imports read_text ast_parse ∅ (f' :: l')) as [a'|];
    simpl in Hag; try done.
  by subst.
Qed.

(** A run over no file at all. *)
Lemma main_scan_no_files :
  let line := "[INFO] No Python files found under: " ++ Path_str project_root in
  (print line = Ok () ->
   run [] = {| stdout := [line]; written := None; status := Ok 0%Z |}) /\
  (forall e, print line = Raise e ->
   run [] = {| stdout := []; written := None; status := Raise e |}).
Proof.
  intros line. unfold main_scan. cbn [print_lines]. fold line.
  split; [intros ->|intros e ->]; done.
Qed.

(** A file that cannot be read or parsed stops the run before it has
    written or printed anything. *)
Lemma main_scan_aborts fs f e :
  f ∈ fs -> extract_top_level_imports read_text ast_parse f = Raise e ->
  exists e', run fs = {| stdout := []; written := None; status := Raise e' |}.
Proof.
  intros Hin He.
  assert (fs <> []) as Hne by (intros ->; by apply elem_of_nil in Hin).
  destruct (collect_imports_aborts read_text ast_parse ∅ fs f e Hin He) as [e' Hc].
  destruct (main_scan_cases fs Hne) as [(e0 & Hrun & _)|(a & ? & ? & ? & Hc' & _)];
    [by exists e0|congruence].
Qed.
End RunFacts.

(** * The statements of the specification *)



(** C2 (as amended): the keys of the mapping returned by
    [resolve_requirements] are pairwise distinct, each is
    [normalize_dist_name] of the distribution picked for one of the
    modules (so it holds no underscore) and carries that distribution's
    version; when [yaml] and [pyyaml] are both provided by [PyYAML] only,
    the mapping has the single entry [PyYAML] and the manifest the single
    line [PyYAML==<version>]: the case of the name is kept. *)
Theorem C2_one_entry_per_distribution
    (top_to_dists : gmap string (list string)) (version : string -> result string) :
  (forall modules reqs unresolved,
     resolve_requirements top_to_dists version modules = Ok (reqs, unresolved) ->
     NoDup (Py.keys reqs) /\
     forall k v, (k, v) ∈ reqs ->
       entry_from top_to_dists version modules k v /\ Py.contains "_" k = false) /\
  (forall v,
     top_to_dists !! "yaml" = Some ["PyYAML"] ->
     top_to_dists !! "pyyaml" = Some ["PyYAML"] ->
     version "PyYAML" = Ok v ->
     resolve_requirements top_to_dists version ({["yaml"]} ∪ {["pyyaml"]})
       = Ok ([("PyYAML", v)], []) /\
     manifest_lines [("PyYAML", v)] = ["PyYAML==" ++ v]).
Proof.
  split.
  - intros modules reqs unresolved H.
    destruct (resolve_requirements_ok _ _ _ _ _ H) as [Hnd Hfrom].
    split; [done|]. intros k v Hkv. split; [by apply Hfrom|].
    destruct (Hfrom k v Hkv) as (? & ? & chosen & _ & _ & _ & _ & ->).
    apply normalize_no_underscore.
  - intros v Hy Hp Hv. split; [|done].
    unfold resolve_requirements.
    replace (Py.sorted (elements ({["yaml"]} ∪ {["pyyaml"]} : gset string)))
      with ["pyyaml"; "yaml"] by (vm_compute; reflexivity).
    cbn [resolve_loop]. unfold resolve_step at 2. rewrite Hp.
    replace (pick_best_dist_for_module "pyyaml" ["PyYAML"]) with (Ok "PyYAML" : result string)
      by (vm_compute; reflexivity).
    cbn [mbind result_bind]. rewrite Hv. cbn [mbind result_bind].
    unfold resolve_step. rewrite Hy.
    replace (pick_best_dist_for_module "yaml" ["PyYAML"]) with (Ok "PyYAML" : result string)
      by (vm_compute; reflexivity).
    cbn [mbind result_bind]. rewrite Hv. cbn [mbind result_bind].
    reflexivity.
Qed.

Lemma C2_one_entry_per_distribution_witness :
  resolve_requirements Demo.yaml_dists Demo.yaml_version ({["yaml"]} ∪ {["pyyaml"]})
    = Ok ([("PyYAML", "6.0.1")], []) /\
  manifest_lines [("PyYAML", "6.0.1")] = ["PyYAML==6.0.1"].
Proof.
  apply (proj2 (C2_one_entry_per_distribution Demo.yaml_dists Demo.yaml_version) "6.0.1");
    vm_compute; reflexivity.
Defined.

(** C2 as stated fails: with [yaml] and [pyyaml] both resolving to
    [PyYAML], the manifest holds the line [PyYAML==6.0.1] and no line
    [pyyaml==6.0.1]. *)
Lemma C2_counterexample :
  exists reqs unresolved,
    resolve_requirements Demo.yaml_dists Demo.yaml_version ({["yaml"]} ∪ {["pyyaml"]})
      = Ok (reqs, unresolved) /\
    manifest_lines reqs = ["PyYAML==6.0.1"] /\
    ~ "pyyaml==6.0.1" ∈ manifest_lines reqs.
Proof.
  exists [("PyYAML", "6.0.1")], []. split; [vm_compute; reflexivity|].
  split; [vm_compute; reflexivity|].
  intros H. apply list_elem_of_singleton in H. discriminate.
Qed.

(** C3: visiting a [from ... import ...] with a relative level leaves
    the set of names as it was, such a statement imports no name in the
    sense of [imports_name], and the set returned for a file that is
    read and parses holds exactly the names imported by the import
    statements without a relative level found in its tree. *)
Theorem C3_relative_imports_skipped
    (read_text : Path -> result string) (ast_parse : string -> result node) :
  (forall mods module names level,
     level <> 0%nat -> visit mods (ImportFrom module names level) = mods) /\
  (forall module names level x,
     level <> 0%nat -> ~ imports_name (ImportFrom module names level) x) /\
  (forall py_file src tree,
     read_text py_file = Ok src -> ast_parse src = Ok tree ->
     exists mods,
       extract_top_level_imports read_text ast_parse py_file = Ok mods /\
       forall x, x ∈ mods <-> exists n, subnode n tree /\ imports_name n x).
Proof.
  split; [apply visit_relative|]. split.
  - intros module names level x Hl H. inversion H; subst. done.
  - apply extract_parsed.
Qed.

Lemma C3_relative_imports_skipped_witness :
  visit ∅ (ImportFrom None [Alias "helper" None] 1) = ∅ /\
  exists mods,
    extract_top_level_imports Demo.read_text Demo.ast_parse ["rel.py"] = Ok mods /\
    forall x, x ∈ mods <-> exists n, subnode n Demo.relative_tree /\ imports_name n x.
Proof.
  split.
  - apply (proj1 (C3_relative_imports_skipped Demo.read_text Demo.ast_parse)).
    discriminate.
  - apply (proj2 (proj2 (C3_relative_imports_skipped Demo.read_text Demo.ast_parse))
             ["rel.py"] "def f(): from . import helper; from .pkg import y").
    + reflexivity.
    + reflexivity.
Defined.

(** C4: the test [classify_module_origin] applies to a normalised
    origin [o] and a reference directory [d] holds exactly when [o] is
    [d] or is [d] followed by the separator and more, that is when the
    components of [d] are an initial segment of the components of [o];
    nothing that starts with [/lib-extra] passes it for [/lib]; and for
    a module that is not a file of the project and whose spec is not
    built-in or frozen, the answers "local", "stdlib" and "thirdparty"
    are decided by this test on the project root, the (non-empty)
    stdlib directory and the site directories, in that order. *)
Theorem C4_separator_boundary
    (sep : ascii) (norm : string -> string) (exists_ : Path -> bool)
    (Path_str : Path -> string) (find_spec : string -> result (option ModuleSpec)) :
  (forall o d, lies_under sep o d = true <-> Under sep o d) /\
  (forall o d, Under sep o d <-> Py.split sep d `prefix_of` Py.split sep o) /\
  (forall rest, lies_under "/" ("/lib-extra" ++ rest) "/lib" = false) /\
  (forall name project_root stdlib_dir site_dirs spec,
     is_local_module exists_ name project_root = false ->
     find_spec name = Ok (Some spec) ->
     origin spec <> Some "built-in" -> origin spec <> Some "frozen" ->
     let classified :=
       classify_module_origin sep norm exists_ Path_str find_spec
         name project_root stdlib_dir site_dirs in
     let proj := norm (Path_str project_root) in
     (classified = Ok "local" <-> hit sep norm spec proj) /\
     (classified = Ok "stdlib" <->
        ~ hit sep norm spec proj /\ stdlib_dir <> "" /\ hit sep norm spec stdlib_dir) /\
     (classified = Ok "thirdparty" <->
        ~ hit sep norm spec proj /\
        ~ (stdlib_dir <> "" /\ hit sep norm spec stdlib_dir) /\
        exists sd, sd ∈ site_dirs /\ hit sep norm spec sd)).
Proof.
  split; [apply lies_under_spec|].
  split; [apply Under_components|].
  split; [apply lib_extra_not_under_lib|].
  intros name project_root stdlib_dir site_dirs spec Hloc Hspec Hb Hf.
  by apply classify_by_origins.
Qed.

Lemma C4_separator_boundary_witness :
  let classified :=
    classify_module_origin Demo.sep Demo.norm Demo.no_file Demo.Path_str Demo.find_extra
      "foo" Demo.project_root Demo.stdlib_dir ["/lib"] in
  let proj := Demo.norm (Demo.Path_str Demo.project_root) in
  (classified = Ok "local" <-> hit Demo.sep Demo.norm Demo.extra_spec proj) /\
  (classified = Ok "stdlib" <->
     ~ hit Demo.sep Demo.norm Demo.extra_spec proj /\ Demo.stdlib_dir <> "" /\
     hit Demo.sep Demo.norm Demo.extra_spec Demo.stdlib_dir) /\
  (classified = Ok "thirdparty" <->
     ~ hit Demo.sep Demo.norm Demo.extra_spec proj /\
     ~ (Demo.stdlib_dir <> "" /\ hit Demo.sep Demo.norm Demo.extra_spec Demo.stdlib_dir) /\
     exists sd, sd ∈ ["/lib"] /\ hit Demo.sep Demo.norm Demo.extra_spec sd).
Proof.
  apply (proj2 (proj2 (proj2
    (C4_separator_boundary Demo.sep Demo.norm Demo.no_file Demo.Path_str Demo.find_extra)))).
  - reflexivity.
  - reflexivity.
  - discriminate.
  - discriminate.
Defined.

(** C5 (as amended): on a non-empty candidate list
    [pick_best_dist_for_module] returns a candidate of the list, the one
    whose pair (score, name) is greatest, so the answer does not depend
    on the order of the candidates; the score is 110 minus the length of
    the module name for an exact match, 10 minus its own length for a
    candidate that is not exact and contains the module name (it is then
    longer than the module name), and minus its own length otherwise,
    lengths being those of the normalised names.  One candidate beats
    another exactly when its score is higher, or equal with a name that
    is greater in string order.  So an exact match beats a candidate that
    is not one exactly when that candidate contains the module name, or
    is more than [len module - 110] characters long, or is that long and
    smaller in string order; among candidates that are not exact, one
    that contains the module name beats one that does not exactly when
    it is fewer than 10 characters longer, or 10 characters longer and
    greater in string order; of two candidates that pass the same tests
    the shorter one wins, and at equal length the one greater in string
    order. *)
Theorem C5_pick_best_scoring (mod_ : string) :
  (forall dists, dists <> [] ->
     exists d,
       pick_best_dist_for_module mod_ dists = Ok d /\ d ∈ dists /\
       (forall d', d' ∈ dists ->
          Py.tuple_leb (score_of mod_ d', d') (score_of mod_ d, d) = true) /\
       (forall dists', dists' ≡ₚ dists -> pick_best_dist_for_module mod_ dists' = Ok d)) /\
  (forall d,
     (exact_match mod_ d /\ score_of mod_ d = 110 - Py.len (name_key mod_))%Z \/
     (~ exact_match mod_ d /\ has_substring mod_ d /\
        score_of mod_ d = 10 - Py.len (name_key d) /\
        Py.len (name_key mod_) < Py.len (name_key d))%Z \/
     (~ exact_match mod_ d /\ ~ has_substring mod_ d /\
        score_of mod_ d = - Py.len (name_key d))%Z) /\
  (forall d1 d2,
     beats mod_ d1 d2 <->
     (score_of mod_ d2 < score_of mod_ d1)%Z \/
     (score_of mod_ d2 = score_of mod_ d1 /\ String.ltb d2 d1 = true)) /\
  (forall d1 d2,
     exact_match mod_ d1 -> ~ exact_match mod_ d2 ->
     (beats mod_ d1 d2 <->
      has_substring mod_ d2 \/
      (Py.len (name_key mod_) < Py.len (name_key d2) + 110)%Z \/
      (Py.len (name_key mod_) = Py.len (name_key d2) + 110 /\ String.ltb d2 d1 = true)%Z)) /\
  (forall d1 d2,
     ~ exact_match mod_ d1 -> ~ exact_match mod_ d2 ->
     has_substring mod_ d1 -> ~ has_substring mod_ d2 ->
     (beats mod_ d1 d2 <->
      (Py.len (name_key d1) < Py.len (name_key d2) + 10)%Z \/
      (Py.len (name_key d1) = Py.len (name_key d2) + 10 /\ String.ltb d2 d1 = true)%Z)) /\
  (forall d1 d2,
     (exact_match mod_ d1 <-> exact_match mod_ d2) ->
     (has_substring mod_ d1 <-> has_substring mod_ d2) ->
     (beats mod_ d1 d2 <->
      (Py.len (name_key d1) < Py.len (name_key d2))%Z \/
      (Py.len (name_key d1) = Py.len (name_key d2) /\ String.ltb d2 d1 = true))).
Proof.
  split; [|split; [|split; [|split; [|split]]]].
  - intros dists Hne.
    destruct (pick_best_is_maximum mod_ dists Hne) as (d & Hd & Hin & Hmax).
    exists d. split; [done|]. split; [done|]. split; [done|].
    intros dists' Hp. by rewrite (pick_best_perm mod_ dists dists' Hp).
  - apply score_cases.
  - apply beats_iff.
  - intros d1 d2 H1 H2. rewrite beats_iff.
    destruct (score_cases mod_ d1) as [[_ E1]|[[? _]|[? _]]]; [|done..].
    destruct (score_cases mod_ d2) as [[? _]|[(_ & Hs & E2 & Hl)|(_ & Hn & E2)]]; [done| |].
    + split; [by left|]. intros _. left. lia.
    + rewrite E1, E2. split.
      * intros [?|[? ?]]; [right; left; lia|right; right; split; [lia|done]].
      * intros [?|[?|[? ?]]]; [done|left; lia|right; split; [lia|done]].
  - intros d1 d2 H1 H2 Hs1 Hs2. rewrite beats_iff.
    destruct (score_cases mod_ d1) as [[? _]|[(_ & _ & E1 & _)|(_ & ? & _)]]; [done| |done].
    destruct (score_cases mod_ d2) as [[? _]|[(_ & ? & _)|(_ & _ & E2)]]; [done|done|].
    rewrite E1, E2. split.
    + intros [?|[? ?]]; [left; lia|right; split; [lia|done]].
    + intros [?|[? ?]]; [left; lia|right; split; [lia|done]].
  - intros d1 d2 He Hs. rewrite beats_iff.
    destruct (score_cases mod_ d1) as [[X1 E1]|[(X1 & S1 & E1 & _)|(X1 & S1 & E1)]];
      destruct (score_cases mod_ d2) as [[X2 E2]|[(X2 & S2 & E2 & _)|(X2 & S2 & E2)]];
      try tauto; rewrite E1, E2.
    + assert (Py.len (name_key d1) = Py.len (name_key d2)) as Hlen
        by (unfold exact_match in X1, X2; by rewrite X1, X2).
      split; [intros [?|[_ ?]]; [lia|by right]|intros [?|[_ ?]]; [lia|by right]].
    + split; (intros [?|[? ?]]; [left; lia|right; split; [lia|done]]).
    + split; (intros [?|[? ?]]; [left; lia|right; split; [lia|done]]).
Qed.

Lemma C5_pick_best_scoring_witness : beats "yaml" "zyaml12345678" "foo".
Proof.
  apply (proj1 (proj2 (proj2 (proj2 (proj2 (C5_pick_best_scoring "yaml")))))
           "zyaml12345678" "foo").
  - discriminate.
  - discriminate.
  - reflexivity.
  - discriminate.
  - right. split; reflexivity.
Defined.

(** C5 as stated fails: for the module [yaml], the candidate
    [ruamel-yaml-clib] contains the module name and [foo] does not,
    neither is an exact match, and [foo] is picked. *)
Lemma C5_counterexample :
  ~ exact_match "yaml" "ruamel-yaml-clib" /\ ~ exact_match "yaml" "foo" /\
  has_substring "yaml" "ruamel-yaml-clib" /\ ~ has_substring "yaml" "foo" /\
  pick_best_dist_for_module "yaml" ["ruamel-yaml-clib"; "foo"] = Ok "foo".
Proof.
  split; [discriminate|]. split; [discriminate|]. split; [reflexivity|].
  split; [discriminate|]. reflexivity.
Qed.

(** C6 (as amended): the text of the manifest is its lines, each
    followed by a newline; there is one [package==version] line per
    entry of the mapping, in an order in which the package names ascend
    when compared without regard to case, entries whose names are equal
    up to case keeping the order they have in the mapping; so the text
    ends with a newline exactly when the mapping is non-empty and is
    empty otherwise.  When no two package names are equal up to case,
    the order of the names is determined by the set of names and the
    text by the mapping.  The file a run writes holds this text for the
    mapping [resolve_requirements] returned, and does not depend on the
    order in which the Python files were discovered. *)
Theorem C6_manifest_layout :
  (forall reqs,
     manifest_text reqs =
       String.concat "" (map (fun line => line ++ nl) (manifest_lines reqs)) /\
     (exists entries,
        manifest_lines reqs = map entry_line entries /\ entries ≡ₚ reqs /\
        Sorted (fun x y => ci_le x.1 y.1) entries /\
        forall c,
          List.filter (fun x => String.eqb (Py.lower x.1) c) entries =
          List.filter (fun x => String.eqb (Py.lower x.1) c) reqs) /\
     (Py.endswith (manifest_text reqs) nl = true <-> reqs <> []) /\
     (reqs = [] -> manifest_text reqs = "")) /\
  (forall reqs reqs',
     Py.keys reqs ≡ₚ Py.keys reqs' -> ci_distinct (Py.keys reqs) ->
     Py.keys (Py.sorted_key (fun x => Py.lower x.1) reqs) =
     Py.keys (Py.sorted_key (fun x => Py.lower x.1) reqs')) /\
  (forall reqs reqs',
     reqs ≡ₚ reqs' -> NoDup (Py.keys reqs) -> ci_distinct (Py.keys reqs) ->
     manifest_text reqs = manifest_text reqs') /\
  (forall sep norm exists_ Path_str find_spec read_text ast_parse top_to_dists version
          write_text print stdlib_dir site_dirs project_root out py_files,
     let run :=
       main_scan sep norm exists_ Path_str find_spec read_text ast_parse
         top_to_dists version write_text print stdlib_dir site_dirs project_root out in
     (forall path text,
        written (run py_files) = Some (path, text) ->
        exists all_imports b reqs unresolved,
          collect_imports read_text ast_parse ∅ py_files = Ok all_imports /\
          classify_all sep norm exists_ Path_str find_spec stdlib_dir site_dirs project_root
            {| third_party_mods := ∅; skipped_local := ∅;
               skipped_stdlib := ∅; unknown_kind := ∅ |}
            (Py.sorted (elements all_imports)) = Ok b /\
          resolve_requirements top_to_dists version (third_party_mods b ∪ unknown_kind b)
            = Ok (reqs, unresolved) /\
          path = Path_str out /\ text = manifest_text reqs) /\
     (forall py_files',
        py_files ≡ₚ py_files' -> written (run py_files) = written (run py_files'))).
Proof.
  split; [|split; [|split]].
  - intros reqs. split; [apply join_terminated|]. split.
    + exists (Py.sorted_key (fun x => Py.lower x.1) reqs).
      destruct (manifest_lines_sorted reqs) as (entries & Hl & Hp & Hs).
      split; [done|]. split; [apply sort_perm|]. split.
      * apply (sort_sorted (fun x y => String.leb (Py.lower x.1) (Py.lower y.1))).
        intros x y. apply String.leb_total.
      * intros c. apply (sort_stable (fun x : string * string => Py.lower x.1)).
    + split; [apply manifest_text_newline|]. by intros ->.
  - apply manifest_order_by_names.
  - apply manifest_text_by_mapping.
  - intros. split.
    + intros path text Hw.
      apply main_scan_written in Hw
        as (_ & a & b & reqs & u & Hc & Hb & Hr & _ & Hpath & Htext).
      by exists a, b, reqs, u.
    + intros py_files' Hp. by apply main_scan_perm.
Qed.

Lemma C6_manifest_layout_witness :
  manifest_text [("requests", "2.31.0"); ("PyYAML", "6.0.1")] =
  manifest_text [("PyYAML", "6.0.1"); ("requests", "2.31.0")].
Proof.
  apply (proj1 (proj2 (proj2 C6_manifest_layout))).
  - apply Permutation_swap.
  - unfold Py.keys. simpl. apply NoDup_cons. split.
    + intros H. apply list_elem_of_singleton in H. discriminate.
    + apply NoDup_singleton.
  - intros a b Ha Hb.
    apply list_elem_of_In in Ha, Hb. simpl in Ha, Hb.
    destruct Ha as [<-|[<-|[]]]; destruct Hb as [<-|[<-|[]]];
      first [reflexivity | discriminate].
Defined.

(** C6 as stated fails: two environments resolve the import names [a]
    and [b] to the same set of package names, [Foo] and [foo], both at
    version 1.0, and the two manifests list them in opposite orders. *)
Lemma C6_counterexample :
  exists reqs reqs',
    resolve_requirements Demo.case_dists_1 Demo.case_version ({["a"]} ∪ {["b"]})
      = Ok (reqs, []) /\
    resolve_requirements Demo.case_dists_2 Demo.case_version ({["a"]} ∪ {["b"]})
      = Ok (reqs', []) /\
    reqs ≡ₚ reqs' /\
    manifest_lines reqs = ["Foo==1.0"; "foo==1.0"] /\
    manifest_lines reqs' = ["foo==1.0"; "Foo==1.0"] /\
    manifest_text reqs <> manifest_text reqs'.
Proof.
  exists [("Foo", "1.0"); ("foo", "1.0")], [("foo", "1.0"); ("Foo", "1.0")].
  split; [vm_compute; reflexivity|]. split; [vm_compute; reflexivity|].
  split; [apply Permutation_swap|].
  split; [vm_compute; reflexivity|]. split; [vm_compute; reflexivity|].
  vm_compute. discriminate.
Qed.

(** C7: every path returned by [find_python_files] is the root
    followed by directory names none of which is in [EXCLUDE_DIRS] and
    then a file name, at any depth; every directory [os.walk] visits
    under the pruning of [find_python_files] is the root followed by
    such names, so no excluded directory is entered; and [.git],
    [__pycache__], [.venv], [build] and [dist] are excluded names. *)
Theorem C7_excluded_dirs_pruned (root : Path) (entries : list dir_entry) :
  Forall (clean_file_below root) (find_python_files root entries) /\
  Forall (fun t => clean_dir_below root t.1.1) (os_walk prune_dirnames root entries) /\
  Forall (fun d => d ∈ EXCLUDE_DIRS) [".git"; "__pycache__"; ".venv"; "build"; "dist"].
Proof.
  split; [|split].
  - apply Forall_forall. intros p. apply find_python_files_clean.
  - apply Forall_forall. intros t. apply os_walk_clean.
  - repeat apply Forall_cons_2; try apply Forall_nil_2;
      apply (bool_decide_unpack _); vm_compute; exact I.
Qed.

(** C8 (as amended): when [ast.parse] raises [SyntaxError] on the text
    of a file, [extract_top_level_imports] returns the empty set without
    raising, and the scan goes on with the remaining files as if the
    file were not there; when [ast.parse] raises anything else, nothing
    catches it: [extract_top_level_imports] raises it and so does the
    scan. *)
Theorem C8_syntax_error_is_empty
    (read_text : Path -> result string) (ast_parse : string -> result node)
    (py_file : Path) (src : string) :
  read_text py_file = Ok src ->
  (ast_parse src = Raise SyntaxError ->
   extract_top_level_imports read_text ast_parse py_file = Ok ∅ /\
   forall all_imports rest,
     collect_imports read_text ast_parse all_imports (py_file :: rest) =
     collect_imports read_text ast_parse all_imports rest) /\
  (forall e,
     ast_parse src = Raise e -> e <> SyntaxError ->
     extract_top_level_imports read_text ast_parse py_file = Raise e /\
     forall all_imports rest,
       collect_imports read_text ast_parse all_imports (py_file :: rest) = Raise e).
Proof.
  intros Hr. split.
  - intros H. pose proof (extract_syntax_error read_text ast_parse py_file src Hr H) as He.
    split; [done|]. intros all_imports rest. cbn [collect_imports]. rewrite He.
    cbn [mbind result_bind]. by rewrite (right_id_L ∅ (∪)).
  - intros e H Hne.
    assert (extract_top_level_imports read_text ast_parse py_file = Raise e) as He.
    { apply extract_raises. right. by exists src. }
    split; [done|]. intros all_imports rest. cbn [collect_imports]. by rewrite He.
Qed.

Lemma C8_syntax_error_is_empty_witness :
  (Demo.ast_parse "def (:" = Raise SyntaxError ->
   extract_top_level_imports Demo.read_text Demo.ast_parse ["broken.py"] = Ok ∅ /\
   forall all_imports rest,
     collect_imports Demo.read_text Demo.ast_parse all_imports (["broken.py"] :: rest) =
     collect_imports Demo.read_text Demo.ast_parse all_imports rest) /\
  (forall e,
     Demo.ast_parse "def (:" = Raise e -> e <> SyntaxError ->
     extract_top_level_imports Demo.read_text Demo.ast_parse ["broken.py"] = Raise e /\
     forall all_imports rest,
       collect_imports Demo.read_text Demo.ast_parse all_imports (["broken.py"] :: rest)
       = Raise e).
Proof.
  apply (C8_syntax_error_is_empty Demo.read_text Demo.ast_parse ["broken.py"] "def (:").
  reflexivity.
Defined.

(** C8 as stated fails: the text of the file holds a null byte, on which
    the parser raises [ValueError]; [extract_top_level_imports] raises
    it, and the run ends with it before anything is written. *)
Lemma C8_counterexample :
  Sample.parse_no_null Sample.null_source = Raise (OtherException "ValueError") /\
  extract_top_level_imports Sample.read_null Sample.parse_no_null
    (Demo.project_root // "bad.py") = Raise (OtherException "ValueError") /\
  main_scan Demo.sep Demo.norm Demo.no_file Demo.Path_str Demo.find_nothing
    Sample.read_null Sample.parse_no_null Demo.pil_dists Demo.pil_version
    Demo.write_text Demo.print Demo.stdlib_dir Demo.site_dirs Demo.project_root Demo.out
    [Demo.project_root // "bad.py"] =
  {| stdout := []; written := None; status := Raise (OtherException "ValueError") |}.
Proof. split; [|split]; vm_compute; reflexivity. Qed.




(** C10 (as amended): for a file that is read and parses, the returned
    set holds the first dotted segment of every name of every [import]
    statement and of the module of every [from ... import] statement
    without a relative level, wherever the statement stands in the tree:
    at the top of the module or inside functions, classes and other
    blocks. *)
Theorem C10_nested_imports_collected
    (read_text : Path -> result string) (ast_parse : string -> result node)
    (py_file : Path) (src : string) (tree n : node) (x : string) :
  read_text py_file = Ok src -> ast_parse src = Ok tree ->
  subnode n tree -> imports_name n x ->
  exists mods,
    extract_top_level_imports read_text ast_parse py_file = Ok mods /\ x ∈ mods.
Proof.
  intros Hread Hparse Hsub Himp.
  destruct (extract_parsed read_text ast_parse py_file src tree Hread Hparse)
    as (mods & He & Hiff).
  exists mods. split; [done|]. apply Hiff. by exists n.
Qed.

Lemma C10_nested_imports_collected_witness :
  exists mods,
    extract_top_level_imports Demo.read_text Demo.ast_parse ["np.py"] = Ok mods /\
    "numpy" ∈ mods.
Proof.
  apply (C10_nested_imports_collected Demo.read_text Demo.ast_parse ["np.py"]
           "def f(): import numpy as np"
           Demo.numpy_tree (Import [Alias "numpy" (Some "np")])).
  - reflexivity.
  - reflexivity.
  - apply (subnode_child _ _ _ (Node FunctionDef [Import [Alias "numpy" (Some "np")]])).
    + left.
    + apply (subnode_child _ _ _ (Import [Alias "numpy" (Some "np")])); [left|constructor].
  - apply (imports_plain _ (Alias "numpy" (Some "np"))); [left|reflexivity|discriminate].
Defined.

(** C10 as stated fails: [from .pkg import y] inside a function body is
    a from-import statement of the tree whose module has first segment
    [pkg], and the set returned for the file is empty. *)
Lemma C10_counterexample :
  subnode (ImportFrom (Some "pkg") [Alias "y" None] 1) Demo.relative_tree /\
  first_segment "pkg" = "pkg" /\
  extract_top_level_imports Demo.read_text Demo.ast_parse ["rel.py"] = Ok ∅.
Proof.
  split; [|split; vm_compute; reflexivity].
  apply (subnode_child _ _ _
           (Node FunctionDef [ImportFrom None [Alias "helper" None] 1;
                              ImportFrom (Some "pkg") [Alias "y" None] 1])).
  - left.
  - apply (subnode_child _ _ _ (ImportFrom (Some "pkg") [Alias "y" None] 1)).
    + right. left.
    + constructor.
Qed.

(** * Further properties of the code *)

(** X1: [find_python_files] returns exactly the paths [root/d1/../dk/fn]
    of the entries [fn] that are no directories, reached through
    directories [d1 .. dk] none of which is a symbolic link or has an
    excluded name, and whose name ends in [.py] without being excluded
    by suffix: no such file is missed and nothing else is returned. *)
Theorem X1_find_python_files_exact (root : Path) (entries : list dir_entry) (p : Path) :
  p ∈ find_python_files root entries <->
  exists ds fn,
    p = (root ++ ds ++ [fn])%list /\ file_at entries ds fn /\ clean_dirs ds /\
    is_python_file fn = true.
Proof. apply find_python_files_spec. Qed.

(** X3: when no Python file is reachable through non-excluded
    directories, [main] reads, parses, classifies and resolves nothing
    and writes no file, whatever the environment: it prints the one line
    [[INFO] No Python files found under: <root>] and exits with status 0
    when standard output takes the line, and ends with the exception of
    [print] otherwise. *)
Theorem X3_main_without_python_files
    (sep : ascii) (norm : string -> string) (exists_ : Path -> bool)
    (Path_str : Path -> string) (find_spec : string -> result (option ModuleSpec))
    (read_text : Path -> result string) (ast_parse : string -> result node)
    (top_to_dists : gmap string (list string)) (version : string -> result string)
    (write_text : Path -> string -> result unit) (print : string -> result unit)
    (stdlib_dir : string) (site_dirs : list string)
    (project_root : Path) (root_entries : list dir_entry) (out : Path) :
  (forall ds fn, file_at root_entries ds fn -> clean_dirs ds -> is_python_file fn = false) ->
  let line := "[INFO] No Python files found under: " ++ Path_str project_root in
  let run :=
    main sep norm exists_ Path_str find_spec read_text ast_parse top_to_dists version
      write_text print stdlib_dir site_dirs project_root root_entries out in
  (print line = Ok () ->
   run = {| stdout := [line]; written := None; status := Ok 0%Z |}) /\
  (forall e, print line = Raise e ->
   run = {| stdout := []; written := None; status := Raise e |}).
Proof.
  intros Hno line run. apply (no_python_files_iff project_root) in Hno.
  subst run. unfold main. rewrite Hno. apply main_scan_no_files.
Qed.

Lemma X3_main_without_python_files_witness :
  let line := "[INFO] No Python files found under: " ++ Demo.Path_str Demo.project_root in
  let run :=
    main Demo.sep Demo.norm Demo.no_file Demo.Path_str Demo.find_nothing
      Demo.read_text Sample.crash_parse Demo.pil_dists Demo.pil_version
      Demo.write_text Demo.print
      Demo.stdlib_dir Demo.site_dirs Demo.project_root Sample.bare_entries Demo.out in
  (Demo.print line = Ok () ->
   run = {| stdout := [line]; written := None; status := Ok 0%Z |}) /\
  (forall e, Demo.print line = Raise e ->
   run = {| stdout := []; written := None; status := Raise e |}).
Proof.
  apply (X3_main_without_python_files Demo.sep Demo.norm Demo.no_file Demo.Path_str
           Demo.find_nothing Demo.read_text Sample.crash_parse Demo.pil_dists
           Demo.pil_version Demo.write_text Demo.print
           Demo.stdlib_dir Demo.site_dirs Demo.project_root
           Sample.bare_entries Demo.out).
  apply no_python_files_iff with (project_root := Demo.project_root).
  vm_compute. reflexivity.
Defined.

(** X4: a run of [main] that ends with an exit status wrote no file if
    and only if no Python file was reachable through non-excluded
    directories that are no symbolic links: once a Python file is
    found, the manifest is written whenever the run completes. *)
Theorem X4_manifest_written_iff_files
    (sep : ascii) (norm : string -> string) (exists_ : Path -> bool)
    (Path_str : Path -> string) (find_spec : string -> result (option ModuleSpec))
    (read_text : Path -> result string) (ast_parse : string -> result node)
    (top_to_dists : gmap string (list string)) (version : string -> result string)
    (write_text : Path -> string -> result unit) (print : string -> result unit)
    (stdlib_dir : string) (site_dirs : list string)
    (project_root : Path) (root_entries : list dir_entry) (out : Path) (code : Z) :
  let run :=
    main sep norm exists_ Path_str find_spec read_text ast_parse top_to_dists version
      write_text print stdlib_dir site_dirs project_root root_entries out in
  status run = Ok code ->
  (written run = None <->
   forall ds fn, file_at root_entries ds fn -> clean_dirs ds -> is_python_file fn = false).
Proof.
  intros run Hs. subst run. unfold main in *.
  rewrite <- (no_python_files_iff project_root).
  destruct (find_python_files project_root root_entries) as [|p l] eqn:E.
  - split; [done|]. intros _. unfold main_scan. by destruct (print_lines print _).
  - split; [|done]. intros Hw.
    apply main_scan_completed in Hs as (? & ? & ? & ? & _ & _ & _ & _ & _ & Hrun & _);
      [|done].
    by rewrite Hrun in Hw.
Qed.

Lemma X4_manifest_written_iff_files_witness :
  written Demo.pil_main = None <->
  forall ds fn, file_at [File "app.py"] ds fn -> clean_dirs ds -> is_python_file fn = false.
Proof.
  apply (X4_manifest_written_iff_files Demo.sep Demo.norm Demo.no_file Demo.Path_str
           Demo.find_nothing Demo.read_text Demo.ast_parse Demo.pil_dists
           Demo.pil_version Demo.write_text Demo.print
           Demo.stdlib_dir Demo.site_dirs Demo.project_root
           [File "app.py"] Demo.out 0%Z).
  vm_compute. reflexivity.
Defined.

(** X5: every name in the set returned by [extract_top_level_imports]
    is non-empty and contains no dot. *)
Theorem X5_extracted_names_plain
    (read_text : Path -> result string) (ast_parse : string -> result node)
    (py_file : Path) (mods : gset string) (x : string) :
  extract_top_level_imports read_text ast_parse py_file = Ok mods ->
  x ∈ mods -> x <> "" /\ Py.contains "." x = false.
Proof. apply extract_names_plain. Qed.

Lemma X5_extracted_names_plain_witness :
  "PIL" <> "" /\ Py.contains "." "PIL" = false.
Proof.
  apply (X5_extracted_names_plain Demo.read_text Demo.ast_parse ["app.py"]
           ({["PIL"]} ∪ {["pillow"]})).
  - vm_compute. reflexivity.
  - apply elem_of_union. left. by apply elem_of_singleton.
Defined.

(** X6: what the loop over [ast.walk(tree)] accumulates depends only on
    which nodes are visited, not on their order or on repetitions. *)
Theorem X6_walk_order_irrelevant (mods : gset string) (l l' : list node) :
  (forall n, n ∈ l <-> n ∈ l') -> foldl visit mods l = foldl visit mods l'.
Proof. apply foldl_visit_ext. Qed.

Lemma X6_walk_order_irrelevant_witness :
  foldl visit ∅ [Import [Alias "os" None]; Import [Alias "json" None]] =
  foldl visit ∅ [Import [Alias "json" None]; Import [Alias "os" None];
                  Import [Alias "json" None]].
Proof.
  apply X6_walk_order_irrelevant. intros n.
  rewrite !elem_of_cons. pose proof (elem_of_nil n). tauto.
Defined.

(** X8: when one of the scanned files cannot be read, or [ast.parse]
    raises anything but [SyntaxError] on its text, the run fails: it
    ends with an exception before anything is written or printed. *)
Theorem X8_parser_failure_aborts
    (sep : ascii) (norm : string -> string) (exists_ : Path -> bool)
    (Path_str : Path -> string) (find_spec : string -> result (option ModuleSpec))
    (read_text : Path -> result string) (ast_parse : string -> result node)
    (top_to_dists : gmap string (list string)) (version : string -> result string)
    (write_text : Path -> string -> result unit) (print : string -> result unit)
    (stdlib_dir : string) (site_dirs : list string) (project_root out : Path)
    (py_files : list Path) (f : Path) (e : exn) :
  f ∈ py_files ->
  read_text f = Raise e \/
  (exists src, read_text f = Ok src /\ ast_parse src = Raise e /\ e <> SyntaxError) ->
  exists e',
    main_scan sep norm exists_ Path_str find_spec read_text ast_parse
      top_to_dists version write_text print stdlib_dir site_dirs project_root out py_files =
    {| stdout := []; written := None; status := Raise e' |}.
Proof.
  intros Hin Hf. apply (main_scan_aborts _ _ _ _ _ _ _ _ _ _ _ _ _ _ _ _ f e Hin).
  by apply extract_raises.
Qed.

Lemma X8_parser_failure_aborts_witness :
  exists e',
    main_scan Demo.sep Demo.norm Demo.no_file Demo.Path_str Demo.find_nothing
      Demo.read_text Sample.crash_parse Demo.pil_dists Demo.pil_version
      Demo.write_text Demo.print
      Demo.stdlib_dir Demo.site_dirs Demo.project_root Demo.out
      [Demo.project_root // "app.py"] =
    {| stdout := []; written := None; status := Raise e' |}.
Proof.
  apply (X8_parser_failure_aborts Demo.sep Demo.norm Demo.no_file Demo.Path_str
           Demo.find_nothing Demo.read_text Sample.crash_parse Demo.pil_dists
           Demo.pil_version Demo.write_text Demo.print
           Demo.stdlib_dir Demo.site_dirs Demo.project_root Demo.out
           [Demo.project_root // "app.py"] (Demo.project_root // "app.py")
           (OtherException "ValueError")).
  - left.
  - right. exists "import PIL, pillow". split; [reflexivity|]. split; [reflexivity|discriminate].
Defined.

(** X9: the classification loop of [main] puts a name into the
    third-party, local, stdlib or unknown bucket exactly when it is one
    of the names it was given and [classify_module_origin] answers
    "thirdparty", "local", "stdlib" or "unknown" for it; so the four
    buckets are disjoint and together hold every name. *)
Theorem X9_buckets_by_classification
    (sep : ascii) (norm : string -> string) (exists_ : Path -> bool)
    (Path_str : Path -> string) (find_spec : string -> result (option ModuleSpec))
    (stdlib_dir : string) (site_dirs : list string) (project_root : Path)
    (names : list string) (b : buckets) :
  classify_all sep norm exists_ Path_str find_spec stdlib_dir site_dirs project_root
    {| third_party_mods := ∅; skipped_local := ∅;
       skipped_stdlib := ∅; unknown_kind := ∅ |} names = Ok b ->
  let classify n :=
    classify_module_origin sep norm exists_ Path_str find_spec
      n project_root stdlib_dir site_dirs in
  (forall n, n ∈ third_party_mods b <-> n ∈ names /\ classify n = Ok "thirdparty") /\
  (forall n, n ∈ skipped_local b <-> n ∈ names /\ classify n = Ok "local") /\
  (forall n, n ∈ skipped_stdlib b <-> n ∈ names /\ classify n = Ok "stdlib") /\
  (forall n, n ∈ unknown_kind b <-> n ∈ names /\ classify n = Ok "unknown") /\
  (forall n, n ∈ names ->
     n ∈ third_party_mods b ∪ skipped_local b ∪ skipped_stdlib b ∪ unknown_kind b).
Proof.
  intros H classify.
  pose proof (classify_all_buckets sep norm exists_ Path_str find_spec
                stdlib_dir site_dirs project_root names _ _ H) as Hb.
  cbn [third_party_mods skipped_local skipped_stdlib unknown_kind] in Hb.
  split; [|split; [|split; [|split]]].
  - intros n. destruct (Hb n) as (H1 & _). rewrite H1.
    split; [intros [?%not_elem_of_empty|?]; done|by right].
  - intros n. destruct (Hb n) as (_ & H2 & _). rewrite H2.
    split; [intros [?%not_elem_of_empty|?]; done|by right].
  - intros n. destruct (Hb n) as (_ & _ & H3 & _). rewrite H3.
    split; [intros [?%not_elem_of_empty|?]; done|by right].
  - intros n. destruct (Hb n) as (_ & _ & _ & H4). rewrite H4.
    split; [intros [?%not_elem_of_empty|?]; done|by right].
  - intros n Hn. destruct (Hb n) as (H1 & H2 & H3 & H4).
    destruct (classify n) as [kind|e] eqn:Hk.
    + rewrite !elem_of_union, H1, H2, H3, H4.
      destruct (classify_range sep norm exists_ Path_str find_spec _ _ _ _ _ Hk)
        as [-> | [-> | [-> | ->]]]; subst classify; simpl in Hk; rewrite Hk; tauto.
    + exfalso. clear Hb H1 H2 H3 H4. subst classify. simpl in Hk.
      revert H. generalize {| third_party_mods := ∅; skipped_local := ∅;
                              skipped_stdlib := ∅; unknown_kind := ∅ |}.
      induction names as [|m names IH]; intros b0; [by apply elem_of_nil in Hn|].
      cbn [classify_all]. apply elem_of_cons in Hn as [<-|Hn].
      * by rewrite Hk.
      * destruct (classify_module_origin _ _ _ _ _ m _ _ _); cbn [mbind result_bind];
          [by apply IH|done].
Qed.

Lemma X9_buckets_by_classification_witness :
  let b := {| third_party_mods := ∅; skipped_local := ∅;
              skipped_stdlib := ∅; unknown_kind := {["PIL"]} ∪ {["pillow"]} |} in
  let classify n :=
    classify_module_origin Demo.sep Demo.norm Demo.no_file Demo.Path_str
      Demo.find_nothing n Demo.project_root Demo.stdlib_dir Demo.site_dirs in
  (forall n, n ∈ third_party_mods b <->
     n ∈ ["PIL"; "pillow"] /\ classify n = Ok "thirdparty") /\
  (forall n, n ∈ skipped_local b <-> n ∈ ["PIL"; "pillow"] /\ classify n = Ok "local") /\
  (forall n, n ∈ skipped_stdlib b <-> n ∈ ["PIL"; "pillow"] /\ classify n = Ok "stdlib") /\
  (forall n, n ∈ unknown_kind b <-> n ∈ ["PIL"; "pillow"] /\ classify n = Ok "unknown") /\
  (forall n, n ∈ ["PIL"; "pillow"] ->
     n ∈ third_party_mods b ∪ skipped_local b ∪ skipped_stdlib b ∪ unknown_kind b).
Proof.
  apply (X9_buckets_by_classification Demo.sep Demo.norm Demo.no_file Demo.Path_str
           Demo.find_nothing Demo.stdlib_dir Demo.site_dirs Demo.project_root).
  vm_compute. reflexivity.
Defined.

(** X10: the path test of the classifier is a partial order on paths:
    every path lies under itself, lying under composes, and two paths
    that lie under each other are equal. *)
Theorem X10_lies_under_order (sep : ascii) :
  (forall d, lies_under sep d d = true) /\
  (forall o d e,
     lies_under sep o d = true -> lies_under sep d e = true -> lies_under sep o e = true) /\
  (forall o d, lies_under sep o d = true -> lies_under sep d o = true -> o = d).
Proof.
  split; [|split].
  - intros d. apply lies_under_spec, Under_refl.
  - intros o d e H1%lies_under_spec H2%lies_under_spec.
    apply lies_under_spec. by eapply Under_trans.
  - intros o d H1%lies_under_spec H2%lies_under_spec. by eapply Under_antisym.
Qed.

Lemma X10_lies_under_order_witness :
  lies_under "/" "/proj/.venv/lib/site-packages/requests" "/proj" = true.
Proof.
  apply (proj1 (proj2 (X10_lies_under_order "/"))
           "/proj/.venv/lib/site-packages/requests" "/proj/.venv/lib/site-packages" "/proj");
    reflexivity.
Defined.

(** X11: against a reference directory that is the separator alone (the
    filesystem root), a path that starts with the separator passes the
    test only when it is the root itself or starts with two separators:
    [/usr/lib] does not lie under [/]. *)
Theorem X11_root_directory_edge (sep : ascii) (rest : string) :
  lies_under sep (os_sep sep ++ rest) (os_sep sep) = true <->
  rest = "" \/ exists r, rest = String sep r.
Proof. apply lies_under_root. Qed.

(** X12: when every site directory lies under the project root (a
    virtual environment kept inside the project), no name is classified
    "thirdparty". *)
Theorem X12_site_dirs_inside_project
    (sep : ascii) (norm : string -> string) (exists_ : Path -> bool)
    (Path_str : Path -> string) (find_spec : string -> result (option ModuleSpec))
    (name : string) (project_root : Path) (stdlib_dir : string) (site_dirs : list string) :
  (forall sd, sd ∈ site_dirs -> lies_under sep sd (norm (Path_str project_root)) = true) ->
  classify_module_origin sep norm exists_ Path_str find_spec
    name project_root stdlib_dir site_dirs <> Ok "thirdparty".
Proof.
  intros H. apply classify_site_inside_project. intros sd Hsd.
  by apply lies_under_spec, H.
Qed.

Lemma X12_site_dirs_inside_project_witness :
  classify_module_origin Demo.sep Demo.norm Demo.no_file Demo.Path_str Sample.find_in_venv
    "requests" Demo.project_root Demo.stdlib_dir Sample.venv_site_dirs <> Ok "thirdparty".
Proof.
  apply X12_site_dirs_inside_project. intros sd Hsd.
  apply list_elem_of_singleton in Hsd. rewrite Hsd. reflexivity.
Defined.

(** X13: when the layout reported by [sysconfig] has no stdlib entry
    (or an empty one), [get_stdlib_dir] is empty and, with it, a name is
    classified "stdlib" only when its spec is built-in or frozen. *)
Theorem X13_no_stdlib_dir
    (sep : ascii) (norm : string -> string) (exists_ : Path -> bool)
    (Path_str : Path -> string) (find_spec : string -> result (option ModuleSpec))
    (get_paths : gmap string string)
    (name : string) (project_root : Path) (site_dirs : list string) :
  get_paths !! "stdlib" = None \/ get_paths !! "stdlib" = Some "" ->
  get_stdlib_dir norm get_paths = "" /\
  (classify_module_origin sep norm exists_ Path_str find_spec
     name project_root (get_stdlib_dir norm get_paths) site_dirs = Ok "stdlib" ->
   exists spec, find_spec name = Ok (Some spec) /\
     (origin spec = Some "built-in" \/ origin spec = Some "frozen")).
Proof.
  intros H. pose proof (proj1 (get_stdlib_dir_cases norm get_paths) H) as ->.
  split; [done|]. apply classify_stdlib_needs_dir.
Qed.

Lemma X13_no_stdlib_dir_witness :
  get_stdlib_dir Demo.norm Sample.no_paths = "" /\
  (classify_module_origin Demo.sep Demo.norm Demo.no_file Demo.Path_str Sample.find_sys
     "sys" Demo.project_root (get_stdlib_dir Demo.norm Sample.no_paths) Demo.site_dirs
   = Ok "stdlib" ->
   exists spec, Sample.find_sys "sys" = Ok (Some spec) /\
     (origin spec = Some "built-in" \/ origin spec = Some "frozen")).
Proof. apply X13_no_stdlib_dir. left. reflexivity. Defined.

(** X14: [get_site_package_dirs] returns, in strictly ascending order
    and so without repetition, exactly the normalised forms of the
    directories of [site.getsitepackages()], of
    [site.getusersitepackages()] and of the non-empty [purelib] and
    [platlib] entries of [sysconfig.get_paths()]. *)
Theorem X14_site_package_dirs
    (norm : string -> string) (get_paths : gmap string string)
    (getsitepackages : option (list string)) (getusersitepackages : option string) :
  let dirs := get_site_package_dirs norm get_paths getsitepackages getusersitepackages in
  Sorted (fun a b => String.ltb a b = true) dirs /\
  forall x, x ∈ dirs <->
    (exists ds d, getsitepackages = Some ds /\ d ∈ ds /\ x = norm d) \/
    (exists u, getusersitepackages = Some u /\ x = norm u) \/
    (exists key p, (key = "purelib" \/ key = "platlib") /\
       get_paths !! key = Some p /\ p <> "" /\ x = norm p).
Proof.
  split; [apply get_site_package_dirs_sorted|].
  apply get_site_package_dirs_elem.
Qed.



(** X16: the top-level names read from a non-empty [top_level.txt] are
    the stripped non-blank lines of the file: each is non-empty, is left
    unchanged by stripping again and holds no line boundary. *)
Theorem X16_tops_from_top_level_txt (dist : Distribution) (t top : string) :
  top_level_txt dist = Ok (Some t) -> t <> "" ->
  (top ∈ tops_of dist <->
   exists line, line ∈ PyText.splitlines t /\ PyText.strip line = top /\ top <> "") /\
  (top ∈ tops_of dist -> PyText.strip top = top /\ plain_chars top).
Proof.
  intros Ht Hne. rewrite (proj1 (tops_of_cases dist) t Ht Hne).
  split; [apply tops_of_txt_elem|]. intros H%tops_of_txt_trimmed. tauto.
Qed.

Lemma X16_tops_from_top_level_txt_witness :
  ("yaml" ∈ tops_of Sample.yaml_dist <->
   exists line,
     line ∈ PyText.splitlines ("_yaml" ++ nl ++ "  yaml " ++ nl ++ nl) /\
     PyText.strip line = "yaml" /\ "yaml" <> "") /\
  ("yaml" ∈ tops_of Sample.yaml_dist ->
   PyText.strip "yaml" = "yaml" /\ plain_chars "yaml").
Proof. apply X16_tops_from_top_level_txt; [reflexivity|discriminate]. Defined.

Lemma entry_from_resolves top_to_dists version modules k v :
  entry_from top_to_dists version modules k v ->
  exists m, m ∈ modules /\ resolves top_to_dists version m = Some (k, v).
Proof.
  intros (m & dists & chosen & Hm & Hl & Hp & Hv & ->). exists m. split; [done|].
  unfold resolves. rewrite Hl. destruct dists as [|d ds]; [done|]. by rewrite Hp, Hv.
Qed.

(** X18: the list of unresolved names returned by
    [resolve_requirements] is the list of the given names, in ascending
    order and without repetition, from which those that resolve to a
    distribution with a version are removed. *)
Theorem X18_unresolved_list
    (top_to_dists : gmap string (list string)) (version : string -> result string)
    (modules : gset string) (reqs : list (string * string)) (unresolved : list string) :
  resolve_requirements top_to_dists version modules = Ok (reqs, unresolved) ->
  unresolved =
    List.filter (fun m => bool_decide (resolves top_to_dists version m = None))
      (Py.sorted (elements modules)) /\
  Sorted (fun a b => String.ltb a b = true) unresolved.
Proof.
  intros H. unfold resolve_requirements in H.
  apply resolve_loop_unresolved_list in H. simpl in H. subst unresolved.
  split; [done|].
  apply StronglySorted_Sorted, StronglySorted_filter_bool, Sorted_StronglySorted;
    [apply _|apply sorted_elements_strict].
Qed.

Lemma X18_unresolved_list_witness :
  ["pillow"] =
    List.filter (fun m => bool_decide (resolves Demo.pil_dists Demo.pil_version m = None))
      (Py.sorted (elements ({["PIL"]} ∪ {["pillow"]} : gset string))) /\
  Sorted (fun a b => String.ltb a b = true) ["pillow"].
Proof.
  apply (X18_unresolved_list Demo.pil_dists Demo.pil_version ({["PIL"]} ∪ {["pillow"]})
           [("pillow", "10.0.0")]).
  vm_compute. reflexivity.
Defined.

Lemma requirement_keys_exact
    (top_to_dists : gmap string (list string)) (version : string -> result string)
    (modules : gset string) (reqs : list (string * string)) (unresolved : list string) :
  resolve_requirements top_to_dists version modules = Ok (reqs, unresolved) ->
  (forall k, k ∈ Py.keys reqs <->
     exists m v, m ∈ modules /\ resolves top_to_dists version m = Some (k, v)) /\
  (forall k v, (k, v) ∈ reqs ->
     exists m, m ∈ modules /\ resolves top_to_dists version m = Some (k, v)).
Proof.
  intros H. destruct (resolve_requirements_ok _ _ _ _ _ H) as [_ Hfrom].
  assert (forall k v, (k, v) ∈ reqs ->
            exists m, m ∈ modules /\ resolves top_to_dists version m = Some (k, v)) as Hent.
  { intros k v Hkv. by apply entry_from_resolves, Hfrom. }
  split; [|done]. intros k. split.
  - intros ([k' v] & -> & Hkv)%list_elem_of_fmap.
    destruct (Hent _ _ Hkv) as (m & ? & ?). by exists m, v.
  - intros (m & v & Hm & Hr). unfold resolve_requirements in H.
    apply (resolve_loop_keys _ _ _ _ _ m k v H); [|done].
    by rewrite sorted_elem, elem_of_elements.
Qed.

(** X19: a package name is a key of the mapping returned by
    [resolve_requirements] exactly when one of the given names resolves
    to it, and every entry holds the version of a name that resolves to
    its key. *)
Theorem X19_requirement_keys
    (top_to_dists : gmap string (list string)) (version : string -> result string)
    (modules : gset string) (reqs : list (string * string)) (unresolved : list string) :
  resolve_requirements top_to_dists version modules = Ok (reqs, unresolved) ->
  (forall k, k ∈ Py.keys reqs <->
     exists m v, m ∈ modules /\ resolves top_to_dists version m = Some (k, v)) /\
  (forall k v, (k, v) ∈ reqs ->
     exists m, m ∈ modules /\ resolves top_to_dists version m = Some (k, v)).
Proof. apply requirement_keys_exact. Qed.

Lemma X19_requirement_keys_witness :
  (forall k, k ∈ Py.keys [("pillow", "10.0.0")] <->
     exists m v, m ∈ ({["PIL"]} ∪ {["pillow"]} : gset string) /\
       resolves Demo.pil_dists Demo.pil_version m = Some (k, v)) /\
  (forall k v, (k, v) ∈ [("pillow", "10.0.0")] ->
     exists m, m ∈ ({["PIL"]} ∪ {["pillow"]} : gset string) /\
       resolves Demo.pil_dists Demo.pil_version m = Some (k, v)).
Proof.
  apply (X19_requirement_keys Demo.pil_dists Demo.pil_version _ _ ["pillow"]).
  vm_compute. reflexivity.
Defined.

(** X20: when several given names resolve to the same package name, the
    mapping keeps the version of the one that is last in string order:
    the last write wins. *)
Theorem X20_last_write_wins
    (top_to_dists : gmap string (list string)) (version : string -> result string)
    (modules : gset string) (reqs : list (string * string)) (unresolved : list string)
    (m k v : string) :
  resolve_requirements top_to_dists version modules = Ok (reqs, unresolved) ->
  m ∈ modules -> resolves top_to_dists version m = Some (k, v) ->
  (forall m' v', m' ∈ modules -> String.ltb m m' = true ->
     resolves top_to_dists version m' <> Some (k, v')) ->
  (k, v) ∈ reqs.
Proof.
  intros H Hm Hr Hlast. unfold resolve_requirements in H.
  destruct (strictly_sorted_split (Py.sorted (elements modules)) m)
    as (l1 & l2 & Hsplit & Hl2).
  { apply sorted_elements_strict. }
  { by rewrite sorted_elem, elem_of_elements. }
  assert (forall x, x ∈ l2 -> x ∈ modules) as Hsub.
  { intros x Hx. apply elem_of_elements, sorted_elem. rewrite Hsplit.
    apply elem_of_app. right. by right. }
  rewrite Hsplit, resolve_loop_app in H.
  destruct (resolve_loop top_to_dists version ([], []) l1) as [[reqs1 unres1]|] eqn:H1;
    cbn [mbind result_bind] in H; [|done].
  cbn [resolve_loop] in H.
  destruct (resolve_step top_to_dists version (reqs1, unres1) m) as [st2|] eqn:H2;
    cbn [mbind result_bind] in H; [|done].
  apply (resolve_loop_keeps top_to_dists version l2 st2 (reqs, unresolved) k v H).
  - apply resolve_step_ok_cases in H2 as [(k' & v' & Hr' & ->)|[Hr' _]]; [|congruence].
    rewrite Hr in Hr'. injection Hr' as <- <-. apply setitem_In.
  - intros m' v' Hm'. apply Hlast; [by apply Hsub|].
    rewrite Forall_forall in Hl2. by apply Hl2.
Qed.

Lemma X20_last_write_wins_witness :
  ("my-pkg", "2.0") ∈ [("my-pkg", "2.0")].
Proof.
  apply (X20_last_write_wins Sample.sep_dists Sample.sep_version ({["a"]} ∪ {["b"]})
           [("my-pkg", "2.0")] [] "b" "my-pkg" "2.0").
  - vm_compute. reflexivity.
  - apply elem_of_union. right. by apply elem_of_singleton.
  - vm_compute. reflexivity.
  - intros m' v' [Hm'|Hm']%elem_of_union Hlt;
      apply elem_of_singleton in Hm'; subst m'; vm_compute in Hlt; discriminate.
Defined.



(** X22: [normalize_dist_name] is idempotent, keeps the length of the
    name, and leaves a name unchanged exactly when the name holds no
    underscore. *)
Theorem X22_normalize_dist_name :
  (forall s, normalize_dist_name (normalize_dist_name s) = normalize_dist_name s) /\
  (forall s, String.length (normalize_dist_name s) = String.length s) /\
  (forall s, normalize_dist_name s = s <-> Py.contains "_" s = false).
Proof.
  split; [apply normalize_idem|]. split; [|apply normalize_fixed].
  intros s. apply replace_length.
Qed.

(** X23: the text written to the manifest is the concatenation of its
    lines, each followed by a newline, and it has as many lines as the
    mapping has entries. *)
Theorem X23_manifest_text_lines (reqs_map : list (string * string)) :
  manifest_text reqs_map =
    String.concat "" (map (fun line => line ++ nl) (manifest_lines reqs_map)) /\
  List.length (manifest_lines reqs_map) = List.length reqs_map.
Proof.
  split; [apply join_terminated|apply manifest_lines_length].
Qed.

(** X24: the sort behind the manifest is stable: the entries whose
    package names are equal up to letter case appear in the manifest in
    the order they have in the mapping. *)
Theorem X24_manifest_order_stable (reqs_map : list (string * string)) (c : string) :
  List.filter (fun x => String.eqb (Py.lower x.1) c)
    (Py.sorted_key (fun x => Py.lower x.1) reqs_map) =
  List.filter (fun x => String.eqb (Py.lower x.1) c) reqs_map.
Proof. apply (sort_stable (fun x : string * string => Py.lower x.1)). Qed.

(** X25: the warning block is absent when every unresolved name is a
    key of the requirements mapping; otherwise it is the header, the
    line listing in strictly ascending order exactly the unresolved
    names that are not keys, and the closing hint. *)
Theorem X25_warning_block (reqs_map : list (string * string)) (unresolved : list string) :
  exists names,
    (forall n, n ∈ names <-> n ∈ unresolved /\ n ∉ Py.keys reqs_map) /\
    Sorted (fun a b => String.ltb a b = true) names /\
    warn_block reqs_map unresolved =
      match names with
      | [] => []
      | _ => ["[WARN] Some imports couldn't be mapped to installed distributions:";
              "       " ++ Py.join ", " names;
              "       If these are local modules, ignore. If third-party, make sure they’re installed."]
      end.
Proof. apply warn_block_exact. Qed.

(** X26: in a run that found Python files and ends with an exit status,
    every entry of the written manifest comes from a name that some
    scanned file imports, that was classified "thirdparty" or "unknown"
    (never "local" or "stdlib"), and that resolves to the entry's
    package and version; and the count printed in the first line is the
    number of entries. *)
Theorem X26_manifest_entries_justified
    (sep : ascii) (norm : string -> string) (exists_ : Path -> bool)
    (Path_str : Path -> string) (find_spec : string -> result (option ModuleSpec))
    (read_text : Path -> result string) (ast_parse : string -> result node)
    (top_to_dists : gmap string (list string)) (version : string -> result string)
    (write_text : Path -> string -> result unit) (print : string -> result unit)
    (stdlib_dir : string) (site_dirs : list string) (project_root out : Path)
    (py_files : list Path) (code : Z) :
  let o :=
    main_scan sep norm exists_ Path_str find_spec read_text ast_parse
      top_to_dists version write_text print stdlib_dir site_dirs project_root out py_files in
  status o = Ok code ->
  py_files <> [] ->
  exists reqs,
    written o = Some (Path_str out, manifest_text reqs) /\
    hd "" (stdout o) =
      "[OK] Wrote " ++ Path_str out ++ " with " ++ pretty (List.length reqs)
        ++ " package(s)." /\
    forall k v, (k, v) ∈ reqs ->
      exists f mods name kind,
        f ∈ py_files /\
        extract_top_level_imports read_text ast_parse f = Ok mods /\ name ∈ mods /\
        classify_module_origin sep norm exists_ Path_str find_spec
          name project_root stdlib_dir site_dirs = Ok kind /\
        (kind = "thirdparty" \/ kind = "unknown") /\
        resolves top_to_dists version name = Some (k, v).
Proof.
  intros o H Hne. subst o.
  apply main_scan_completed in H
    as (all_imports & b & reqs & unresolved & Hc & Hb & Hr & _ & _ & Hrun & _); [|done].
  rewrite Hrun. cbn [written stdout].
  exists reqs. split; [done|]. split.
  { cbn [hd]. by rewrite manifest_lines_length. }
  intros k v Hkv.
  destruct (proj2 (requirement_keys_exact _ _ _ _ _ Hr) k v Hkv) as (name & Hname & Hres).
  pose proof (classify_all_buckets sep norm exists_ Path_str find_spec
                stdlib_dir site_dirs project_root _ _ _ Hb name) as (H1 & _ & _ & H4).
  cbn [third_party_mods unknown_kind] in H1, H4.
  assert (exists kind,
            name ∈ Py.sorted (elements all_imports) /\
            classify_module_origin sep norm exists_ Path_str find_spec
              name project_root stdlib_dir site_dirs = Ok kind /\
            (kind = "thirdparty" \/ kind = "unknown")) as (kind & Hin & Hk & Hkind).
  { apply elem_of_union in Hname as [Ht|Hu].
    - apply H1 in Ht as [?%not_elem_of_empty|[? ?]]; [done|]. exists "thirdparty". auto.
    - apply H4 in Hu as [?%not_elem_of_empty|[? ?]]; [done|]. exists "unknown". auto. }
  rewrite sorted_elem, elem_of_elements in Hin.
  apply (collect_imports_union read_text ast_parse _ _ _ Hc) in Hin
    as [?%not_elem_of_empty|(f & mods & Hf & He & Hx)]; [done|].
  by exists f, mods, name, kind.
Qed.

Lemma X26_manifest_entries_justified_witness :
  let o :=
    main_scan Demo.sep Demo.norm Demo.no_file Demo.Path_str Demo.find_nothing
      Demo.read_text Demo.ast_parse Demo.pil_dists Demo.pil_version
      Demo.write_text Demo.print Demo.stdlib_dir Demo.site_dirs Demo.project_root
      Demo.out [Demo.project_root // "app.py"] in
  exists reqs,
    written o = Some (Demo.Path_str Demo.out, manifest_text reqs) /\
    hd "" (stdout o) =
      "[OK] Wrote " ++ Demo.Path_str Demo.out ++ " with " ++ pretty (List.length reqs)
        ++ " package(s)." /\
    forall k v, (k, v) ∈ reqs ->
      exists f mods name kind,
        f ∈ [Demo.project_root // "app.py"] /\
        extract_top_level_imports Demo.read_text Demo.ast_parse f = Ok mods /\
        name ∈ mods /\
        classify_module_origin Demo.sep Demo.norm Demo.no_file Demo.Path_str
          Demo.find_nothing name Demo.project_root Demo.stdlib_dir Demo.site_dirs
          = Ok kind /\
        (kind = "thirdparty" \/ kind = "unknown") /\
        resolves Demo.pil_dists Demo.pil_version name = Some (k, v).
Proof.
  apply (X26_manifest_entries_justified Demo.sep Demo.norm Demo.no_file Demo.Path_str
           Demo.find_nothing Demo.read_text Demo.ast_parse Demo.pil_dists
           Demo.pil_version Demo.write_text Demo.print
           Demo.stdlib_dir Demo.site_dirs Demo.project_root Demo.out
           [Demo.project_root // "app.py"] 0%Z).
  - vm_compute. reflexivity.
  - discriminate.
Defined.
